(** * Sponsorship outreach: contact finding, ranking, brief fallback and send worker

    A shallow embedding of the core of the [outreach_app] package:

    - [contacts/finder.py]: [extract_emails], [guess_role],
      [find_contacts_from_pages];
    - [contacts/ranker.py]: [pick_top_contacts];
    - [writer/llm.py] and [writer/brief.py]: [chat_completion],
      [json_from_llm], [build_personalization_brief];
    - [queue/worker.py]: [run_worker], over the tables of [db/models.py];
    - [sender/mime_builder.py] and [sender/smtp_sender.py]:
      [build_message], [send_smtp];
    - [research/company_profile.py], [research/scraper.py]:
      [summarize_company_pages], [guess_key_pages] and the text
      normalisation of [fetch_url_text];
    - [writer/templates.py] and [writer/email_writer.py]:
      [write_email_template], [write_email_with_llm];
    - [ingest/org_profile_ai.py] and [ingest/proposal_pdf.py]:
      [_clean_payload], [extract_org_profile_with_llm],
      [extract_text_from_pdf].

    A Python [str] is modelled as the [string] of the bytes of its UTF-8
    text: the character classes of the regular expression are ASCII,
    [strip] removes the white space of Unicode, [lower] is exact on the
    ASCII letters of its result, and the slices and lengths of [Utf8]
    count code points. A Python [float] is the
    kernel's binary64 float, so that the arithmetic of the confidence
    score is the arithmetic Python performs. Calls that leave the process
    (HTTP, SMTP, the clock, the files to attach) are parameters of the
    model. *)

From Stdlib Require Import Bool List String Ascii NArith ZArith Lia Floats.
From Stdlib Require Import Sorting.Sorted Permutation.
Import ListNotations.

Set Warnings "-inexact-float,-register-all,-abstract-large-number".

Local Open Scope string_scope.
Local Open Scope bool_scope.

(** ** Python string operations *)

Module PyStr.

Definition in_range (lo hi c : ascii) : bool :=
  ((N_of_ascii lo <=? N_of_ascii c) && (N_of_ascii c <=? N_of_ascii hi))%N.

Definition is_upper (c : ascii) : bool := in_range "A" "Z" c.
Definition is_lower (c : ascii) : bool := in_range "a" "z" c.
Definition is_digit (c : ascii) : bool := in_range "0" "9" c.
Definition is_alpha (c : ascii) : bool := is_upper c || is_lower c.
Definition is_alnum (c : ascii) : bool := is_alpha c || is_digit c.

(** [c in chars] for a one-character [c]. *)
Definition mem_char (c : ascii) (chars : string) : bool :=
  existsb (Ascii.eqb c) (list_ascii_of_string chars).

(** [c] is the byte [n]. *)
Definition is_byte (n : N) (c : ascii) : bool := (N_of_ascii c =? n)%N.

(** [str.lower] on an ASCII character: only [A-Z] change. *)
Definition lower_char (c : ascii) : ascii :=
  if is_upper c then ascii_of_N (N_of_ascii c + 32) else c.

(** [str.lower]. Two characters outside ASCII have a lower case with an
    ASCII letter in it: U+0130 (bytes C4 B0) becomes [i] followed by
    U+0307 (bytes CC 87), and U+212A, the Kelvin sign (bytes E2 84 AA),
    becomes [k]. Every other cased character outside ASCII has a lower
    case outside ASCII and is left as it is: the text differs from
    Python's in such characters only, so the same ASCII words occur in
    both, and both are equal to the same ASCII words. *)
Fixpoint lower (s : string) : string :=
  match s with
  | EmptyString => EmptyString
  | String c1 r1 =>
      match r1 with
      | String c2 r2 =>
          if is_byte 196 c1 && is_byte 176 c2
          then String "i" (String (ascii_of_N 204) (String (ascii_of_N 135) (lower r2)))
          else
            match r2 with
            | String c3 r3 =>
                if is_byte 226 c1 && is_byte 132 c2 && is_byte 170 c3
                then String "k" (lower r3)
                else String (lower_char c1) (lower r1)
            | EmptyString => String (lower_char c1) (lower r1)
            end
      | EmptyString => String (lower_char c1) (lower r1)
      end
  end.

(** [k in s]: [k] occurs in [s] as a substring. *)
Fixpoint contains (k s : string) : bool :=
  prefix k s ||
  match s with
  | EmptyString => false
  | String _ s' => contains k s'
  end.

(** [any(k in s for k in kws)]. *)
Definition any_in (kws : list string) (s : string) : bool :=
  existsb (fun k => contains k s) kws.

(** [s.lstrip(chars)] and [s.rstrip(chars)], generalised to a predicate. *)
Fixpoint lstrip_by (p : ascii -> bool) (s : string) : string :=
  match s with
  | EmptyString => EmptyString
  | String c s' => if p c then lstrip_by p s' else s
  end.

Fixpoint rstrip_by (p : ascii -> bool) (s : string) : string :=
  match s with
  | EmptyString => EmptyString
  | String c s' =>
      match rstrip_by p s' with
      | EmptyString => if p c then EmptyString else String c EmptyString
      | r => String c r
      end
  end.

Definition strip_by (p : ascii -> bool) (s : string) : string :=
  rstrip_by p (lstrip_by p s).

(** The ASCII characters [str.strip()] removes when called without an
    argument: space, tab, newline, vertical tab, form feed, carriage
    return and the four separators 0x1c-0x1f. *)
Definition is_space (c : ascii) : bool :=
  let n := N_of_ascii c in
  ((n =? 32) || ((9 <=? n) && (n <=? 13)) || ((28 <=? n) && (n <=? 31)))%N.

(** The other characters [str.strip()] removes, by the bytes of their
    UTF-8 text: U+0085 and U+00A0 (two bytes); U+1680, U+2000 to U+200A,
    U+2028, U+2029, U+202F, U+205F and U+3000 (three bytes). *)
Definition is_space2 (c1 c2 : ascii) : bool :=
  is_byte 194 c1 && (is_byte 133 c2 || is_byte 160 c2).

Definition is_space3 (c1 c2 c3 : ascii) : bool :=
  (is_byte 225 c1 && is_byte 154 c2 && is_byte 128 c3)
  || (is_byte 226 c1 && is_byte 128 c2
      && (((128 <=? N_of_ascii c3) && (N_of_ascii c3 <=? 138))%N
          || is_byte 168 c3 || is_byte 169 c3 || is_byte 175 c3))
  || (is_byte 226 c1 && is_byte 129 c2 && is_byte 159 c3)
  || (is_byte 227 c1 && is_byte 128 c2 && is_byte 128 c3).

(** [s.lstrip()]: the white-space characters [s] starts with are
    dropped, whether of one, two or three bytes. *)
Fixpoint lstrip_ws (s : string) : string :=
  match s with
  | EmptyString => EmptyString
  | String c1 r1 =>
      if is_space c1 then lstrip_ws r1
      else
        match r1 with
        | String c2 r2 =>
            if is_space2 c1 c2 then lstrip_ws r2
            else
              match r2 with
              | String c3 r3 => if is_space3 c1 c2 c3 then lstrip_ws r3 else s
              | EmptyString => s
              end
        | EmptyString => s
        end
  end.

(** [s] is made of white-space characters only. *)
Definition all_space (s : string) : bool := String.eqb (lstrip_ws s) "".

(** [s.rstrip()]: the text is cut where what follows is white space
    only. *)
Fixpoint rstrip_ws (s : string) : string :=
  match s with
  | EmptyString => EmptyString
  | String c s' => if all_space s then EmptyString else String c (rstrip_ws s')
  end.

(** [s.strip()]. *)
Definition strip_ws (s : string) : string := rstrip_ws (lstrip_ws s).
Definition strip (chars : string) (s : string) : string :=
  strip_by (fun c => mem_char c chars) s.

Definition first_char (s : string) : option ascii :=
  match s with
  | EmptyString => None
  | String c _ => Some c
  end.

Fixpoint last_char (s : string) : option ascii :=
  match s with
  | EmptyString => None
  | String c EmptyString => Some c
  | String _ s' => last_char s'
  end.

(** [s.split(sep, 1)[0]] for a one-character separator: the text before
    the first [sep], or all of [s] when [sep] does not occur. *)
Fixpoint before_first (sep : ascii) (s : string) : string :=
  match s with
  | EmptyString => EmptyString
  | String c s' => if Ascii.eqb c sep then EmptyString else String c (before_first sep s')
  end.

(** Python compares strings code point by code point. *)
Definition lt (s1 s2 : string) : Prop := String.compare s1 s2 = Lt.

End PyStr.

(** ** Code points of a string *)

Module Utf8.

(** A continuation byte of UTF-8, [10xxxxxx]: every other byte starts a
    code point. *)
Definition is_cont (c : ascii) : bool :=
  ((128 <=? N_of_ascii c) && (N_of_ascii c <? 192))%N.

(** [len(s)]: the number of code points. *)
Fixpoint cp_length (s : string) : nat :=
  match s with
  | EmptyString => 0
  | String c s' => if is_cont c then cp_length s' else S (cp_length s')
  end.

(** [s[:n]]: the first [n] code points. *)
Fixpoint cp_take (n : nat) (s : string) : string :=
  match s with
  | EmptyString => EmptyString
  | String c s' =>
      if is_cont c then String c (cp_take n s')
      else
        match n with
        | 0 => EmptyString
        | S n' => String c (cp_take n' s')
        end
  end.

(** [s[n:]]. *)
Fixpoint cp_drop (n : nat) (s : string) : string :=
  match n with
  | 0 => s
  | S n' =>
      match s with
      | EmptyString => EmptyString
      | String _ s' => cp_drop n' (PyStr.lstrip_by is_cont s')
      end
  end.

(** [s[i]], [None] when [i] is out of range. *)
Definition cp_nth (i : nat) (s : string) : option string :=
  match cp_take 1 (cp_drop i s) with
  | EmptyString => None
  | c => Some c
  end.

End Utf8.

(** ** Python float operations *)

Module PyFloat.

Local Open Scope float_scope.

(** [min(a, b)] returns [a] unless [b < a]. *)
Definition py_min (a b : float) : float := if PrimFloat.ltb b a then b else a.

End PyFloat.

(** ** contacts/finder.py *)

Module Finder.

Import PyStr PyFloat.

Definition ROLE_KEYWORDS : list (string * list string) :=
  [ ("csr", ["csr"; "sustainab"; "esg"; "community"; "impact"; "foundation"; "responsibility"]);
    ("partnership", ["partner"; "partnership"; "alliances"; "collab"; "sponsor"; "sponsorship"]);
    ("marketing", ["marketing"; "brand"; "communications"; "comms"; "pr"; "media"]) ].

(** [ROLE_KEYWORDS[role]], empty for a role that is not a key. *)
Definition keywords_of (role : string) : list string :=
  match find (fun item => String.eqb (fst item) role) ROLE_KEYWORDS with
  | Some item => snd item
  | None => []
  end.

Definition CSR_KEYWORDS : list string := Eval cbv in keywords_of "csr".

Definition GENERIC_INBOX_HINTS : list string :=
  ["info@"; "contact@"; "hello@"; "support@"; "enquiry@"; "inquiry@"].

(** The literal list of the third rule of [guess_role]. *)
Definition PAGE_TERMS : list string :=
  ["sponsor"; "sponsorship"; "partnership"; "collaborat"; "csr"; "esg"; "foundation"].

Record FoundEmail := mkFoundEmail {
  email : string;
  found_on : string;
  role_guess : string;
  confidence : float
}.

(** The [for r, kws in ROLE_KEYWORDS.items(): ... break] loop: the first
    role, in insertion order, one of whose keywords occurs in [e] or in
    [url]. *)
Fixpoint first_role (items : list (string * list string)) (e url : string) : option string :=
  match items with
  | [] => None
  | (r, kws) :: rest =>
      if any_in kws e || any_in kws url then Some r else first_role rest e url
  end.

Definition guess_role (email context_url page_text : string) : string * float :=
  let e := lower email in
  let url := lower context_url in
  let text := lower page_text in
  let score := 0.0%float in
  let role := "unknown" in
  let '(role, score) :=
    match first_role ROLE_KEYWORDS e url with
    | Some r => (r, (score + 0.6)%float)
    | None => (role, score)
    end in
  let '(role, score) :=
    if any_in GENERIC_INBOX_HINTS e
    then ((if String.eqb role "unknown" then "generic" else role), (score + 0.2)%float)
    else (role, score) in
  let score := if any_in PAGE_TERMS text then (score + 0.2)%float else score in
  (role, py_min 1.0%float score).


(** *** [EMAIL_RE] and [extract_emails] *)

(** The fragment of regular expressions [EMAIL_RE] is written in: a
    literal character, a greedy repetition [[cls]{min,}] of a character
    class, and concatenation. *)
Inductive regex : Type :=
| Lit (c : ascii)
| Rep (cls : ascii -> bool) (min : nat)
| Seq (r1 r2 : regex).

(** Backtracking matcher in continuation-passing style, as the [re]
    module proceeds: a greedy repetition first tries to take one more
    character and gives it back when the rest of the pattern fails. *)
Fixpoint rep_match {A : Type} (cls : ascii -> bool) (min : nat) (s : string)
    (k : string -> option A) : option A :=
  match s with
  | EmptyString => if Nat.eqb min 0 then k s else None
  | String c s' =>
      if cls c then
        match rep_match cls (Nat.pred min) s' k with
        | Some r => Some r
        | None => if Nat.eqb min 0 then k s else None
        end
      else if Nat.eqb min 0 then k s else None
  end.

Fixpoint re_match {A : Type} (r : regex) (s : string) (k : string -> option A) : option A :=
  match r with
  | Lit c =>
      match s with
      | EmptyString => None
      | String c' s' => if Ascii.eqb c c' then k s' else None
      end
  | Rep cls min => rep_match cls min s k
  | Seq r1 r2 => re_match r1 s (fun s1 => re_match r2 s1 k)
  end.

(** [[a-zA-Z0-9._%+-]] and [[a-zA-Z0-9.-]]. *)
Definition local_char (c : ascii) : bool := is_alnum c || mem_char c "._%+-".
Definition domain_char (c : ascii) : bool := is_alnum c || mem_char c ".-".

(** [([a-zA-Z0-9._%+-]+@[a-zA-Z0-9.-]+\.[a-zA-Z]{2,})]; its only group is
    the whole match. *)
Definition EMAIL_RE : regex :=
  Seq (Rep local_char 1)
    (Seq (Lit "@")
      (Seq (Rep domain_char 1)
        (Seq (Lit ".") (Rep is_alpha 2)))).

(** The least number of characters a match of [r] consumes. *)
Fixpoint min_len (r : regex) : nat :=
  match r with
  | Lit _ => 1
  | Rep _ min => min
  | Seq r1 r2 => min_len r1 + min_len r2
  end.

(** A match of [EMAIL_RE] anchored at the start of [s]: what is left of
    [s] after it. *)
Definition match_here (s : string) : option string := re_match EMAIL_RE s Some.

(** [EMAIL_RE.finditer(text)]: the non-overlapping matches, scanning from
    the left; after a match the scan resumes where the match ended. The
    fuel bounds the number of scan steps; [finditer] gives one unit per
    character, and every step consumes at least one. *)
Fixpoint finditer_from (fuel : nat) (s : string) : list string :=
  match fuel with
  | O => []
  | S fuel' =>
      match s with
      | EmptyString => []
      | String _ s' =>
          match match_here s with
          | Some rest =>
              substring 0 (String.length s - String.length rest) s :: finditer_from fuel' rest
          | None => finditer_from fuel' s'
          end
      end
  end.

Definition finditer (text : string) : list string :=
  finditer_from (String.length text) text.

(** The argument of the second [strip]: [.,;:()[]{}<>] followed by the
    double and the single quote. *)
Definition CLEANUP_CHARS : string :=
  ".,;:()[]{}<>" ++ String "034"%char (String "039"%char EmptyString).

(** [sorted(set(xs))]: the strictly increasing list of the distinct
    elements of [xs]. *)
Fixpoint insert_sorted (x : string) (l : list string) : list string :=
  match l with
  | [] => [x]
  | y :: l' =>
      match String.compare x y with
      | Lt => x :: l
      | Eq => l
      | Gt => y :: insert_sorted x l'
      end
  end.

Definition sorted_set (xs : list string) : list string :=
  fold_right insert_sorted [] xs.

(** The set [emails] is iterated in an unspecified order; the value
    returned, [sorted(set(cleaned))], does not depend on that order nor on
    repeated matches, so the matches are kept in the order they occur. *)
Definition extract_emails (text : string) : list string :=
  let emails := finditer text in
  let cleaned := map (fun e => strip CLEANUP_CHARS (strip_ws e)) emails in
  sorted_set cleaned.

(** *** [find_contacts_from_pages] *)

(** [found: dict[str, FoundEmail]]: a Python dict keeps its keys in
    insertion order, and assigning to a present key keeps its place. *)
Definition found_dict : Type := list (string * FoundEmail).

Fixpoint dict_get (k : string) (d : found_dict) : option FoundEmail :=
  match d with
  | [] => None
  | (k', v) :: d' => if String.eqb k k' then Some v else dict_get k d'
  end.

Fixpoint dict_set (k : string) (v : FoundEmail) (d : found_dict) : found_dict :=
  match d with
  | [] => [(k, v)]
  | (k', v') :: d' =>
      if String.eqb k k' then (k, v) :: d' else (k', v') :: dict_set k v d'
  end.

Definition dict_values (d : found_dict) : list FoundEmail := map snd d.

(** The body of the inner loop, for one email [e] of the page [(url, txt)]. *)
Definition record_email (url txt : string) (found : found_dict) (e : string) : found_dict :=
  let '(role, conf) := guess_role e url txt in
  let keep :=
    match dict_get e found with
    | None => true
    | Some old => PrimFloat.ltb (confidence old) conf
    end in
  if keep then dict_set e (mkFoundEmail e url role conf) found else found.

Definition scan_page (found : found_dict) (page : string * string) : found_dict :=
  let '(url, txt) := page in
  fold_left (record_email url txt) (extract_emails txt) found.

Definition collect (pages : list (string * string)) : found_dict :=
  fold_left scan_page pages [].

(** [role_weight.get(role, 0)]. *)
Definition role_weight (role : string) : Z :=
  if String.eqb role "csr" then 3
  else if String.eqb role "partnership" then 3
  else if String.eqb role "marketing" then 2
  else if String.eqb role "generic" then 1
  else if String.eqb role "unknown" then 0
  else 0.

Definition sort_key (x : FoundEmail) : float * Z :=
  (confidence x, role_weight (role_guess x)).

(** [a < b] on the key tuples: the first components decide unless they
    are equal. *)
Definition key_lt (a b : float * Z) : bool :=
  if PrimFloat.eqb (fst a) (fst b) then (snd a <? snd b)%Z
  else PrimFloat.ltb (fst a) (fst b).

(** [sorted(xs, key=sort_key, reverse=True)]: descending and stable, that
    is, candidates with equal keys keep the order they had in [xs]. *)
Fixpoint insert_desc (x : FoundEmail) (l : list FoundEmail) : list FoundEmail :=
  match l with
  | [] => [x]
  | y :: l' =>
      if key_lt (sort_key x) (sort_key y) then y :: insert_desc x l' else x :: l
  end.

Definition sorted_desc (xs : list FoundEmail) : list FoundEmail :=
  fold_right insert_desc [] xs.

Definition find_contacts_from_pages (pages : list (string * string)) : list FoundEmail :=
  let found := collect pages in
  sorted_desc (dict_values found).

End Finder.

(** ** contacts/ranker.py *)

Module Ranker.

Import PyStr Finder.

(** [local = f.email.split("@", 1)[0]; "." in local or "_" in local]. *)
Definition looks_personal (f : FoundEmail) : bool :=
  let local := before_first "@" (email f) in
  contains "." local || contains "_" local.

(** The candidates the loop does not skip. *)
Definition accepted (f : FoundEmail) : bool :=
  negb (looks_personal f && PrimFloat.ltb (confidence f) 0.8%float).

(** The loop of [pick_top_contacts]; the [break] is the return of the
    accumulated list. *)
Fixpoint pick_loop (found : list FoundEmail) (max_n : Z) (picked : list FoundEmail)
    : list FoundEmail :=
  match found with
  | [] => picked
  | f :: rest =>
      if looks_personal f && PrimFloat.ltb (confidence f) 0.8%float
      then pick_loop rest max_n picked
      else
        let picked := (picked ++ [f])%list in
        if (Z.of_nat (List.length picked) >=? max_n)%Z then picked
        else pick_loop rest max_n picked
  end.

Definition pick_top_contacts (found : list FoundEmail) (max_n : Z) : list FoundEmail :=
  pick_loop found max_n [].

(** The number of candidates the loop accepts before it stops: the test
    [len(picked) >= max_n] comes after the append, so it is never less
    than one. *)
Definition quota (max_n : Z) : nat := Z.to_nat (Z.max 1 max_n).

End Ranker.

(** ** config.py *)

Module Config.

Record Settings := mkSettings {
  DB_URL : string;
  LLM_PROVIDER : string;
  LLM_API_KEY : option string;
  LLM_BASE_URL : string;
  LLM_MODEL : string;
  LLM_TIMEOUT_S : Z;
  SMTP_HOST : string;
  SMTP_PORT : Z;
  SMTP_USER : string;
  SMTP_PASS : string;
  SMTP_FROM : string;
  SMTP_USE_TLS : bool;
  RATE_LIMIT_SECONDS : Z;
  DEFAULT_LANGUAGE : string
}.

(** [Settings()] when none of the environment variables is set. *)
Definition defaults : Settings :=
  mkSettings "sqlite:///outreach.db" "none" None "" "gpt-4o-mini" 60 "" 587 "" "" "" true 60 "vi".

(** [settings] with SMTP configured and the rate limit given. *)
Definition with_smtp (host user pass : string) (rate : Z) : Settings :=
  mkSettings (DB_URL defaults) (LLM_PROVIDER defaults) (LLM_API_KEY defaults)
    (LLM_BASE_URL defaults) (LLM_MODEL defaults) (LLM_TIMEOUT_S defaults)
    host (SMTP_PORT defaults) user pass (SMTP_FROM defaults) (SMTP_USE_TLS defaults)
    rate (DEFAULT_LANGUAGE defaults).

(** [settings] with a custom text-generation endpoint. *)
Definition with_llm (provider key base_url : string) : Settings :=
  mkSettings (DB_URL defaults) provider (Some key) base_url (LLM_MODEL defaults)
    (LLM_TIMEOUT_S defaults) (SMTP_HOST defaults) (SMTP_PORT defaults) (SMTP_USER defaults)
    (SMTP_PASS defaults) (SMTP_FROM defaults) (SMTP_USE_TLS defaults)
    (RATE_LIMIT_SECONDS defaults) (DEFAULT_LANGUAGE defaults).

End Config.

(** ** Python values carried by the profile and brief dicts *)

Module PyVal.

Import PyStr.

(** The values [json.loads] produces, numbers restricted to integers. A
    dict is kept as its items in insertion order. *)
Inductive pyval : Type :=
| PNone
| PBool (b : bool)
| PInt (n : Z)
| PStr (s : string)
| PList (items : list pyval)
| PDict (items : list (string * pyval)).

(** Truth value of [v], as [or], [if] and [not] test it. *)
Definition truthy (v : pyval) : bool :=
  match v with
  | PNone => false
  | PBool b => b
  | PInt n => negb (n =? 0)%Z
  | PStr s => negb (String.eqb s "")
  | PList items => match items with [] => false | _ => true end
  | PDict items => match items with [] => false | _ => true end
  end.

(** [a or b]. *)
Definition py_or (a b : pyval) : pyval := if truthy a then a else b.

Fixpoint assoc (k : string) (items : list (string * pyval)) : option pyval :=
  match items with
  | [] => None
  | (k', v) :: rest => if String.eqb k k' then Some v else assoc k rest
  end.

(** [d.get(k)] and [d.get(k, default)]. *)
Definition dict_get_default (d : list (string * pyval)) (k : string) (default : pyval) : pyval :=
  match assoc k d with
  | Some v => v
  | None => default
  end.

Definition dict_get (d : list (string * pyval)) (k : string) : pyval :=
  dict_get_default d k PNone.

Definition keys (d : list (string * pyval)) : list string := map fst d.

(** [str(n)] for an integer. *)
Definition hex_digit (n : N) : ascii :=
  if (n <? 10)%N then ascii_of_N (48 + n) else ascii_of_N (87 + n).

Fixpoint digits_of (fuel : nat) (n : N) (acc : string) : string :=
  match fuel with
  | O => acc
  | S fuel' =>
      let acc := String (ascii_of_N (48 + N.modulo n 10)) acc in
      if (n <? 10)%N then acc else digits_of fuel' (N.div n 10) acc
  end.

Definition str_of_int (n : Z) : string :=
  let m := Z.to_N (Z.abs n) in
  let ds := digits_of (S (N.to_nat (N.log2 m))) m EmptyString in
  if (n <? 0)%Z then String "-" ds else ds.

(** [repr(s)] for ASCII text: single quotes unless [s] holds a single
    quote and no double quote; backslash, the chosen quote, newline,
    carriage return and tab are escaped, other control characters are
    written [\xNN]. *)
Definition repr_char (quote c : ascii) : string :=
  let n := N_of_ascii c in
  if Ascii.eqb c "\" then "\\"
  else if Ascii.eqb c quote then String "\" (String c EmptyString)
  else if (n =? 10)%N then "\n"
  else if (n =? 13)%N then "\r"
  else if (n =? 9)%N then "\t"
  else if ((n <? 32) || (n =? 127))%N
       then String "\" (String "x" (String (hex_digit (N.div n 16))
              (String (hex_digit (N.modulo n 16)) EmptyString)))
  else String c EmptyString.

Fixpoint repr_body (quote : ascii) (s : string) : string :=
  match s with
  | EmptyString => EmptyString
  | String c s' => repr_char quote c ++ repr_body quote s'
  end.

Definition repr_str (s : string) : string :=
  let quote : ascii :=
    if contains "'" s && negb (contains (String "034"%char EmptyString) s)
    then "034"%char else "039"%char in
  String quote (repr_body quote s ++ String quote EmptyString).

(** [repr(v)]. *)
Fixpoint py_repr (v : pyval) : string :=
  match v with
  | PNone => "None"
  | PBool b => if b then "True" else "False"
  | PInt n => str_of_int n
  | PStr s => repr_str s
  | PList items => "[" ++ String.concat ", " (map py_repr items) ++ "]"
  | PDict items =>
      "{" ++ String.concat ", "
               (map (fun kv => match kv with (k, x) => repr_str k ++ ": " ++ py_repr x end) items)
          ++ "}"
  end.

(** [type(v).__name__]. *)
Definition type_name (v : pyval) : string :=
  match v with
  | PNone => "NoneType"
  | PBool _ => "bool"
  | PInt _ => "int"
  | PStr _ => "str"
  | PList _ => "list"
  | PDict _ => "dict"
  end.

(** [str(v)], which an f-string applies to a value with no format spec. *)
Definition py_str (v : pyval) : string :=
  match v with
  | PStr s => s
  | _ => py_repr v
  end.

End PyVal.

(** ** Exceptions and results *)

Module Exn.

(** The exceptions the modelled code raises or lets through; each carries
    the text [str(e)] gives. *)
Inductive exn : Type :=
| LLMError (msg : string)
| JSONDecodeError (msg : string)
| RequestException (msg : string)
| SMTPConfigError (msg : string)
| SMTPException (msg : string)
| AttributeError (msg : string)
| ValueError (msg : string)
| OSError (msg : string)
| OtherError (cls msg : string).

(** [OtherError cls msg] is an exception of any other class, which the
    libraries called by the worker raise ([OverflowError], [IndexError],
    [TypeError], [UnicodeEncodeError], ...). *)
Definition str_of_exn (e : exn) : string :=
  match e with
  | LLMError m | JSONDecodeError m | RequestException m | SMTPConfigError m
  | SMTPException m | AttributeError m | ValueError m | OSError m | OtherError _ m => m
  end.

Inductive result (A : Type) : Type :=
| Ok (a : A)
| Raise (e : exn).

Arguments Ok {A} a.
Arguments Raise {A} e.

Definition bind {A B : Type} (r : result A) (f : A -> result B) : result B :=
  match r with
  | Ok a => f a
  | Raise e => Raise e
  end.

End Exn.

(** ** writer/llm.py *)

Module Llm.

Import PyStr PyVal Config Exn.

(** [s[:n]]: the first [n] characters. *)
Definition take (n : nat) (s : string) : string := Utf8.cp_take n s.

(** [s.find(c)] and [s.rfind(c)] for a one-character [c]; [None] is -1. *)
Fixpoint find_char (c : ascii) (s : string) : option nat :=
  match s with
  | EmptyString => None
  | String c' s' =>
      if Ascii.eqb c c' then Some O else option_map S (find_char c s')
  end.

Fixpoint rfind_char (c : ascii) (s : string) : option nat :=
  match s with
  | EmptyString => None
  | String c' s' =>
      match rfind_char c s' with
      | Some i => Some (S i)
      | None => if Ascii.eqb c c' then Some O else None
      end
  end.

(** [s[i:j]] for indices within range: empty when [j <= i]. *)
Definition slice (i j : nat) (s : string) : string := substring i (j - i) s.

(** [s.rstrip("/")]. *)
Definition rstrip_slash (s : string) : string := rstrip_by (fun c => Ascii.eqb c "/") s.

(** [s.replace(old, new)] for a non-empty [old]: occurrences are replaced
    from the left and do not overlap; [skip] counts the characters of an
    occurrence still to be dropped. *)
Fixpoint replace_from (old new s : string) (skip : nat) : string :=
  match s with
  | EmptyString => EmptyString
  | String c s' =>
      match skip with
      | S n => replace_from old new s' n
      | O =>
          if prefix old s then new ++ replace_from old new s' (String.length old - 1)
          else String c (replace_from old new s' 0)
      end
  end.

Definition replace (old new s : string) : string := replace_from old new s 0.

(** A chat message [{"role": ..., "content": ...}]. *)
Record message := mkMessage { role : string; content : string }.

(** What [requests.post] hands back: the status code, the body text, and
    the value of [resp.json()] ([None] when decoding the body raises). *)
Record response := mkResponse {
  status_code : Z;
  text : string;
  json : option pyval
}.

(** [v[k]] for a string key and [v[0]], [None] when Python raises. *)
Definition item (v : pyval) (k : string) : option pyval :=
  match v with
  | PDict items => assoc k items
  | _ => None
  end.

Definition item0 (v : pyval) : option pyval :=
  match v with
  | PList (x :: _) => Some x
  | PStr (String c _) => Some (PStr (String c EmptyString))
  | _ => None
  end.

Section Capability.

(** The remote endpoint and the JSON decoder: [post url model messages
    temperature max_tokens] is the outcome of the [requests.post] call,
    [json_loads] is [json.loads] ([None] when it raises
    [JSONDecodeError]). *)
Variable settings : Settings.
Variable post : string -> string -> list message -> float -> Z -> result response.
Variable json_loads : string -> option pyval.

Definition _default_base_url : string :=
  if String.eqb (LLM_PROVIDER settings) "openai" then "https://api.openai.com/v1"
  else if String.eqb (LLM_PROVIDER settings) "deepseek" then "https://api.deepseek.com/v1"
  else strip_ws (LLM_BASE_URL settings).

(** [data["choices"][0]["message"]["content"]]. *)
Definition content_of (data : pyval) : option pyval :=
  match item data "choices" with
  | None => None
  | Some choices =>
      match item0 choices with
      | None => None
      | Some choice =>
          match item choice "message" with
          | None => None
          | Some m => item m "content"
          end
      end
  end.

Definition chat_completion (messages : list message) (temperature : float) (max_tokens : Z)
    : result pyval :=
  if String.eqb (LLM_PROVIDER settings) "none"
  then Raise (LLMError "LLM_PROVIDER=none (offline mode).")
  else
    let base :=
      if negb (String.eqb (strip_ws (LLM_BASE_URL settings)) "")
      then strip_ws (LLM_BASE_URL settings) else _default_base_url in
    if String.eqb base ""
    then Raise (LLMError "Missing LLM_BASE_URL. Set LLM_BASE_URL to an OpenAI-compatible endpoint.")
    else
      match LLM_API_KEY settings with
      | None => Raise (LLMError "Missing LLM_API_KEY.")
      | Some key =>
          if String.eqb key "" then Raise (LLMError "Missing LLM_API_KEY.")
          else
            let url := rstrip_slash base ++ "/chat/completions" in
            bind (post url (LLM_MODEL settings) messages temperature max_tokens) (fun resp =>
              if (status_code resp >=? 400)%Z
              then Raise (LLMError ("LLM error " ++ str_of_int (status_code resp) ++ ": "
                                      ++ take 400 (text resp)))
              else
                match json resp with
                | None => Raise (JSONDecodeError "resp.json()")
                | Some data =>
                    match content_of data with
                    | Some c => Ok c
                    | None => Raise (LLMError ("Unexpected LLM response: " ++ py_str data))
                    end
                end)
      end.

(** [json.loads(raw)], raising [JSONDecodeError] when decoding fails. *)
Definition loads (raw : string) : result pyval :=
  match json_loads raw with
  | Some v => Ok v
  | None => Raise (JSONDecodeError raw)
  end.

Definition json_from_llm (messages : list message) (schema_hint : string)
    (temperature : float) (max_tokens : Z) : result pyval :=
  let sys := mkMessage "system" "Return ONLY valid JSON. No markdown, no commentary." in
  bind (chat_completion (sys :: messages) temperature max_tokens) (fun out =>
    match out with
    | PStr out =>
        match find_char "{" out, rfind_char "}" out with
        | Some start, Some end_ =>
            let raw := slice start (end_ + 1) out in
            match loads raw with
            | Ok v => Ok v
            | Raise (JSONDecodeError _) =>
                let raw2 := replace ",]" "]" (replace ",}" "}" raw) in
                loads raw2
            | Raise e => Raise e
            end
        | _, _ => Raise (LLMError ("No JSON found. Output: " ++ take 400 out))
        end
    | other =>
        Raise (AttributeError ("'" ++ type_name other ++ "' object has no attribute 'find'"))
    end).

End Capability.

End Llm.

(** ** writer/brief.py *)

Module Brief.

Import PyStr PyVal Config Exn Llm.

Definition brief_prompt (org_profile company_profile : list (string * pyval)) (language : string)
    : string :=
  "You are writing a sponsorship outreach email. Create a personalization brief in JSON.

Language: " ++ language ++ "

Org/Event info:
" ++ py_str (PDict org_profile) ++ "

Company info:
" ++ py_str (PDict company_profile) ++ "

Return JSON with keys:
- company_angle (string)
- why_match (array of 2-3 bullets)
- best_cta (string)
- benefits (array of 3 bullets)
- subject_ideas (array of 3 short subject lines)
".

(** The dict built in the [except LLMError] branch. *)
Definition fallback_brief (org_profile company_profile : list (string * pyval))
    : list (string * pyval) :=
  [ ("company_angle",
      py_or (dict_get company_profile "csr_focus")
        (py_or (dict_get company_profile "mission_values")
               (PStr "phát triển bền vững / cộng đồng")));
    ("why_match", PList [PStr "Cùng hướng đến tác động tích cực cho cộng đồng."]);
    ("best_cta", PStr "một cuộc gọi 15 phút");
    ("benefits",
      PList [ PStr "Gắn thương hiệu với chương trình có tác động xã hội rõ ràng";
              PStr "Hiện diện trên kênh truyền thông của chương trình";
              PStr "Báo cáo/ghi nhận tác động sau chương trình" ]);
    ("subject_ideas",
      PList [ PStr ("Đề xuất đồng hành tài trợ cùng "
                      ++ py_str (dict_get_default org_profile "org_name" (PStr "chương trình")));
              PStr ("Cơ hội hợp tác CSR: "
                      ++ py_str (dict_get_default org_profile "org_name" (PStr "chương trình")));
              PStr "Kết nối hợp tác tài trợ" ]) ].

Section Builder.

Variable settings : Settings.
Variable post : string -> string -> list message -> float -> Z -> result response.
Variable json_loads : string -> option pyval.

(** [json_from_llm] is called with its default [temperature=0.2] and
    [max_tokens=1200]. *)
Definition build_personalization_brief
    (org_profile company_profile : list (string * pyval)) (language : string) : result pyval :=
  let prompt := mkMessage "user" (brief_prompt org_profile company_profile language) in
  match json_from_llm settings post json_loads [prompt] "brief" 0.2%float 1200 with
  | Ok v => Ok v
  | Raise (LLMError _) => Ok (PDict (fallback_brief org_profile company_profile))
  | Raise e => Raise e
  end.

End Builder.

End Brief.

(** ** db/models.py *)

Module Models.

Module DraftStatus.
Definition DRAFT : string := "draft".
Definition APPROVED : string := "approved".
Definition SENT : string := "sent".
Definition FAILED : string := "failed".
End DraftStatus.

(** A [datetime] is kept as its number of microseconds since the epoch. *)
Definition datetime : Type := Z.

Record Campaign := mkCampaign {
  campaign_pk : Z;
  campaign_name : string;
  campaign_created_at : datetime;
  org_profile_id : option Z;
  attachment_paths : list string
}.

Record Company := mkCompany {
  company_pk : Z;
  campaign_id : Z;
  company_name : string;
  website : string;
  industry : string;
  notes : string;
  company_created_at : datetime
}.

Record Contact := mkContact {
  contact_pk : Z;
  contact_company_id : Z;
  contact_email : string;
  contact_found_on : string;
  contact_role_guess : string;
  contact_confidence : float
}.

Record Draft := mkDraft {
  draft_pk : Z;
  company_id : Z;
  contact_id : option Z;
  subject : string;
  body_text : string;
  language : string;
  personalization_notes : string;
  status : string;
  created_at : datetime;
  updated_at : datetime
}.

(** [attempt_pk] is [None] until the row is inserted. *)
Record SendAttempt := mkSendAttempt {
  attempt_pk : option Z;
  draft_id : Z;
  attempt_status : string;
  provider : string;
  provider_message_id : string;
  error : string;
  timestamp : datetime
}.

(** The tables, rows in insertion order. *)
Record Store := mkStore {
  campaigns : list Campaign;
  companies : list Company;
  contacts : list Contact;
  drafts : list Draft;
  attempts : list SendAttempt
}.

(** [s.get(Model, pk)]. *)
Definition get_campaign (db : Store) (pk : Z) : option Campaign :=
  find (fun c => (campaign_pk c =? pk)%Z) (campaigns db).
Definition get_company (db : Store) (pk : Z) : option Company :=
  find (fun c => (company_pk c =? pk)%Z) (companies db).
Definition get_contact (db : Store) (pk : Z) : option Contact :=
  find (fun c => (contact_pk c =? pk)%Z) (contacts db).

(** [select(Draft).where(Draft.status == APPROVED)
      .order_by(Draft.updated_at.asc())).first()]: the approved draft with
    the least [updated_at]; among equal timestamps the earliest row. *)
Fixpoint oldest (best : Draft) (rows : list Draft) : Draft :=
  match rows with
  | [] => best
  | d :: rest =>
      if (updated_at d <? updated_at best)%Z then oldest d rest else oldest best rest
  end.

Definition first_approved (db : Store) : option Draft :=
  match filter (fun d => String.eqb (status d) DraftStatus.APPROVED) (drafts db) with
  | [] => None
  | d :: rest => Some (oldest d rest)
  end.

(** The next primary key of the attempt table. *)
Definition next_attempt_pk (rows : list SendAttempt) : Z :=
  1 + fold_right (fun a m => match attempt_pk a with Some k => Z.max k m | None => m end) 0%Z rows.

Fixpoint insert_attempts (added rows : list SendAttempt) : list SendAttempt :=
  match added with
  | [] => rows
  | a :: more =>
      insert_attempts more
        (rows ++ [mkSendAttempt (Some (next_attempt_pk rows)) (draft_id a) (attempt_status a)
                    (provider a) (provider_message_id a) (error a) (timestamp a)])%list
  end.

Definition update_draft (d : Draft) (rows : list Draft) : list Draft :=
  map (fun r => if (draft_pk r =? draft_pk d)%Z then d else r) rows.

(** [s.commit()]: the modified drafts are written back to their rows and
    the objects added to the session are inserted, in one transaction. *)
Definition flush (dirty : list Draft) (added : list SendAttempt) (db : Store) : Store :=
  mkStore (campaigns db) (companies db) (contacts db)
    (fold_left (fun rows d => update_draft d rows) dirty (drafts db))
    (insert_attempts added (attempts db)).

End Models.

(** ** sender/mime_builder.py and sender/smtp_sender.py *)

Module Sender.

Import Config Exn.

(** What the file system holds at a path: nothing, a file that can be
    read, or a file whose [open] or [read] raises. *)
Inductive file_state : Type :=
| Missing
| Readable (content : string)
| Unreadable (err : string).

(** The message handed to the transport: the text of the three headers
    as the message gives them back ([msg.get(name)]), the text body, and
    the attachments as (file name, content). *)
Record EmailMessage := mkEmailMessage {
  msg_subject : string;
  msg_to : string;
  msg_from : string;
  msg_body : string;
  msg_attachments : list (string * string)
}.

(** [p.split("/")]. *)
Fixpoint split_slash (p : string) : list string :=
  match p with
  | EmptyString => [EmptyString]
  | String c p' =>
      if Ascii.eqb c "/" then EmptyString :: split_slash p'
      else
        match split_slash p' with
        | part :: rest => String c part :: rest
        | [] => [String c EmptyString]
        end
  end.

(** [Path(p).name] on a POSIX system: the last component of the path,
    where an empty component and [.] are no components; empty when the
    path has no component. *)
Definition basename (p : string) : string :=
  last (filter (fun part => negb (String.eqb part "" || String.eqb part "."))
          (split_slash p)) "".

Section Message.

(** [header name value] is what [EmailMessage] does with
    [msg[name] = value]: it raises (a value with a line break inside is
    refused with [ValueError], a malformed address makes the parser
    raise exceptions of several classes), or it stores the header, and
    then gives the text the message holds for it. [files] is the file
    system. *)
Variable header : string -> string -> result string.
Variable files : string -> file_state.

(** The loop over [attachments]: a path that does not exist is skipped,
    a file that cannot be read raises, and so does a file name the
    [Content-Disposition] header refuses. *)
Fixpoint attach (paths : list string) (added : list (string * string))
    : result (list (string * string)) :=
  match paths with
  | [] => Ok added
  | p :: rest =>
      match files p with
      | Missing => attach rest added
      | Readable content =>
          bind (header "Content-Disposition" (basename p)) (fun _ =>
            attach rest (added ++ [(basename p, content)])%list)
      | Unreadable err => Raise (OSError err)
      end
  end.

Definition build_message (subject body_text to_email from_email : string)
    (attachments : list string) : result EmailMessage :=
  bind (header "Subject" subject) (fun stored_subject =>
  bind (header "To" to_email) (fun stored_to =>
  bind (header "From" from_email) (fun stored_from =>
  bind (attach attachments []) (fun added =>
    Ok (mkEmailMessage stored_subject stored_to stored_from body_text added))))).

End Message.

(** [a or b] on strings. *)
Definition str_or (a b : string) : string := if String.eqb a "" then b else a.

(** [send_smtp]: [deliver msg] is the SMTP session ([None] when the
    message was handed over, [Some text] when [smtplib] raised). When
    the text the message holds for [From] is not [from_email], a second
    [From] header is set, which [EmailMessage] refuses. *)
Definition send_smtp (settings : Settings) (deliver : EmailMessage -> option string)
    (msg : EmailMessage) : result string :=
  if String.eqb (SMTP_HOST settings) "" || String.eqb (SMTP_USER settings) ""
     || String.eqb (SMTP_PASS settings) ""
  then Raise (SMTPConfigError
                "Missing SMTP settings. Please configure SMTP_HOST/SMTP_USER/SMTP_PASS in .env")
  else
    let from_email := str_or (SMTP_FROM settings) (SMTP_USER settings) in
    if negb (String.eqb (msg_from msg) from_email)
    then Raise (ValueError "There may be at most 1 From headers in a message")
    else
      match deliver msg with
      | None => Ok ""
      | Some err => Raise (SMTPException err)
      end.

End Sender.

(** ** queue/worker.py *)

Module Worker.

Import Config Exn Models Sender.

(** What the worker does to the outside, in order. *)
Inductive event : Type :=
| Sleep (seconds : Z)
| Stdout (line : string)
| Commit (dirty : list Draft) (added : list SendAttempt).

(** The environment: the value of the [n]-th [datetime.utcnow()] call,
    the outcome of the [n]-th SMTP session, the files on disk, what
    [EmailMessage] does with a header, and the exception [print] raises
    for a line and [time.sleep] for a length ([None] when they return:
    [print] fails on a closed stream or on a character the encoding of
    the stream lacks, [time.sleep] on a negative length and on a length
    beyond what the platform can wait). *)
Record Env := mkEnv {
  clock : nat -> datetime;
  smtp : nat -> EmailMessage -> option string;
  files : string -> file_state;
  header : string -> string -> result string;
  stdout : string -> option exn;
  sleeper : Z -> option exn
}.

Record State := mkState {
  db : Store;
  clock_reads : nat;
  smtp_calls : nat;
  trace : list event
}.

(** Computations of the worker: state passing with exceptions. *)
Definition M (A : Type) : Type := State -> result A * State.

Definition ret {A : Type} (a : A) : M A := fun st => (Ok a, st).
Definition raise {A : Type} (e : exn) : M A := fun st => (Raise e, st).

Definition mbind {A B : Type} (m : M A) (f : A -> M B) : M B :=
  fun st =>
    match m st with
    | (Ok a, st') => f a st'
    | (Raise e, st') => (Raise e, st')
    end.

(** [try: body except Exception as e: handler(e)]. *)
Definition try_except {A : Type} (body : M A) (handler : exn -> M A) : M A :=
  fun st =>
    match body st with
    | (Ok a, st') => (Ok a, st')
    | (Raise e, st') => handler e st'
    end.

Notation "x <- m ;; k" := (mbind m (fun x => k))
  (at level 61, m at next level, right associativity).
Notation "m ;;; k" := (mbind m (fun _ => k))
  (at level 61, right associativity).

(** A computation that does not touch the state. *)
Definition lift {A : Type} (r : result A) : M A := fun st => (r, st).

Definition emit (ev : event) : M unit :=
  fun st => (Ok tt, mkState (db st) (clock_reads st) (smtp_calls st) (trace st ++ [ev])%list).

Section Run.

Variable settings : Settings.
Variable env : Env.

Definition utcnow : M datetime :=
  fun st =>
    (Ok (clock env (clock_reads st)),
     mkState (db st) (S (clock_reads st)) (smtp_calls st) (trace st)).

(** [time.sleep(seconds)]. *)
Definition sleep (seconds : Z) : M unit :=
  match sleeper env seconds with
  | Some e => raise e
  | None => emit (Sleep seconds)
  end.

(** [print(line)]. *)
Definition print (line : string) : M unit :=
  match stdout env line with
  | Some e => raise e
  | None => emit (Stdout line)
  end.

(** Committing a session is taken to succeed. *)

Definition commit (dirty : list Draft) (added : list SendAttempt) : M unit :=
  fun st =>
    (Ok tt,
     mkState (flush dirty added (db st)) (clock_reads st) (smtp_calls st)
       (trace st ++ [Commit dirty added])%list).

Definition send (msg : EmailMessage) : M string :=
  fun st =>
    (send_smtp settings (smtp env (smtp_calls st)) msg,
     mkState (db st) (clock_reads st) (S (smtp_calls st)) (trace st)).

(** [company.name], where [company] may be [None]. *)
Definition name_of (company : option Company) : M string :=
  match company with
  | Some c => ret (company_name c)
  | None => raise (AttributeError "'NoneType' object has no attribute 'name'")
  end.

(** [draft.status = st; draft.updated_at = now]. *)
Definition mark (d : Draft) (st : string) (now : datetime) : Draft :=
  mkDraft (draft_pk d) (company_id d) (contact_id d) (subject d) (body_text d) (language d)
    (personalization_notes d) st (created_at d) now.

(** [SendAttempt(draft_id=..., status=..., ...)]: the fields left out take
    their defaults, and [timestamp] reads the clock. *)
Definition new_attempt (draft : Draft) (st prov prov_id err : string) : M SendAttempt :=
  ts <- utcnow ;;
  ret (mkSendAttempt None (draft_pk draft) st prov prov_id err ts).

(** How one pass through the body of [while True] ends. *)
Inductive flow : Type := Continue | Return.

(** [contact = s.get(Contact, draft.contact_id) if draft.contact_id else None] *)
Definition contact_of (store : Store) (draft : Draft) : option Contact :=
  match contact_id draft with
  | Some pk => if (pk =? 0)%Z then None else get_contact store pk
  | None => None
  end.

(** [campaign = s.get(Campaign, company.campaign_id) if company else None];
    the [org] read from it is not used. *)
Definition campaign_of (store : Store) (company : option Company) : option Campaign :=
  match company with
  | Some c => get_campaign store (campaign_id c)
  | None => None
  end.

(** [if not to_email]: no contact, or a contact whose email is empty. *)
Definition no_recipient (to_email : option string) : bool :=
  match to_email with
  | None => true
  | Some e => String.eqb e ""
  end.

Definition iteration (once : bool) : M flow :=
  fun st0 =>
  let store := db st0 in
  (match first_approved store with
   | None =>
       if once then ret Return
       else sleep 5 ;;; ret Continue
   | Some draft =>
       let company := get_company store (company_id draft) in
       let contact := contact_of store draft in
       let campaign := campaign_of store company in
       let to_email := option_map contact_email contact in
       if no_recipient to_email then
         now <- utcnow ;;
         let draft := mark draft DraftStatus.FAILED now in
         a <- new_attempt draft "failed" "smtp" "" "No recipient email selected" ;;
         commit [draft] [a] ;;;
         ret Continue
       else
         let to_email := match to_email with Some e => e | None => "" end in
         let from_email := str_or (SMTP_FROM settings) (SMTP_USER settings) in
         msg <- lift (build_message (header env) (files env) (subject draft) (body_text draft)
                        to_email from_email
                        (match campaign with Some c => attachment_paths c | None => [] end)) ;;
         try_except
           (provider_id <- send msg ;;
            now <- utcnow ;;
            let draft := mark draft DraftStatus.SENT now in
            a <- new_attempt draft "sent" "smtp" provider_id "" ;;
            commit [draft] [a] ;;;
            name <- name_of company ;;
            print ("[SENT] " ++ name ++ " -> " ++ to_email ++ " | subject=" ++ subject draft) ;;;
            sleep (RATE_LIMIT_SECONDS settings))
           (fun e =>
            now <- utcnow ;;
            let draft := mark draft DraftStatus.FAILED now in
            a <- new_attempt draft "failed" "smtp" "" (Utf8.cp_take 500 (str_of_exn e)) ;;
            commit [draft] [a] ;;;
            name <- name_of company ;;
            print ("[FAILED] " ++ name ++ " -> " ++ to_email ++ ": " ++ str_of_exn e) ;;;
            sleep (Z.min 30 (RATE_LIMIT_SECONDS settings))) ;;;
         ret (if once then Return else Continue)
   end) st0.

(** The [while True] loop, unrolled at most [fuel] times: [None] when the
    loop is still running after [fuel] passes. *)
Fixpoint run_loop (fuel : nat) (once : bool) (st : State) : option (result unit) * State :=
  match fuel with
  | O => (None, st)
  | S fuel' =>
      match iteration once st with
      | (Ok Continue, st') => run_loop fuel' once st'
      | (Ok Return, st') => (Some (Ok tt), st')
      | (Raise e, st') => (Some (Raise e), st')
      end
  end.

(** [run_worker(loop, once)]; [loop] is not read, and [init_db()] creates
    missing tables without touching rows. *)
Definition run_worker (fuel : nat) (loop once : bool) (st : State) : option (result unit) * State :=
  run_loop fuel once st.

(** [main()] with or without [--once] on the command line. *)
Definition main (fuel : nat) (once_flag : bool) (st : State) : option (result unit) * State :=
  run_worker fuel (negb once_flag) once_flag st.

End Run.

End Worker.

(** ** Transitions of the store *)

Module Transitions.

Import Config Exn Models Sender Worker.

(** [d'] is the row of [d] with the status [st] and the timestamp [now]
    in [updated_at], and nothing else changed. *)
Definition restamped (d d' : Draft) (st : string) (now : datetime) : Prop :=
  draft_pk d' = draft_pk d
  /\ company_id d' = company_id d
  /\ contact_id d' = contact_id d
  /\ subject d' = subject d
  /\ body_text d' = body_text d
  /\ language d' = language d
  /\ personalization_notes d' = personalization_notes d
  /\ created_at d' = created_at d
  /\ status d' = st
  /\ updated_at d' = now.



(** The state the fast-fail branch of [iteration] ends in. *)
Definition fast_fail_state (env : Env) (st : State) (draft : Draft) : State :=
  let failed := mark draft DraftStatus.FAILED (clock env (clock_reads st)) in
  let a := mkSendAttempt None (draft_pk draft) "failed" "smtp" ""
             "No recipient email selected" (clock env (S (clock_reads st))) in
  mkState (flush [failed] [a] (db st)) (S (S (clock_reads st))) (smtp_calls st)
    (trace st ++ [Commit [failed] [a]])%list.

End Transitions.

(** ** Stores and environments used as examples *)

Module WorkerExamples.

Import Config Exn Models Sender Worker.

Local Open Scope Z_scope.

(** SMTP is configured; the rate limit is the default 60 seconds. *)
Definition cfg : Settings := with_smtp "smtp.example.org" "noreply@example.org" "secret" 60.

(** The same settings with [RATE_LIMIT_SECONDS=-1]. *)
Definition cfg_negative_rate : Settings :=
  with_smtp "smtp.example.org" "noreply@example.org" "secret" (-1).

(** A clock that advances by one microsecond per reading from 1000, a
    transport that accepts every message, headers stored as they are
    given, a standard output that takes every line and a [time.sleep]
    that refuses negative lengths only. *)
Definition env_ticking : Env :=
  mkEnv (fun n => 1000 + Z.of_nat n) (fun _ _ => None) (fun _ => Readable "%PDF")
    (fun _ value => Ok value) (fun _ => None)
    (fun seconds =>
       if seconds <? 0 then Some (ValueError "sleep length must be non-negative") else None).

Definition acme_campaign : Campaign := mkCampaign 1 "spring" 1 None ["proposal.pdf"].
Definition acme : Company := mkCompany 1 1 "Acme" "https://acme.org" "" "" 2.
Definition acme_info : Contact := mkContact 7 1 "info@acme.org" "https://acme.org" "generic" 0.2.
Definition acme_blank : Contact := mkContact 8 1 "" "https://acme.org" "unknown" 0.

(** Approved drafts: without a contact, with a contact, with a contact
    whose email is empty, and one approved at instant 2000, before the
    wall clock was set back to 1000. *)
Definition draft_no_contact : Draft :=
  mkDraft 1 1 None "Hello" "Body 1" "vi" "" DraftStatus.APPROVED 5 10.
Definition draft_with_contact : Draft :=
  mkDraft 2 1 (Some 7) "Hello again" "Body 2" "vi" "" DraftStatus.APPROVED 6 20.
Definition draft_blank_contact : Draft :=
  mkDraft 3 1 (Some 8) "Hello blank" "Body 3" "vi" "" DraftStatus.APPROVED 7 30.

Definition store_of (rows : list Draft) : Store :=
  mkStore [acme_campaign] [acme] [acme_info; acme_blank] rows [].

Definition start (rows : list Draft) : State := mkState (store_of rows) 0 0 [].

End WorkerExamples.

(** ** Occurrences of an email on the pages *)

Module Occurrences.

Import PyStr Finder.

(** [e in es]. *)
Definition mem (e : string) (es : list string) : bool := existsb (String.eqb e) es.

(** The email [e] is among the emails extracted from the page. *)
Definition occurs (e : string) (page : string * string) : bool :=
  mem e (extract_emails (snd page)).

(** The candidate the inner loop of [find_contacts_from_pages] builds for
    [e] on the page [(url, txt)]. *)
Definition candidate (e : string) (page : string * string) : FoundEmail :=
  mkFoundEmail e (fst page)
    (fst (guess_role e (fst page) (snd page)))
    (snd (guess_role e (fst page) (snd page))).

(** The candidates for [e], one per page it occurs on, in page order. *)
Definition occ (e : string) (pages : list (string * string)) : list FoundEmail :=
  map (candidate e) (filter (occurs e) pages).

(** [if e not in found or conf > found[e].confidence: found[e] = f], seen
    from the entry of [e]. *)
Definition better (acc : option FoundEmail) (f : FoundEmail) : option FoundEmail :=
  match acc with
  | None => Some f
  | Some old => if PrimFloat.ltb (confidence old) (confidence f) then Some f else Some old
  end.

(** The six values a confidence takes, numbered in increasing order. *)
Definition level (c : float) : nat :=
  if PrimFloat.eqb c 0.0%float then 0
  else if PrimFloat.eqb c 0.2%float then 1
  else if PrimFloat.eqb c 0.4%float then 2
  else if PrimFloat.eqb c 0.6%float then 3
  else if PrimFloat.eqb c 0.8%float then 4
  else 5.

Definition is_score (c : float) : Prop :=
  In c [0.0%float; 0.2%float; 0.4%float; 0.6%float; 0.8%float; 1.0%float].

(** The keys of [found] are distinct, and each entry is filed under its
    own email. *)
Definition well_keyed (d : found_dict) : Prop :=
  NoDup (map fst d) /\ Forall (fun kv => email (snd kv) = fst kv) d.

(** Every candidate of the list carries one of the six values. *)
Definition scored (l : list FoundEmail) : Prop :=
  Forall (fun f => is_score (confidence f)) l.


End Occurrences.

(** ** research/company_profile.py *)

Module CompanyProfile.

Import PyStr PyVal Config Exn Llm Utf8.

(** The newline character. *)
Definition nl : string := String "010"%char EmptyString.

(** ["\n\n".join([f"SOURCE: {u}\n{t[:4000]}" for u, t in pages])[:12000]]. *)
Definition joined (pages : list (string * string)) : string :=
  cp_take 12000
    (String.concat (nl ++ nl)
       (map (fun p => "SOURCE: " ++ fst p ++ nl ++ cp_take 4000 (snd p)) pages)).

Definition summary_prompt (company_name : string) (pages : list (string * string))
    (language : string) : string :=
  "Summarize this company in JSON for sponsorship outreach.

Language: " ++ language ++ "
Company: " ++ company_name ++ "

Pages text (multiple sources):
" ++ joined pages ++ "

Return JSON keys:
- summary
- mission_values
- csr_focus
- recent_initiatives
- alignment_angles (how they might align with an NGO/event sponsorship)
- sources (array of objects: url, note)
".

(** The dict built in the [except LLMError] branch. *)
Definition fallback_profile (company_name : string) (pages : list (string * string))
    : list (string * pyval) :=
  let sources :=
    map (fun p => PDict [("url", PStr (fst p)); ("note", PStr "website page")])
        (firstn 5 pages) in
  [ ("summary", PStr (company_name ++ " (auto summary from website pages)."));
    ("mission_values", PStr "");
    ("csr_focus", PStr "");
    ("recent_initiatives", PStr "");
    ("alignment_angles", PStr "Potential alignment on community impact / CSR.");
    ("sources", PList sources) ].

Section Summary.

Variable settings : Settings.
Variable post : string -> string -> list message -> float -> Z -> result response.
Variable json_loads : string -> option pyval.

Definition summarize_company_pages (company_name : string) (pages : list (string * string))
    (language : string) : result pyval :=
  let prompt := mkMessage "user" (summary_prompt company_name pages language) in
  match json_from_llm settings post json_loads [prompt] "company_profile" 0.2%float 1200 with
  | Ok v => Ok v
  | Raise (LLMError _) => Ok (PDict (fallback_profile company_name pages))
  | Raise e => Raise e
  end.

End Summary.

End CompanyProfile.

(** ** app.py: from the pages of a company to its brief *)

Module Pipeline.

Import PyStr PyVal Config Exn Llm Brief Models CompanyProfile.

(** [company_prof.get(k, "")] on the value [summarize_company_pages]
    returned; [None] when the value is not a dict. *)
Definition prof_get (company_prof : pyval) (k : string) : option pyval :=
  match company_prof with
  | PDict items => Some (dict_get_default items k (PStr ""))
  | _ => None
  end.

(** The dict used when no page was fetched. *)
Definition no_pages_profile (comp : Company) : list (string * pyval) :=
  [ ("summary", PStr (notes comp));
    ("mission_values", PStr "");
    ("csr_focus", PStr "");
    ("recent_initiatives", PStr "");
    ("alignment_angles", PStr "");
    ("sources", PList []) ].

(** [comp_dict], built from the company row and the profile dict. *)
Definition comp_dict (comp : Company) (company_prof : list (string * pyval))
    : list (string * pyval) :=
  [ ("name", PStr (company_name comp));
    ("website", PStr (website comp));
    ("industry", PStr (industry comp));
    ("notes", PStr (notes comp));
    ("summary", dict_get_default company_prof "summary" (PStr ""));
    ("mission_values", dict_get_default company_prof "mission_values" (PStr ""));
    ("csr_focus", dict_get_default company_prof "csr_focus" (PStr ""));
    ("recent_initiatives", dict_get_default company_prof "recent_initiatives" (PStr ""));
    ("alignment_angles", dict_get_default company_prof "alignment_angles" (PStr "")) ].

Section Research.

Variable settings : Settings.
Variable post : string -> string -> list message -> float -> Z -> result response.
Variable json_loads : string -> option pyval.

(** [summarize_company_pages(...) if pages else {...}]. *)
Definition company_profile_of (comp : Company) (pages : list (string * string))
    (language : string) : result pyval :=
  match pages with
  | [] => Ok (PDict (no_pages_profile comp))
  | _ => summarize_company_pages settings post json_loads (company_name comp) pages language
  end.

(** The profile, then the brief; a profile that is not a dict makes
    [company_prof.get] raise. *)
Definition brief_of (org_dict : list (string * pyval)) (comp : Company)
    (pages : list (string * string)) (language : string) : result pyval :=
  bind (company_profile_of comp pages language) (fun prof =>
    match prof with
    | PDict items =>
        build_personalization_brief settings post json_loads org_dict (comp_dict comp items)
          language
    | other =>
        Raise (AttributeError ("'" ++ type_name other ++ "' object has no attribute 'get'"))
    end).

End Research.

End Pipeline.

(** ** Exceptions of the composer and the ingest code *)

Module PyErr.

(** The exceptions of [Exn], and those only the code below raises.
    [HTTPError] carries the status code: the rest of its text is the
    reason phrase of the server. *)
Inductive pyexn : Type :=
| Lib (e : Exn.exn)
| KeyError (msg : string)
| TypeError (msg : string)
| IndexError (msg : string)
| RuntimeError (msg : string)
| HTTPError (msg : string).

Inductive outcome (A : Type) : Type :=
| Done (a : A)
| Failed (e : pyexn).

Arguments Done {A} a.
Arguments Failed {A} e.

Definition and_then {A B : Type} (r : outcome A) (f : A -> outcome B) : outcome B :=
  match r with
  | Done a => f a
  | Failed e => Failed e
  end.

Definition of_result {A : Type} (r : Exn.result A) : outcome A :=
  match r with
  | Exn.Ok a => Done a
  | Exn.Raise e => Failed (Lib e)
  end.

End PyErr.

(** ** writer/templates.py and writer/email_writer.py *)

Module EmailWriter.

Import PyStr PyVal Config Llm Utf8 CompanyProfile PyErr.

(** The keyword arguments of [tpl.format]. *)
Record fields := mkFields {
  f_contact_or_team : string;
  f_contact_name : string;
  f_org_name : string;
  f_contact_email : string;
  f_company_name : string;
  f_company_angle : string;
  f_event_name_or_summary : string;
  f_sponsorship_ask_short : string;
  f_benefit_1 : string;
  f_benefit_2 : string;
  f_benefit_3 : string;
  f_cta : string
}.

(** Each template is cut in three: what precedes the benefit lines, the
    three benefit lines, and what follows them. *)
Definition VI_HEAD (f : fields) : string :=
  "Xin chào " ++ f_contact_or_team f ++ ",

Mình là " ++ f_contact_name f ++ " từ " ++ f_org_name f ++ ". Mình liên hệ vì thấy " ++ f_company_name f ++ " có định hướng " ++ f_company_angle f ++ ", rất phù hợp để đồng hành cùng chương trình " ++ f_event_name_or_summary f ++ " của tụi mình.

Tụi mình đang tìm đối tác tài trợ để " ++ f_sponsorship_ask_short f ++ ". Đổi lại, " ++ f_org_name f ++ " có thể mang lại:
".

Definition VI_TAIL (f : fields) : string :=
  "
Mình có đính kèm hồ sơ tài trợ. Nếu phù hợp, mình xin hẹn " ++ f_cta f ++ " trong tuần này để chia sẻ ngắn và đề xuất gói đồng hành phù hợp.

Cảm ơn anh/chị và mong nhận được phản hồi.
Trân trọng,
" ++ f_contact_name f ++ "
" ++ f_org_name f ++ "
" ++ f_contact_email f ++ "
".

Definition EN_HEAD (f : fields) : string :=
  "Hi " ++ f_contact_or_team f ++ ",

I’m " ++ f_contact_name f ++ " from " ++ f_org_name f ++ ". I’m reaching out because " ++ f_company_name f ++ "'s focus on " ++ f_company_angle f ++ " looks like a strong match for our " ++ f_event_name_or_summary f ++ ".

We’re currently seeking sponsorship support to " ++ f_sponsorship_ask_short f ++ ". In return, " ++ f_org_name f ++ " can offer:
".

Definition EN_TAIL (f : fields) : string :=
  "
I’ve attached our sponsorship deck. If this could be of interest, could we schedule " ++ f_cta f ++ " this week to share details and propose a partnership option that fits your priorities?

Best regards,
" ++ f_contact_name f ++ "
" ++ f_org_name f ++ "
" ++ f_contact_email f ++ "
".

Definition benefit_lines (f : fields) : string :=
  "- " ++ f_benefit_1 f ++ nl ++ "- " ++ f_benefit_2 f ++ nl ++ "- " ++ f_benefit_3 f ++ nl.

(** [VI_TEMPLATE.format(...)] and [EN_TEMPLATE.format(...)]. *)
Definition format_vi (f : fields) : string := VI_HEAD f ++ benefit_lines f ++ VI_TAIL f.
Definition format_en (f : fields) : string := EN_HEAD f ++ benefit_lines f ++ EN_TAIL f.

(** [len(v)]. *)
Definition py_len (v : pyval) : outcome nat :=
  match v with
  | PStr s => Done (cp_length s)
  | PList items => Done (List.length items)
  | PDict items => Done (List.length items)
  | other => Failed (TypeError ("object of type '" ++ type_name other ++ "' has no len()"))
  end.

(** [v[i]] for a non-negative integer [i]; the keys of a dict are
    strings, so an integer is never one of them. *)
Definition py_index (v : pyval) (i : nat) : outcome pyval :=
  match v with
  | PList items =>
      match nth_error items i with
      | Some x => Done x
      | None => Failed (IndexError "list index out of range")
      end
  | PStr s =>
      match cp_nth i s with
      | Some c => Done (PStr c)
      | None => Failed (IndexError "string index out of range")
      end
  | PDict _ => Failed (KeyError (str_of_int (Z.of_nat i)))
  | other => Failed (TypeError ("'" ++ type_name other ++ "' object is not subscriptable"))
  end.

(** The inner function [pick]. *)
Definition pick (brief : list (string * pyval)) (idx : nat) (default : string) : outcome pyval :=
  let arr := py_or (dict_get brief "benefits") (PList []) in
  and_then (py_len arr) (fun n =>
    if Nat.ltb idx n then py_index arr idx else Done (PStr default)).

(** [(org.get("sponsorship_ask") or "support our program").split("\n")[0][:140]]. *)
Definition ask_short (org : list (string * pyval)) : outcome string :=
  match py_or (dict_get org "sponsorship_ask") (PStr "support our program") with
  | PStr s => Done (cp_take 140 (before_first "010"%char s))
  | other =>
      Failed (Lib (Exn.AttributeError
                     ("'" ++ type_name other ++ "' object has no attribute 'split'")))
  end.

(** [company.get("contact_name") or "anh/chị" if language == "vi" else "there"]:
    the conditional binds weaker than [or]. *)
Definition greeting_name (company : list (string * pyval)) (language : string) : pyval :=
  if String.eqb language "vi"
  then py_or (dict_get company "contact_name") (PStr "anh/chị")
  else PStr "there".

Definition TEMPLATE_NOTES : string := "Template-generated (offline fallback).".

Definition write_email_template (org company brief : list (string * pyval)) (language : string)
    : outcome (pyval * string * string) :=
  and_then
    (py_index (py_or (dict_get brief "subject_ideas") (PList [PStr "Sponsorship partnership"])) 0)
    (fun subject =>
  and_then (ask_short org) (fun ask =>
  and_then (pick brief 0 "Brand exposure to a relevant audience") (fun b1 =>
  and_then (pick brief 1 "Meaningful community impact") (fun b2 =>
  and_then (pick brief 2 "Post-event impact reporting") (fun b3 =>
    let f :=
      mkFields
        (py_str (greeting_name company language))
        (py_str (py_or (dict_get org "contact_name") (PStr "Team")))
        (py_str (py_or (dict_get org "org_name") (PStr "our organization")))
        (py_str (py_or (dict_get org "contact_email") (PStr "")))
        (py_str (py_or (dict_get company "name") (PStr "your company")))
        (py_str (py_or (dict_get brief "company_angle") (PStr "cộng đồng")))
        (py_str (py_or (dict_get org "event_summary") (PStr "program")))
        ask
        (py_str b1) (py_str b2) (py_str b3)
        (py_str (py_or (dict_get brief "best_cta")
                   (PStr (if String.eqb language "vi" then "một cuộc gọi 15 phút"
                          else "a 15-minute call")))) in
    let body := if String.eqb language "vi" then format_vi f else format_en f in
    Done (subject, body, TEMPLATE_NOTES)))))).

(** [s.split(sep, 1)]: [None] when [sep] does not occur, else the text
    before its first occurrence and the text after it. *)
Fixpoint split_once (sep s : string) : option (string * string) :=
  if prefix sep s
  then Some (EmptyString, substring (String.length sep) (String.length s - String.length sep) s)
  else
    match s with
    | EmptyString => None
    | String c s' =>
        match split_once sep s' with
        | Some (a, b) => Some (String c a, b)
        | None => None
        end
    end.

Definition email_prompt (org company brief : list (string * pyval)) (language : string)
    : string :=
  "Write a concise sponsorship outreach email.

Language: " ++ language ++ "
Constraints:
- 120-180 words
- 1 clear ask (CTA)
- Mention attachment (sponsorship deck)
- Use facts only from the provided org/event + company profile (no hallucination)
- Friendly, professional tone

Org/Event:
" ++ py_str (PDict org) ++ "

Company:
" ++ py_str (PDict company) ++ "

Personalization brief:
" ++ py_str (PDict brief) ++ "

Return:
1) Subject line
2) Email body (plain text)

Separate subject and body with a blank line.
".

Definition LLM_NOTES : string := "LLM-generated with brief.".

Section Composer.

Variable settings : Settings.
Variable post : string -> string -> list message -> float -> Z -> Exn.result response.

Definition write_email_with_llm (org company brief : list (string * pyval)) (language : string)
    : outcome (pyval * string * string) :=
  let prompt := mkMessage "user" (email_prompt org company brief language) in
  match chat_completion settings post [prompt] 0.4%float 700 with
  | Exn.Ok (PStr out) =>
      match split_once (nl ++ nl) (strip_ws out) with
      | None =>
          and_then
            (py_index (dict_get_default brief "subject_ideas" (PList [PStr "Hợp tác tài trợ"])) 0)
            (fun subject => Done (subject, strip_ws out, LLM_NOTES))
      | Some (a, b) => Done (PStr (strip_ws a), strip_ws b, LLM_NOTES)
      end
  | Exn.Ok other =>
      Failed (Lib (Exn.AttributeError
                     ("'" ++ type_name other ++ "' object has no attribute 'strip'")))
  | Exn.Raise (Exn.LLMError _) => write_email_template org company brief language
  | Exn.Raise e => Failed (Lib e)
  end.

End Composer.

End EmailWriter.

(** ** Examples for the composer *)

Module ComposerExamples.

Import PyVal Config Llm CompanyProfile.

(** Settings with a provider and a key, and an endpoint that answers
    every request with the same text. *)
Definition llm_cfg : Settings := with_llm "openai" "sk-test" "".

Definition reply_of (content : string) : response :=
  mkResponse 200 content
    (Some (PDict [("choices",
                   PList [PDict [("message", PDict [("content", PStr content)])]])])).

Definition post_reply (content : string)
    : string -> string -> list message -> float -> Z -> Exn.result response :=
  fun _ _ _ _ _ => Exn.Ok (reply_of content).

Definition reply_two_blocks : string :=
  " Subject: Partnership with Acme " ++ nl ++ nl ++ "Dear Acme team," ++ nl ++ nl
    ++ "We would like to meet." ++ nl.

End ComposerExamples.

(** ** sender/mime_builder.py: one pass of the attachment loop *)

Module Attachments.

Import Sender.

(** What the body of the loop of [build_message] attaches for one path
    it gets through. *)
Definition attachment_of (files : string -> file_state) (p : string)
    : list (string * string) :=
  match files p with
  | Readable content => [(basename p, content)]
  | _ => []
  end.

(** A file system with one file, for examples. *)
Definition example_files (p : string) : file_state :=
  if String.eqb p "docs/proposal.pdf" then Readable "%PDF" else Missing.

End Attachments.

(** ** research/scraper.py *)

Module Scraper.

Import PyStr Exn Finder.





(** The length of the run of characters of a class a string starts
    with, and of the longest run it holds: the measures in which the
    effect of [normalize] is stated. *)
Fixpoint run (p : ascii -> bool) (s : string) : nat :=
  match s with
  | EmptyString => 0
  | String c s' => if p c then S (run p s') else 0
  end.

Fixpoint max_run (p : ascii -> bool) (s : string) : nat :=
  match s with
  | EmptyString => 0
  | String c s' => Nat.max (run p (String c s')) (max_run p s')
  end.

(** The list [candidates]. *)
Definition candidates (base : string) : list string :=
  [ base;
    base ++ "/about";
    base ++ "/about-us";
    base ++ "/company";
    base ++ "/sustainability";
    base ++ "/csr";
    base ++ "/esg";
    base ++ "/community";
    base ++ "/foundation";
    base ++ "/partnership";
    base ++ "/partnerships";
    base ++ "/sponsorship";
    base ++ "/contact";
    base ++ "/contact-us" ].

(** The second loop: [seen] is only tested for membership. *)
Fixpoint dedup_loop (out seen dedup : list string) : list string :=
  match out with
  | [] => dedup
  | u :: rest =>
      if existsb (String.eqb u) seen then dedup_loop rest seen dedup
      else dedup_loop rest (u :: seen) (dedup ++ [u])%list
  end.

Section Pages.

(** [urlparse(u).netloc], which raises [ValueError] on some malformed
    hosts. *)
Variable netloc : string -> result string.

(** The first loop: the candidates on the host of [base]. *)
Fixpoint same_host (host : string) (us : list string) (out : list string)
    : result (list string) :=
  match us with
  | [] => Ok out
  | u :: rest =>
      bind (netloc u) (fun h =>
        same_host host rest (if String.eqb h host then (out ++ [u])%list else out))
  end.

Definition guess_key_pages (website : string) : result (list string) :=
  let website := strip_ws website in
  if String.eqb website "" then Ok []
  else
    let website := if prefix "http" website then website else "https://" ++ website in
    let base := rstrip_by (fun c => mem_char c "/") website in
    bind (netloc base) (fun host =>
      bind (same_host host (candidates base) []) (fun out =>
        Ok (dedup_loop out [] []))).

End Pages.

End Scraper.

(** ** The order of the candidates *)

Module BestFirst.

Import Finder Occurrences.

(** [a] may stand before [b] in a list sorted by [sort_key] in
    descending order: both are scored and the key of [a] is not less
    than the key of [b]. *)
Definition not_less (a b : FoundEmail) : Prop :=
  is_score (confidence a) /\ is_score (confidence b)
  /\ key_lt (sort_key a) (sort_key b) = false.

End BestFirst.

(** ** ingest/org_profile_ai.py *)

Module OrgProfile.

Import PyStr PyVal Llm Utf8 PyErr EmailWriter.

Definition FIELDS : list string :=
  [ "org_name";
    "org_website";
    "contact_name";
    "contact_email";
    "contact_phone";
    "mission";
    "programs";
    "event_summary";
    "sponsorship_ask";
    "sponsorship_tiers";
    "audience";
    "impact_metrics" ].

(** [out[k] = v]: a new key goes last, a present key keeps its place. *)
Fixpoint set_item (k : string) (v : pyval) (d : list (string * pyval))
    : list (string * pyval) :=
  match d with
  | [] => [(k, v)]
  | (k', v') :: d' => if String.eqb k k' then (k, v) :: d' else (k', v') :: set_item k v d'
  end.

(** The body of the loop of [_clean_payload]. *)
Definition clean_field (d out : list (string * pyval)) (k : string) : list (string * pyval) :=
  let v := dict_get_default d k (PStr "") in
  let v := match v with PNone => PStr "" | _ => v end in
  set_item k (PStr (strip_ws (py_str v))) out.

(** [d.get] raises on a value that is not a dict. *)
Definition _clean_payload (d : pyval) : outcome (list (string * pyval)) :=
  match d with
  | PDict items => Done (fold_left (clean_field items) FIELDS [])
  | other =>
      Failed (Lib (Exn.AttributeError
                     ("'" ++ type_name other ++ "' object has no attribute 'get'")))
  end.

(** [{k: "" for k in FIELDS}]. *)
Definition empty_profile : list (string * pyval) :=
  fold_left (fun out k => set_item k (PStr "") out) FIELDS [].

(** The double quote. *)
Definition dq : string := String "034"%char EmptyString.

Definition system_prompt : string :=
  "You extract structured sponsorship/outreach information from raw proposal PDF text.

Rules:
- Return ONLY valid JSON. No markdown, no explanations.
- If a field is not present, return " ++ dq ++ dq ++ " (empty string).
- Do NOT invent facts, dates, numbers, sponsors, or metrics. If unsure, keep it " ++ dq ++ dq ++ ".
- Prefer short, clean phrasing that can be pasted into an email.
- Keep each field concise:
  - org_name, org_website, contact_*: short
  - mission: <= 2 sentences
  - programs: <= 6 bullet lines (use newline-separated bullets)
  - event_summary: <= 6 sentences or newline bullets
  - sponsorship_ask: <= 6 bullet lines
  - sponsorship_tiers: if tiers exist, format as newline bullets " ++ dq ++ "Tier - Benefits - Price" ++ dq ++ " else " ++ dq ++ dq ++ "
  - audience: <= 4 bullet lines with any numbers/demographics if present
  - impact_metrics: <= 6 bullet lines with numbers if present

Output schema keys (must match exactly):
org_name, org_website, contact_name, contact_email, contact_phone,
mission, programs, event_summary, sponsorship_ask, sponsorship_tiers,
audience, impact_metrics

Also include an " ++ dq ++ "evidence" ++ dq ++ " object with short supporting snippets:
evidence = {
  " ++ dq ++ "org_name" ++ dq ++ ": " ++ dq ++ "..." ++ dq ++ ",
  " ++ dq ++ "mission" ++ dq ++ ": " ++ dq ++ "..." ++ dq ++ ",
  " ++ dq ++ "programs" ++ dq ++ ": " ++ dq ++ "..." ++ dq ++ ",
  " ++ dq ++ "event_summary" ++ dq ++ ": " ++ dq ++ "..." ++ dq ++ ",
  " ++ dq ++ "sponsorship_ask" ++ dq ++ ": " ++ dq ++ "..." ++ dq ++ ",
  " ++ dq ++ "sponsorship_tiers" ++ dq ++ ": " ++ dq ++ "..." ++ dq ++ ",
  " ++ dq ++ "audience" ++ dq ++ ": " ++ dq ++ "..." ++ dq ++ ",
  " ++ dq ++ "impact_metrics" ++ dq ++ ": " ++ dq ++ "..." ++ dq ++ "
}
Each evidence value should be a short quote or near-quote from the PDF text (<= 200 chars each). If not found, " ++ dq ++ dq ++ ".
".

Definition user_prompt (text : string) : string :=
  "
You are given raw text extracted from a sponsorship proposal PDF.
Your job: extract structured information and return ONLY valid JSON.

STRICT RULES:
- Output must be JSON only. No markdown, no commentary, no extra text.
- Do NOT invent anything. If not clearly present, return " ++ dq ++ dq ++ ".
- Prefer copying near-exact phrases from the PDF (lightly cleaned).
- Keep outputs concise and email-ready.
- Use newline bullet format for multi-item fields (programs, sponsorship_ask, sponsorship_tiers, audience, impact_metrics).
- If the PDF text contains multiple events/programs, focus on the PRIMARY event described.

Return JSON with EXACT keys (no additional keys):
" ++ py_str (PList (map PStr FIELDS)) ++ "

FIELD GUIDANCE:
- org_name: official organization/club/project name.
- org_website: official website URL (if any).
- contact_name / contact_email / contact_phone: only if explicitly present; otherwise " ++ dq ++ dq ++ ".
- mission: 1–2 sentences summarizing mission/vision.
- programs: up to 6 bullets describing ongoing programs/initiatives (one per line).
- event_summary: 4–8 lines max; include: what the event is, when/where (if present), purpose, format, who participates.
- sponsorship_ask: up to 6 bullets describing what you want from sponsors (cash/in-kind/media/venue/speakers/etc) + what sponsors get.
- sponsorship_tiers: if tiers exist, format each line as:
  " ++ dq ++ "Tier name — price (if shown) — key benefits" ++ dq ++ "
  If no tiers are mentioned, return " ++ dq ++ dq ++ ".
- audience: up to 4 bullets; include numbers/demographics/reach if present.
- impact_metrics: up to 6 bullets; only include quantified results or clearly stated outcomes (numbers, past impact, KPIs).

QUALITY CHECK BEFORE YOU RETURN:
- Every key in " ++ py_str (PList (map PStr FIELDS)) ++ " must exist in the JSON.
- Values must be strings (even bullet lists are a single string with newlines).
- Empty string " ++ dq ++ dq ++ " for unknown fields.
- No trailing commas in JSON.

PDF_TEXT:
" ++ text ++ "
".

(** [v[k]] for a string key. *)
Definition py_item (v : pyval) (k : string) : outcome pyval :=
  match v with
  | PDict items =>
      match assoc k items with
      | Some x => Done x
      | None => Failed (KeyError (repr_str k))
      end
  | PList _ => Failed (TypeError "list indices must be integers or slices, not str")
  | PStr _ => Failed (TypeError "string indices must be integers, not 'str'")
  | other => Failed (TypeError ("'" ++ type_name other ++ "' object is not subscriptable"))
  end.

Section Extraction.

(** [os.getenv], the [requests.post] call ([post url api_key model
    messages temperature timeout]) and [json.loads] ([None] when it
    raises [JSONDecodeError]). *)
Variable getenv : string -> option string.
Variable post : string -> string -> string -> list message -> float -> Z -> Exn.result response.
Variable json_loads : string -> option pyval.

(** [os.getenv(k, default)]. *)
Definition getenv_default (k default : string) : string :=
  match getenv k with
  | Some v => v
  | None => default
  end.

(** The salvage of the [except json.JSONDecodeError] branch. *)
Definition salvage (content : string) : outcome pyval :=
  match find_char "{" content, rfind_char "}" content with
  | Some start, Some end_ =>
      if Nat.leb end_ start
      then Failed (RuntimeError ("LLM did not return JSON. Got: " ++ cp_take 300 content))
      else
        let raw := slice start (end_ + 1) content in
        match json_loads raw with
        | Some data => Done data
        | None => Failed (Lib (Exn.JSONDecodeError raw))
        end
  | _, _ => Failed (RuntimeError ("LLM did not return JSON. Got: " ++ cp_take 300 content))
  end.

Definition extract_org_profile_with_llm (raw_pdf_text : string)
    : outcome (list (string * pyval)) :=
  let provider := lower (getenv_default "LLM_PROVIDER" "none") in
  if String.eqb provider "none" then Done empty_profile
  else
    let base_url := rstrip_slash (getenv_default "OPENAI_BASE_URL" "https://api.openai.com/v1") in
    let api_key := strip_ws (getenv_default "OPENAI_API_KEY" "") in
    let model := strip_ws (getenv_default "OPENAI_MODEL" "gpt-4o-mini") in
    if String.eqb api_key "" then Failed (RuntimeError "Missing OPENAI_API_KEY in .env")
    else
      let text := cp_take 25000 (strip_ws raw_pdf_text) in
      let messages :=
        [mkMessage "system" system_prompt; mkMessage "user" (user_prompt text)] in
      and_then (of_result (post (base_url ++ "/chat/completions") api_key model messages
                             0.2%float 60)) (fun r =>
        if ((400 <=? status_code r) && (status_code r <? 600))%Z
        then Failed (HTTPError (str_of_int (status_code r)))
        else
          match json r with
          | None => Failed (Lib (Exn.JSONDecodeError (Llm.text r)))
          | Some body =>
              and_then (py_item body "choices") (fun choices =>
              and_then (py_index choices 0) (fun choice =>
              and_then (py_item choice "message") (fun m =>
              and_then (py_item m "content") (fun content =>
                match content with
                | PStr c =>
                    match json_loads c with
                    | Some data => _clean_payload data
                    | None => and_then (salvage c) _clean_payload
                    end
                | other =>
                    Failed (TypeError ("the JSON object must be str, bytes or bytearray, not "
                                         ++ type_name other))
                end))))
          end).

End Extraction.

End OrgProfile.

(** ** ingest/proposal_pdf.py *)

Module ProposalPdf.

Import PyStr CompanyProfile.

(** The loop over [enumerate(doc)]: a page is its text, or [None] when
    [get_text] raises. *)
Fixpoint read_pages (i : Z) (doc : list (option string)) (max_pages : Z) (texts : list string)
    : list string :=
  match doc with
  | [] => texts
  | page :: rest =>
      if (i >=? max_pages)%Z then texts
      else
        match page with
        | Some t => read_pages (i + 1) rest max_pages (texts ++ [t])%list
        | None => read_pages (i + 1) rest max_pages texts
        end
  end.

(** [fitz] is [None] when PyMuPDF is not installed; [open_ path] is
    [None] when opening the file raises. *)
Definition extract_text_from_pdf (fitz : option (string -> option (list (option string))))
    (pdf_path : string) (max_pages : Z) : string :=
  match fitz with
  | None => ""
  | Some open_ =>
      match open_ pdf_path with
      | None => ""
      | Some doc => strip_ws (String.concat (nl ++ nl) (read_pages 0 doc max_pages []))
      end
  end.

(** The texts of the pages that can be read. *)
Definition readable (doc : list (option string)) : list string :=
  flat_map (fun page => match page with Some t => [t] | None => [] end) doc.

End ProposalPdf.

(** ** Examples for the extraction of the organisation profile *)

Module OrgProfileExamples.

Import PyVal Llm ComposerExamples.

(** An environment with a provider and a key. *)
Definition env_openai (k : string) : option string :=
  if String.eqb k "LLM_PROVIDER" then Some "OpenAI"
  else if String.eqb k "OPENAI_API_KEY" then Some " sk-test "
  else None.

Definition post_profile
    : string -> string -> string -> list message -> float -> Z -> Exn.result response :=
  fun _ _ _ _ _ _ => Exn.Ok (reply_of "{...}").

(** A decoder that reads every reply as the same object. *)
Definition loads_profile (raw : string) : option pyval :=
  Some (PDict [("org_name", PStr " Youth Fund "); ("mission", PNone); ("score", PInt 3)]).

End OrgProfileExamples.

(** ** The message of a pass *)

Module Delivery.

Import Config Exn Models Sender Worker.

(** The message a pass builds for a draft with a recipient. *)
Definition message_for (settings : Settings) (env : Env) (store : Store) (draft : Draft)
    (to_email : string) : result EmailMessage :=
  build_message (header env) (files env) (subject draft) (body_text draft) to_email
    (str_or (SMTP_FROM settings) (SMTP_USER settings))
    (match campaign_of store (get_company store (company_id draft)) with
     | Some c => attachment_paths c
     | None => []
     end).

End Delivery.

(** ** Measures of the queue *)

Module Queue.

Import Models.

Definition is_approved (d : Draft) : bool := String.eqb (status d) DraftStatus.APPROVED.

(** The number of rows the worker could still claim. *)
Definition approved_count (store : Store) : nat :=
  List.length (filter is_approved (drafts store)).

(** The primary keys of the draft table are distinct. *)
Definition unique_pks (store : Store) : Prop := NoDup (map draft_pk (drafts store)).

End Queue.

(** * Verification *)

(** ** Slices by code points *)

Module Utf8Spec.

Import Utf8.

(** [s[:n]] has at most [n] characters. *)
Lemma cp_take_length_le (n : nat) (s : string) : cp_length (cp_take n s) <= n.
Proof.
  revert n. induction s as [|c s IH]; intros n; cbn; [lia|].
  destruct (is_cont c) eqn:E.
  - cbn. rewrite E. apply IH.
  - destruct n as [|n]; cbn; [lia|]. rewrite E. specialize (IH n). lia.
Qed.

End Utf8Spec.

(** ** Facts about the float constants of the confidence score *)

Module ScoreFacts.

Import PyFloat.

Local Open Scope float_scope.

(** Two floats that differ under [PrimFloat.eqb] are different values. *)
Lemma float_neq (a b : float) : PrimFloat.eqb a b = false -> PrimFloat.eqb a a = true -> a <> b.
Proof.
  intros Hab Haa Heq. rewrite <- Heq in Hab. rewrite Hab in Haa. discriminate.
Qed.

(** The sums [guess_role] can form are the binary64 values of the
    decimal literals. *)
Lemma sum_06 : 0.0 + 0.6 = 0.6. Proof. reflexivity. Qed.
Lemma sum_02 : 0.0 + 0.2 = 0.2. Proof. reflexivity. Qed.
Lemma sum_08 : 0.0 + 0.6 + 0.2 = 0.8. Proof. reflexivity. Qed.
Lemma sum_04 : 0.0 + 0.2 + 0.2 = 0.4. Proof. reflexivity. Qed.
Lemma sum_10 : 0.0 + 0.6 + 0.2 + 0.2 = 1.0. Proof. reflexivity. Qed.

End ScoreFacts.

(** ** guess_role *)

Module GuessRoleSpec.

Import PyStr PyFloat Finder ScoreFacts.

Lemma csr_keywords_first :
  exists rest, ROLE_KEYWORDS = ("csr", CSR_KEYWORDS) :: rest.
Proof. eexists. reflexivity. Qed.

(** C3, as stated, fails: on the scenario's input the confidence is not
    0.6. *)
Lemma guess_role_acme_not_06 :
  guess_role "info@acme.org" "https://acme.org/partnership"
             "Contact: info@acme.org for partnership inquiries"
  <> ("partnership", 0.6%float).
Proof.
  intro H. apply (f_equal snd) in H. vm_compute in H.
  revert H. apply float_neq; reflexivity.
Qed.

(** C3 (amended): for the email [info@acme.org], the URL
    [https://acme.org/partnership] and the page text
    [Contact: info@acme.org for partnership inquiries], [guess_role]
    returns the role partnership with confidence 1.0: the URL keyword
    gives 0.6, the mailbox [info@] is a generic-inbox hint (+0.2) and the
    page text holds the term [partnership] (+0.2). *)
Theorem guess_role_acme :
  guess_role "info@acme.org" "https://acme.org/partnership"
             "Contact: info@acme.org for partnership inquiries"
  = ("partnership", 1.0%float).
Proof. vm_compute. reflexivity. Qed.

(** The three rules of [guess_role] fire on the scenario's input. *)
Lemma guess_role_acme_rules :
  first_role ROLE_KEYWORDS (lower "info@acme.org") (lower "https://acme.org/partnership")
    = Some "partnership"
  /\ any_in GENERIC_INBOX_HINTS (lower "info@acme.org") = true
  /\ any_in PAGE_TERMS (lower "Contact: info@acme.org for partnership inquiries") = true.
Proof. repeat split; reflexivity. Qed.

(** C4, as stated, fails: a generic mailbox on a CSR page without any
    page term scores 0.8. *)
Lemma guess_role_csr_url_not_always_06 :
  ~ (forall email url text : string,
        any_in CSR_KEYWORDS (lower url) = true ->
        any_in PAGE_TERMS (lower text) = false ->
        guess_role email url text = ("csr", 0.6%float)).
Proof.
  intro H.
  specialize (H "info@acme.org" "https://acme.org/csr" "hello" eq_refl eq_refl).
  apply (f_equal snd) in H. vm_compute in H.
  revert H. apply float_neq; reflexivity.
Qed.

(** C4 (amended): when the lower-cased URL contains a CSR keyword stem
    and the lower-cased page text contains none of the page terms,
    [guess_role] returns the role csr, with confidence 0.6 if the
    lower-cased email contains no generic-inbox hint and 0.8 if it
    contains one. *)
Theorem guess_role_csr_url (email url text : string) :
  any_in CSR_KEYWORDS (lower url) = true ->
  any_in PAGE_TERMS (lower text) = false ->
  guess_role email url text
  = ("csr", if any_in GENERIC_INBOX_HINTS (lower email) then 0.8%float else 0.6%float).
Proof.
  intros Hurl Htext. unfold guess_role, ROLE_KEYWORDS.
  cbn [first_role]. fold CSR_KEYWORDS. rewrite Hurl, orb_true_r, Htext.
  destruct (any_in GENERIC_INBOX_HINTS (lower email)); reflexivity.
Qed.

Lemma guess_role_csr_url_witness :
  guess_role "jobs@acme.org" "https://acme.org/CSR" "hello"
  = ("csr", if any_in GENERIC_INBOX_HINTS (lower "jobs@acme.org") then 0.8%float else 0.6%float).
Proof. apply guess_role_csr_url; reflexivity. Defined.

End GuessRoleSpec.

(** ** The send worker *)

Module WorkerSpec.

Import Config Exn Models Sender Worker Transitions.

Lemma oldest_In (rows : list Draft) (best : Draft) : In (oldest best rows) (best :: rows).
Proof.
  revert best. induction rows as [|d rows IH]; intros best; simpl.
  - now left.
  - destruct (updated_at d <? updated_at best)%Z.
    + right. apply IH.
    + destruct (IH best) as [H|H]; [left|right; right]; assumption.
Qed.

Lemma first_approved_In (store : Store) (d : Draft) :
  first_approved store = Some d ->
  In d (drafts store) /\ status d = DraftStatus.APPROVED.
Proof.
  unfold first_approved.
  destruct (filter _ (drafts store)) as [|b rows] eqn:E; [discriminate|].
  intros [= <-].
  assert (H : In (oldest b rows) (filter (fun d => String.eqb (status d) DraftStatus.APPROVED)
                                         (drafts store))).
  { rewrite E. apply oldest_In. }
  apply filter_In in H. destruct H as [H1 H2]. split; [assumption|].
  now apply String.eqb_eq.
Qed.

Lemma update_draft_In (d d' : Draft) (rows : list Draft) :
  In d rows -> draft_pk d' = draft_pk d -> In d' (update_draft d' rows).
Proof.
  intros Hin Hpk. unfold update_draft. apply in_map_iff.
  exists d. split; [|assumption]. rewrite Hpk, Z.eqb_refl. reflexivity.
Qed.

(** After [update_draft], the rows with the key of the new row are the
    new row. *)
Lemma update_draft_pk (d' r : Draft) (rows : list Draft) :
  In r (update_draft d' rows) -> draft_pk r = draft_pk d' -> r = d'.
Proof.
  unfold update_draft. intros Hin Hpk. apply in_map_iff in Hin.
  destruct Hin as (x & Hx & _). destruct (draft_pk x =? draft_pk d')%Z eqn:E; [now subst r|].
  subst r. apply Z.eqb_neq in E. contradiction.
Qed.

Lemma flush_single (d : Draft) (a : SendAttempt) (store : Store) :
  drafts (flush [d] [a] store) = update_draft d (drafts store)
  /\ attempts (flush [d] [a] store)
     = (attempts store ++
        [mkSendAttempt (Some (next_attempt_pk (attempts store))) (draft_id a)
           (attempt_status a) (provider a) (provider_message_id a) (error a) (timestamp a)])%list
  /\ campaigns (flush [d] [a] store) = campaigns store
  /\ companies (flush [d] [a] store) = companies store
  /\ contacts (flush [d] [a] store) = contacts store.
Proof. repeat split. Qed.

(** The fast-fail branch, as an equation. *)
Lemma iteration_fast_fail (settings : Settings) (env : Env) (once : bool) (st : State)
    (draft : Draft) :
  first_approved (db st) = Some draft ->
  no_recipient (option_map contact_email (contact_of (db st) draft)) = true ->
  iteration settings env once st = (Ok Continue, fast_fail_state env st draft).
Proof.
  intros Hd Hno. unfold iteration. rewrite Hd, Hno. reflexivity.
Qed.

Lemma mark_pk (d : Draft) (s : string) (t : datetime) : draft_pk (mark d s t) = draft_pk d.
Proof. reflexivity. Qed.

(** [mark] sets the status and the timestamp, and nothing else. *)
Lemma mark_restamped (d : Draft) (s : string) (t : datetime) : restamped d (mark d s t) s t.
Proof. repeat split. Qed.

Ltac step_worker :=
  cbv beta iota delta
    [mbind try_except ret raise lift utcnow send commit print emit sleep name_of new_attempt].

(** The points where a pass depends on the standard output and on
    [time.sleep]. *)
Ltac pass_case :=
  match goal with
  | |- context [stdout ?env ?l] => destruct (stdout env l) eqn:?
  | |- context [sleeper ?env ?s] => destruct (sleeper env s) eqn:?
  end.

Ltac pass_cases := repeat (pass_case; cbn).





(** A pass can commit twice: with a negative rate limit the
    [time.sleep] after the SENT commit raises inside the [try], and the
    [except] branch marks the delivered draft FAILED. *)
Example sent_then_failed :
  let st' := snd (iteration WorkerExamples.cfg_negative_rate WorkerExamples.env_ticking false
                    (WorkerExamples.start [WorkerExamples.draft_with_contact])) in
  map status (drafts (db st')) = [DraftStatus.FAILED]
  /\ map attempt_status (attempts (db st')) = ["sent"; "failed"]
  /\ map error (attempts (db st')) = [""; "sleep length must be non-negative"].
Proof. vm_compute. repeat split. Qed.

(** What the fast-fail branch leaves in the store. *)
Lemma fast_fail_store (env : Env) (st : State) (draft : Draft) :
  In draft (drafts (db st)) ->
  let failed := mark draft DraftStatus.FAILED (clock env (clock_reads st)) in
  drafts (db (fast_fail_state env st draft)) = update_draft failed (drafts (db st))
  /\ In failed (drafts (db (fast_fail_state env st draft)))
  /\ (forall r, In r (drafts (db (fast_fail_state env st draft))) ->
                draft_pk r = draft_pk draft -> r = failed).
Proof.
  intros Hin failed. split; [reflexivity|]. split.
  - apply (update_draft_In draft); [exact Hin|reflexivity].
  - intros r Hr Hpk. apply (update_draft_pk failed r (drafts (db st))); assumption.
Qed.

(** C5: when the claimed draft has no resolvable recipient email, the
    pass sets the status of its row to FAILED (and [updated_at] to the
    clock reading, nothing else), appends exactly one attempt record,
    of status failed and with the error text [No recipient email
    selected], and goes on to the next pass of the loop; the only event
    of the pass is that commit, so it neither sleeps nor calls the
    transport. *)
Theorem no_recipient_fails_fast (settings : Settings) (env : Env) (once : bool) (st : State)
    (draft : Draft) :
  first_approved (db st) = Some draft ->
  no_recipient (option_map contact_email (contact_of (db st) draft)) = true ->
  exists (st' : State) (failed : Draft) (a : SendAttempt) (c : event),
    iteration settings env once st = (Ok Continue, st')
    /\ status failed = DraftStatus.FAILED
    /\ restamped draft failed DraftStatus.FAILED (clock env (clock_reads st))
    /\ drafts (db st') = update_draft failed (drafts (db st))
    /\ In failed (drafts (db st'))
    /\ (forall r, In r (drafts (db st')) -> draft_pk r = draft_pk draft -> r = failed)
    /\ attempts (db st') = (attempts (db st) ++ [a])%list
    /\ draft_id a = draft_pk draft
    /\ attempt_status a = "failed"
    /\ error a = "No recipient email selected"
    /\ trace st' = (trace st ++ [c])%list
    /\ (forall seconds, c <> Sleep seconds)
    /\ smtp_calls st' = smtp_calls st.
Proof.
  intros Hd Hno.
  exists (fast_fail_state env st draft),
         (mark draft DraftStatus.FAILED (clock env (clock_reads st))).
  eexists. eexists.
  split; [apply iteration_fast_fail; assumption|].
  apply first_approved_In in Hd. destruct Hd as [Hin _].
  destruct (fast_fail_store env st draft Hin) as (Hrows & Hrow & Honly).
  split; [reflexivity|]. split; [apply mark_restamped|].
  split; [exact Hrows|]. split; [exact Hrow|]. split; [exact Honly|].
  split; [reflexivity|].
  repeat split. intros seconds. discriminate.
Qed.

Lemma no_recipient_fails_fast_witness :
  exists (st' : State) (failed : Draft) (a : SendAttempt) (c : event),
    iteration WorkerExamples.cfg WorkerExamples.env_ticking false
      (WorkerExamples.start [WorkerExamples.draft_no_contact]) = (Ok Continue, st')
    /\ status failed = DraftStatus.FAILED
    /\ restamped WorkerExamples.draft_no_contact failed DraftStatus.FAILED
         (clock WorkerExamples.env_ticking 0)
    /\ drafts (db st') = update_draft failed [WorkerExamples.draft_no_contact]
    /\ In failed (drafts (db st'))
    /\ (forall r, In r (drafts (db st')) -> draft_pk r = 1%Z -> r = failed)
    /\ attempts (db st') = ([] ++ [a])%list
    /\ draft_id a = 1%Z
    /\ attempt_status a = "failed"
    /\ error a = "No recipient email selected"
    /\ trace st' = ([] ++ [c])%list
    /\ (forall seconds, c <> Sleep seconds)
    /\ smtp_calls st' = 0%nat.
Proof.
  apply (no_recipient_fails_fast WorkerExamples.cfg WorkerExamples.env_ticking false
           (WorkerExamples.start [WorkerExamples.draft_no_contact])
           WorkerExamples.draft_no_contact); reflexivity.
Defined.

(** C10: the fast-fail branch is taken for every falsy recipient, that
    is, when no contact is resolved and also when the selected contact
    exists and its email is the empty string: the status of the draft's
    row becomes FAILED, one failed attempt with the error [No recipient
    email selected] is appended, and the transport is not called. *)
Theorem falsy_recipient_fails_fast (settings : Settings) (env : Env) (once : bool) (st : State)
    (draft : Draft) :
  first_approved (db st) = Some draft ->
  (contact_of (db st) draft = None
   \/ exists c, contact_of (db st) draft = Some c /\ contact_email c = "") ->
  exists (st' : State) (failed : Draft) (a : SendAttempt),
    iteration settings env once st = (Ok Continue, st')
    /\ status failed = DraftStatus.FAILED
    /\ restamped draft failed DraftStatus.FAILED (clock env (clock_reads st))
    /\ In failed (drafts (db st'))
    /\ (forall r, In r (drafts (db st')) -> draft_pk r = draft_pk draft -> r = failed)
    /\ attempts (db st') = (attempts (db st) ++ [a])%list
    /\ draft_id a = draft_pk draft
    /\ attempt_status a = "failed"
    /\ error a = "No recipient email selected"
    /\ smtp_calls st' = smtp_calls st.
Proof.
  intros Hd Hfalsy.
  assert (Hno : no_recipient (option_map contact_email (contact_of (db st) draft)) = true).
  { destruct Hfalsy as [-> | (c & -> & Hc)]; cbn; [reflexivity|]. now rewrite Hc. }
  exists (fast_fail_state env st draft),
         (mark draft DraftStatus.FAILED (clock env (clock_reads st))).
  eexists.
  split; [apply iteration_fast_fail; assumption|].
  apply first_approved_In in Hd. destruct Hd as [Hin _].
  destruct (fast_fail_store env st draft Hin) as (_ & Hrow & Honly).
  split; [reflexivity|]. split; [apply mark_restamped|].
  split; [exact Hrow|]. split; [exact Honly|].
  split; [reflexivity|].
  repeat split.
Qed.

Lemma falsy_recipient_fails_fast_witness :
  exists (st' : State) (failed : Draft) (a : SendAttempt),
    iteration WorkerExamples.cfg WorkerExamples.env_ticking true
      (WorkerExamples.start [WorkerExamples.draft_blank_contact]) = (Ok Continue, st')
    /\ status failed = DraftStatus.FAILED
    /\ restamped WorkerExamples.draft_blank_contact failed DraftStatus.FAILED
         (clock WorkerExamples.env_ticking 0)
    /\ In failed (drafts (db st'))
    /\ (forall r, In r (drafts (db st')) -> draft_pk r = 3%Z -> r = failed)
    /\ attempts (db st') = ([] ++ [a])%list
    /\ draft_id a = 3%Z
    /\ attempt_status a = "failed"
    /\ error a = "No recipient email selected"
    /\ smtp_calls st' = 0%nat.
Proof.
  apply (falsy_recipient_fails_fast WorkerExamples.cfg WorkerExamples.env_ticking true
           (WorkerExamples.start [WorkerExamples.draft_blank_contact])
           WorkerExamples.draft_blank_contact).
  - reflexivity.
  - right. exists WorkerExamples.acme_blank. split; reflexivity.
Defined.

(** A recipient that is not falsy is handed to [send_smtp] once the
    message is built. *)
Lemma truthy_recipient_is_sent (settings : Settings) (env : Env) (once : bool) (st : State)
    (draft : Draft) (c : Contact) (msg : EmailMessage) :
  first_approved (db st) = Some draft ->
  contact_of (db st) draft = Some c ->
  contact_email c <> "" ->
  Delivery.message_for settings env (db st) draft (contact_email c) = Ok msg ->
  smtp_calls (snd (iteration settings env once st)) = S (smtp_calls st).
Proof.
  intros Hd Hc Hemail Hmsg. unfold Delivery.message_for in Hmsg. unfold iteration.
  rewrite Hd, Hc. cbn [option_map no_recipient].
  replace (String.eqb (contact_email c) "") with false
    by (symmetry; now apply String.eqb_neq).
  step_worker. cbn. rewrite Hmsg. cbn.
  destruct (send_smtp _ _ _) as [pid|e]; cbn;
    destruct (get_company (db st) (company_id draft)) as [co|]; cbn;
    pass_cases; reflexivity.
Qed.

(** C2 fails on the code: started with [--once] on a store whose oldest
    approved draft has no contact, the worker fails that draft, claims
    the next approved draft as well and sends it before it returns. *)
Theorem once_claims_second_draft :
  exists st' : State,
    main WorkerExamples.cfg WorkerExamples.env_ticking 2 true
      (WorkerExamples.start [WorkerExamples.draft_no_contact; WorkerExamples.draft_with_contact])
    = (Some (Ok tt), st')
    /\ map status (drafts (db st')) = [DraftStatus.FAILED; DraftStatus.SENT]
    /\ map draft_id (attempts (db st')) = [1%Z; 2%Z]
    /\ smtp_calls st' = 1%nat.
Proof. eexists. split; [vm_compute; reflexivity|]. repeat split. Qed.

(** With [--once] and no approved draft the worker returns at once: no
    event (so no sleep), no clock reading, the store untouched. *)
Theorem once_without_approved (settings : Settings) (env : Env) (fuel : nat) (st : State) :
  first_approved (db st) = None ->
  main settings env (S fuel) true st = (Some (Ok tt), st).
Proof.
  intros Hd. unfold main, run_worker. cbn [run_loop]. unfold iteration. rewrite Hd. reflexivity.
Qed.

Lemma once_without_approved_witness :
  main WorkerExamples.cfg WorkerExamples.env_ticking 1 true (WorkerExamples.start [])
  = (Some (Ok tt), WorkerExamples.start []).
Proof.
  apply (once_without_approved WorkerExamples.cfg WorkerExamples.env_ticking 0
           (WorkerExamples.start [])).
  reflexivity.
Defined.

End WorkerSpec.

(** ** pick_top_contacts *)

Module RankerSpec.

Import PyStr Finder Ranker.

Lemma in_firstn {A : Type} (n : nat) (l : list A) (x : A) : In x (firstn n l) -> In x l.
Proof.
  intros H. rewrite <- (firstn_skipn n l). apply in_or_app. now left.
Qed.

Lemma pick_loop_spec (found picked : list FoundEmail) (max_n : Z) :
  (List.length picked < quota max_n)%nat ->
  pick_loop found max_n picked
  = (picked ++ firstn (quota max_n - List.length picked) (filter accepted found))%list.
Proof.
  revert picked. induction found as [|f rest IH]; intros picked Hlen.
  - cbn. rewrite firstn_nil. now rewrite app_nil_r.
  - cbn [pick_loop filter]. unfold accepted at 1.
    destruct (looks_personal f && PrimFloat.ltb (confidence f) 0.8%float); cbn [negb].
    + apply IH. exact Hlen.
    + rewrite length_app. cbn [List.length].
      destruct (Z.of_nat (List.length picked + 1) >=? max_n)%Z eqn:Hstop.
      * assert (Hq : (quota max_n - List.length picked = 1)%nat).
        { unfold quota in *. apply Z.geb_le in Hstop. lia. }
        rewrite Hq. cbn. reflexivity.
      * assert (Hq : (List.length picked + 1 < quota max_n)%nat).
        { unfold quota in *. rewrite Z.geb_leb in Hstop. apply Z.leb_gt in Hstop. lia. }
        rewrite IH by (rewrite length_app; cbn; exact Hq).
        rewrite length_app. cbn [List.length].
        replace (quota max_n - List.length picked)%nat
          with (S (quota max_n - (List.length picked + 1)))%nat by lia.
        cbn [firstn]. rewrite <- app_assoc. reflexivity.
Qed.

(** [pick_top_contacts] keeps, in rank order, the first [quota max_n]
    accepted candidates. *)
Lemma pick_top_contacts_spec (found : list FoundEmail) (max_n : Z) :
  pick_top_contacts found max_n = firstn (quota max_n) (filter accepted found).
Proof.
  unfold pick_top_contacts. rewrite pick_loop_spec.
  - cbn. now rewrite Nat.sub_0_r.
  - unfold quota. cbn. lia.
Qed.

(** C6 fails on the code for a maximum count of zero: the first accepted
    candidate is appended before the count is tested, so one candidate
    is returned. *)
Theorem pick_top_contacts_zero :
  pick_top_contacts [mkFoundEmail "info@acme.org" "https://acme.org" "generic" 0.2%float] 0
  = [mkFoundEmail "info@acme.org" "https://acme.org" "generic" 0.2%float]
  /\ ~ (Z.of_nat (List.length
          (pick_top_contacts
             [mkFoundEmail "info@acme.org" "https://acme.org" "generic" 0.2%float] 0)) <= 0)%Z.
Proof. split; [reflexivity | cbn; lia]. Qed.

(** For a maximum count of at least one, [pick_top_contacts] returns at
    most that many candidates, none of them personal-looking with a
    confidence below 0.8, and they are the accepted candidates taken in
    rank order until the count is reached or the list is exhausted. *)
Theorem pick_top_contacts_bounded (found : list FoundEmail) (max_n : Z) :
  (1 <= max_n)%Z ->
  (Z.of_nat (List.length (pick_top_contacts found max_n)) <= max_n)%Z
  /\ (forall f, In f (pick_top_contacts found max_n) ->
        looks_personal f && PrimFloat.ltb (confidence f) 0.8%float = false)
  /\ pick_top_contacts found max_n = firstn (Z.to_nat max_n) (filter accepted found).
Proof.
  intros Hn. rewrite pick_top_contacts_spec.
  assert (Hq : quota max_n = Z.to_nat max_n) by (unfold quota; lia).
  rewrite Hq. split; [|split].
  - pose proof (firstn_le_length (Z.to_nat max_n) (filter accepted found)). lia.
  - intros f Hf. apply in_firstn in Hf. apply filter_In in Hf.
    destruct Hf as [_ Hf]. unfold accepted in Hf. now apply negb_true_iff in Hf.
  - reflexivity.
Qed.

Lemma pick_top_contacts_bounded_witness :
  (Z.of_nat (List.length (pick_top_contacts
      [mkFoundEmail "jane.doe@acme.org" "https://acme.org" "unknown" 0.2%float;
       mkFoundEmail "info@acme.org" "https://acme.org" "generic" 0.2%float] 1)) <= 1)%Z
  /\ (forall f, In f (pick_top_contacts
        [mkFoundEmail "jane.doe@acme.org" "https://acme.org" "unknown" 0.2%float;
         mkFoundEmail "info@acme.org" "https://acme.org" "generic" 0.2%float] 1) ->
        looks_personal f && PrimFloat.ltb (confidence f) 0.8%float = false)
  /\ pick_top_contacts
       [mkFoundEmail "jane.doe@acme.org" "https://acme.org" "unknown" 0.2%float;
        mkFoundEmail "info@acme.org" "https://acme.org" "generic" 0.2%float] 1
     = firstn (Z.to_nat 1)
         (filter accepted
            [mkFoundEmail "jane.doe@acme.org" "https://acme.org" "unknown" 0.2%float;
             mkFoundEmail "info@acme.org" "https://acme.org" "generic" 0.2%float]).
Proof. apply pick_top_contacts_bounded. lia. Defined.

End RankerSpec.

(** ** build_personalization_brief *)

Module BriefSpec.

Import PyStr PyVal Config Exn Llm Brief.

(** Offline mode: [chat_completion] raises [LLMError] before any request
    is made, and [json_from_llm] lets it through. *)
Lemma json_from_llm_offline (settings : Settings)
    (post : string -> string -> list message -> float -> Z -> result response)
    (json_loads : string -> option pyval) (messages : list message) (hint : string)
    (temperature : float) (max_tokens : Z) :
  LLM_PROVIDER settings = "none" ->
  json_from_llm settings post json_loads messages hint temperature max_tokens
  = Raise (LLMError "LLM_PROVIDER=none (offline mode).").
Proof.
  intros Hp. unfold json_from_llm, chat_completion. rewrite Hp. reflexivity.
Qed.

(** An [LLMError] of [chat_completion] goes through [json_from_llm]
    unchanged. *)
Lemma json_from_llm_propagates (settings : Settings)
    (post : string -> string -> list message -> float -> Z -> result response)
    (json_loads : string -> option pyval) (messages : list message) (hint msg : string)
    (temperature : float) (max_tokens : Z) :
  chat_completion settings post
    (mkMessage "system" "Return ONLY valid JSON. No markdown, no commentary." :: messages)
    temperature max_tokens = Raise (LLMError msg) ->
  json_from_llm settings post json_loads messages hint temperature max_tokens
  = Raise (LLMError msg).
Proof.
  intros H. unfold json_from_llm. rewrite H. reflexivity.
Qed.

(** The value bound to [company_angle] is never falsy. *)
Lemma fallback_company_angle_truthy (org_profile company_profile : list (string * pyval)) :
  exists v, assoc "company_angle" (fallback_brief org_profile company_profile) = Some v
            /\ truthy v = true.
Proof.
  eexists. split; [reflexivity|]. unfold py_or.
  destruct (truthy (dict_get company_profile "csr_focus")) eqn:E1; [exact E1|].
  destruct (truthy (dict_get company_profile "mission_values")) eqn:E2; [exact E2|].
  reflexivity.
Qed.

(** For every org profile, company profile and language, when the
    text-generation call raises [LLMError], [build_personalization_brief]
    does not raise: it returns the fallback brief, a function of the two
    profiles alone, whose keys are [company_angle], [why_match],
    [best_cta], [benefits] and [subject_ideas]. *)
Theorem brief_falls_back_on_llm_error (settings : Settings)
    (post : string -> string -> list message -> float -> Z -> result response)
    (json_loads : string -> option pyval)
    (org_profile company_profile : list (string * pyval)) (language msg : string) :
  json_from_llm settings post json_loads
    [mkMessage "user" (brief_prompt org_profile company_profile language)] "brief" 0.2%float 1200
  = Raise (LLMError msg) ->
  build_personalization_brief settings post json_loads org_profile company_profile language
  = Ok (PDict (fallback_brief org_profile company_profile))
  /\ keys (fallback_brief org_profile company_profile)
     = ["company_angle"; "why_match"; "best_cta"; "benefits"; "subject_ideas"]
  /\ NoDup (keys (fallback_brief org_profile company_profile)).
Proof.
  intros Hraise. unfold build_personalization_brief. rewrite Hraise.
  split; [reflexivity|]. split; [reflexivity|].
  cbn. repeat constructor; cbn; intuition discriminate.
Qed.

Lemma brief_falls_back_on_llm_error_witness :
  build_personalization_brief
    defaults
    (fun _ _ _ _ _ => Raise (RequestException "unreachable")) (fun _ => None)
    [("org_name", PStr "Youth Fund")] [("csr_focus", PStr ""); ("mission_values", PStr "education")]
    "vi"
  = Ok (PDict (fallback_brief [("org_name", PStr "Youth Fund")]
                 [("csr_focus", PStr ""); ("mission_values", PStr "education")]))
  /\ keys (fallback_brief [("org_name", PStr "Youth Fund")]
             [("csr_focus", PStr ""); ("mission_values", PStr "education")])
     = ["company_angle"; "why_match"; "best_cta"; "benefits"; "subject_ideas"]
  /\ NoDup (keys (fallback_brief [("org_name", PStr "Youth Fund")]
                    [("csr_focus", PStr ""); ("mission_values", PStr "education")])).
Proof.
  apply (brief_falls_back_on_llm_error _ _ _ _ _ "vi" "LLM_PROVIDER=none (offline mode).").
  apply json_from_llm_offline. reflexivity.
Defined.

(** The brief of the example takes its angle from [mission_values], the
    [csr_focus] being empty. *)
Example fallback_brief_angle :
  assoc "company_angle"
    (fallback_brief [("org_name", PStr "Youth Fund")]
       [("csr_focus", PStr ""); ("mission_values", PStr "education")])
  = Some (PStr "education").
Proof. reflexivity. Qed.

(** C9 fails on the code: only [LLMError] is caught. When the endpoint
    cannot be reached or the request times out, [requests.post] raises
    and the exception goes through [chat_completion], [json_from_llm]
    and [build_personalization_brief]; when the endpoint answers text
    whose braces do not enclose valid JSON (malformed output), the
    second [json.loads] raises [JSONDecodeError], which goes through as
    well. In both cases the builder fails where the claim has it return
    the fallback brief. *)
Theorem brief_raises_on_capability_failure :
  build_personalization_brief
    (with_llm "custom" "key" "https://llm.example.org/v1")
    (fun _ _ _ _ _ => Raise (RequestException "connection refused"))
    (fun _ => None) [] [] "vi"
  = Raise (RequestException "connection refused")
  /\ build_personalization_brief
       (with_llm "custom" "key" "https://llm.example.org/v1")
       (fun _ _ _ _ _ =>
          Ok (mkResponse 200 "{oops}"
                (Some (PDict [("choices",
                         PList [PDict [("message", PDict [("content", PStr "{oops}")])]])]))))
       (fun _ => None) [] [] "vi"
     = Raise (JSONDecodeError "{oops}").
Proof. split; vm_compute; reflexivity. Qed.

End BriefSpec.

(** ** extract_emails *)

Module ExtractSpec.

Import PyStr Finder.

(** *** The order on strings *)

Lemma ascii_compare_lt (a b : ascii) :
  Ascii.compare a b = Lt <-> (N_of_ascii a < N_of_ascii b)%N.
Proof. unfold Ascii.compare. apply N.compare_lt_iff. Qed.

Lemma ascii_compare_eq (a b : ascii) : Ascii.compare a b = Eq <-> a = b.
Proof.
  split.
  - apply Ascii.compare_eq_iff.
  - intros ->. unfold Ascii.compare. apply N.compare_refl.
Qed.

Lemma lt_irrefl (s : string) : ~ PyStr.lt s s.
Proof.
  unfold PyStr.lt. induction s as [|c s IH]; cbn; [discriminate|].
  replace (Ascii.compare c c) with Eq by (symmetry; now apply ascii_compare_eq).
  exact IH.
Qed.

Lemma lt_trans (s1 s2 s3 : string) : PyStr.lt s1 s2 -> PyStr.lt s2 s3 -> PyStr.lt s1 s3.
Proof.
  unfold PyStr.lt. revert s2 s3.
  induction s1 as [|c1 s1 IH]; intros [|c2 s2] [|c3 s3]; cbn; try discriminate; try reflexivity.
  destruct (Ascii.compare c1 c2) eqn:E12; try discriminate;
    destruct (Ascii.compare c2 c3) eqn:E23; try discriminate; intros H12 H23.
  - apply ascii_compare_eq in E12, E23. subst.
    replace (Ascii.compare c3 c3) with Eq by (symmetry; now apply ascii_compare_eq).
    now apply (IH s2).
  - apply ascii_compare_eq in E12. subst. now rewrite E23.
  - apply ascii_compare_eq in E23. subst. now rewrite E12.
  - apply ascii_compare_lt in E12. apply ascii_compare_lt in E23.
    replace (Ascii.compare c1 c3) with Lt; [reflexivity|].
    symmetry. apply ascii_compare_lt. now apply (N.lt_trans _ (N_of_ascii c2)).
Qed.

Lemma compare_gt_lt (s1 s2 : string) : String.compare s1 s2 = Gt -> PyStr.lt s2 s1.
Proof.
  unfold PyStr.lt. intros H. rewrite String.compare_antisym, H. reflexivity.
Qed.

(** *** [sorted(set(xs))] *)

Lemma insert_sorted_In (x y : string) (l : list string) :
  In y (insert_sorted x l) <-> y = x \/ In y l.
Proof.
  induction l as [|z l IH]; cbn.
  - intuition.
  - destruct (String.compare x z) eqn:E; cbn.
    + apply String.compare_eq_iff in E. subst. intuition.
    + intuition.
    + rewrite IH. intuition.
Qed.

Lemma insert_sorted_sorted (x : string) (l : list string) :
  StronglySorted PyStr.lt l -> StronglySorted PyStr.lt (insert_sorted x l).
Proof.
  induction l as [|z l IH]; intros Hs; cbn.
  - repeat constructor.
  - inversion Hs as [|? ? Hl Hz]; subst.
    destruct (String.compare x z) eqn:E.
    + exact Hs.
    + constructor; [exact Hs|]. constructor; [exact E|].
      apply Forall_forall. intros y Hy. rewrite Forall_forall in Hz.
      apply (lt_trans x z y); [exact E | now apply Hz].
    + constructor; [now apply IH|].
      apply Forall_forall. intros y Hy. apply insert_sorted_In in Hy.
      destruct Hy as [-> | Hy].
      * now apply compare_gt_lt.
      * rewrite Forall_forall in Hz. now apply Hz.
Qed.

Lemma sorted_set_In (xs : list string) (y : string) : In y (sorted_set xs) <-> In y xs.
Proof.
  unfold sorted_set. induction xs as [|x xs IH]; cbn; [tauto|].
  rewrite insert_sorted_In, IH. intuition.
Qed.

Lemma sorted_set_sorted (xs : list string) : StronglySorted PyStr.lt (sorted_set xs).
Proof.
  unfold sorted_set. induction xs as [|x xs IH]; cbn; [constructor|].
  now apply insert_sorted_sorted.
Qed.

Lemma sorted_NoDup (l : list string) : StronglySorted PyStr.lt l -> NoDup l.
Proof.
  induction 1 as [|x l Hl IH Hx]; constructor; [|exact IH].
  intros Hin. rewrite Forall_forall in Hx. apply (lt_irrefl x). now apply Hx.
Qed.

(** *** [strip] *)

Lemma lstrip_by_first (p : ascii -> bool) (s : string) (c : ascii) :
  first_char (lstrip_by p s) = Some c -> p c = false.
Proof.
  induction s as [|a s IH]; cbn; [discriminate|].
  destruct (p a) eqn:E; [exact IH|]. cbn. intros [= <-]. exact E.
Qed.

Lemma rstrip_by_first (p : ascii -> bool) (s : string) (c : ascii) :
  first_char (rstrip_by p s) = Some c -> first_char s = Some c.
Proof.
  destruct s as [|a s]; cbn; [discriminate|].
  destruct (rstrip_by p s); [destruct (p a)|]; cbn; congruence.
Qed.

Lemma rstrip_by_last (p : ascii -> bool) (s : string) (c : ascii) :
  last_char (rstrip_by p s) = Some c -> p c = false.
Proof.
  induction s as [|a s IH]; cbn; [discriminate|].
  destruct (rstrip_by p s) as [|b r] eqn:E.
  - destruct (p a) eqn:Ea; cbn; [discriminate|]. intros [= <-]. exact Ea.
  - cbn [last_char]. exact IH.
Qed.

Lemma strip_by_ends (p : ascii -> bool) (s : string) (c : ascii) :
  (first_char (strip_by p s) = Some c -> p c = false)
  /\ (last_char (strip_by p s) = Some c -> p c = false).
Proof.
  unfold strip_by. split.
  - intros H. apply rstrip_by_first in H. now apply lstrip_by_first in H.
  - apply rstrip_by_last.
Qed.

(** *** The scan *)

Lemma rep_match_rest {A : Type} (cls : ascii -> bool) (min : nat) (s : string)
    (k : string -> option A) (r : A) :
  rep_match cls min s k = Some r ->
  exists s', k s' = Some r /\ String.length s' + min <= String.length s.
Proof.
  revert min. induction s as [|c s IH]; intros min; cbn.
  - destruct min; cbn; [|discriminate]. intros H. exists EmptyString. split; [exact H | reflexivity].
  - destruct (cls c).
    + destruct (rep_match cls (Nat.pred min) s k) as [r'|] eqn:E.
      * intros [= ->]. destruct (IH _ E) as (s' & Hk & Hlen).
        exists s'. split; [exact Hk | lia].
      * destruct min; cbn; [|discriminate]. intros H.
        exists (String c s). split; [exact H | cbn; lia].
    + destruct min; cbn; [|discriminate]. intros H.
      exists (String c s). split; [exact H | cbn; lia].
Qed.

Lemma re_match_rest {A : Type} (r : regex) (s : string) (k : string -> option A) (res : A) :
  re_match r s k = Some res ->
  exists s', k s' = Some res /\ String.length s' + min_len r <= String.length s.
Proof.
  revert s k. induction r as [c|cls min|r1 IH1 r2 IH2]; intros s k; cbn [re_match min_len].
  - destruct s as [|c' s]; [discriminate|].
    destruct (Ascii.eqb c c'); [|discriminate].
    intros H. exists s. split; [exact H | cbn; lia].
  - apply rep_match_rest.
  - intros H. apply IH1 in H. destruct H as (s1 & H & Hlen1).
    apply IH2 in H. destruct H as (s2 & H & Hlen2).
    exists s2. split; [exact H | lia].
Qed.

(** A match of [EMAIL_RE] takes at least six characters. *)
Lemma match_here_rest (s rest : string) :
  match_here s = Some rest -> String.length rest + 6 <= String.length s.
Proof.
  unfold match_here. intros H. apply re_match_rest in H.
  destruct H as (s' & [= ->] & Hlen). exact Hlen.
Qed.

(** One unit of fuel per character is enough: more fuel finds the same
    matches. *)
Lemma finditer_fuel (n m : nat) (s : string) :
  String.length s <= n -> String.length s <= m -> finditer_from n s = finditer_from m s.
Proof.
  revert m s. induction n as [|n IH]; intros m s Hn Hm.
  - destruct s; [|cbn in Hn; lia]. destruct m; reflexivity.
  - destruct m as [|m].
    + destruct s; [reflexivity | cbn in Hm; lia].
    + cbn [finditer_from]. destruct s as [|c s]; [reflexivity|].
      destruct (match_here (String c s)) as [rest|] eqn:E.
      * apply match_here_rest in E. f_equal. apply IH; cbn in *; lia.
      * apply IH; cbn in *; lia.
Qed.

Example finditer_backtracks :
  finditer "a@b.cd.e f@g.h1 a@@b.cc x..y@z.com.au," = ["a@b.cd"; "x..y@z.com.au"].
Proof. reflexivity. Qed.

(** *** The returned list *)

(** The entries are the cleaned matches of [EMAIL_RE] in the text. *)
Lemma extract_emails_In (text e : string) :
  In e (extract_emails text)
  <-> exists m, In m (finditer text) /\ e = strip CLEANUP_CHARS (strip_ws m).
Proof.
  unfold extract_emails. rewrite sorted_set_In, in_map_iff.
  split; intros (m & H1 & H2); exists m; intuition.
Qed.

Lemma extract_emails_sorted (text : string) : StronglySorted PyStr.lt (extract_emails text).
Proof. apply sorted_set_sorted. Qed.

Lemma extract_emails_NoDup (text : string) : NoDup (extract_emails text).
Proof. apply sorted_NoDup, extract_emails_sorted. Qed.

(** C8: for every text, [extract_emails] returns a list without
    duplicates, strictly increasing in the order of strings, no entry of
    which starts or ends with one of the characters of the cleanup set
    [.,;:()[]{}<>] and the two quotes. *)
Theorem extract_emails_clean (text : string) :
  NoDup (extract_emails text)
  /\ StronglySorted PyStr.lt (extract_emails text)
  /\ (forall e c, In e (extract_emails text) -> mem_char c CLEANUP_CHARS = true ->
        first_char e <> Some c /\ last_char e <> Some c).
Proof.
  split; [apply extract_emails_NoDup|]. split; [apply extract_emails_sorted|].
  intros e c He Hc. apply extract_emails_In in He. destruct He as (m & _ & ->).
  destruct (strip_by_ends (fun c => mem_char c CLEANUP_CHARS) (strip_ws m) c) as [Hf Hl].
  unfold strip. split; intros H.
  - apply Hf in H. congruence.
  - apply Hl in H. congruence.
Qed.

(** The extractor on the text of the scenario, and on text with the
    punctuation HTML-to-text conversion leaves around addresses. *)
Example extract_emails_acme :
  extract_emails "Contact: info@acme.org for partnership inquiries" = ["info@acme.org"].
Proof. reflexivity. Qed.

Example extract_emails_punctuation :
  extract_emails "a <.john.doe@x.co.uk>, (b@y.org). b@y.org A@Z.ORG x@y.c foo@bar.com."
  = ["A@Z.ORG"; "b@y.org"; "foo@bar.com"; "john.doe@x.co.uk"].
Proof. reflexivity. Qed.

End ExtractSpec.

(** ** find_contacts_from_pages *)

Module AggregateSpec.

Import PyStr PyFloat Finder Occurrences ScoreFacts.

(** *** The dict [found] *)

Lemma mem_In (e : string) (es : list string) : mem e es = true <-> In e es.
Proof.
  unfold mem. rewrite existsb_exists. split.
  - intros (x & Hx & Heq). apply String.eqb_eq in Heq. now subst.
  - intros H. exists e. split; [exact H | apply String.eqb_refl].
Qed.

Lemma dict_get_set (k k' : string) (v : FoundEmail) (d : found_dict) :
  dict_get k (dict_set k' v d) = if String.eqb k k' then Some v else dict_get k d.
Proof.
  induction d as [|[k0 v0] d IH]; cbn.
  - reflexivity.
  - destruct (String.eqb k' k0) eqn:E0; cbn.
    + apply String.eqb_eq in E0. subst k0.
      destruct (String.eqb k k'); reflexivity.
    + rewrite IH. destruct (String.eqb k k') eqn:E1; [|reflexivity].
      apply String.eqb_eq in E1. subst k. now rewrite E0.
Qed.

Lemma record_email_get (url txt e e' : string) (found : found_dict) :
  dict_get e (record_email url txt found e')
  = if String.eqb e e' then better (dict_get e' found) (candidate e' (url, txt))
    else dict_get e found.
Proof.
  unfold record_email, candidate, better. cbn [fst snd].
  destruct (guess_role e' url txt) as [role conf]. cbn [fst snd confidence].
  destruct (dict_get e' found) as [old|] eqn:Eold.
  - destruct (PrimFloat.ltb (confidence old) conf).
    + apply dict_get_set.
    + destruct (String.eqb e e') eqn:E; [|reflexivity].
      apply String.eqb_eq in E. now subst.
  - apply dict_get_set.
Qed.

Lemma scan_emails_get (url txt e : string) (es : list string) (found : found_dict) :
  NoDup es ->
  dict_get e (fold_left (record_email url txt) es found)
  = if mem e es then better (dict_get e found) (candidate e (url, txt)) else dict_get e found.
Proof.
  intros Hnd. revert found. induction Hnd as [|e' es Hnotin Hnd IH]; intros found.
  - reflexivity.
  - cbn [fold_left]. rewrite IH, record_email_get. unfold mem. cbn [existsb]. fold (mem e es).
    destruct (String.eqb e e') eqn:E.
    + apply String.eqb_eq in E. subst e'. cbn.
      destruct (mem e es) eqn:Em; [|reflexivity].
      apply mem_In in Em. contradiction.
    + reflexivity.
Qed.

Lemma scan_page_get (e : string) (page : string * string) (found : found_dict) :
  dict_get e (scan_page found page)
  = if occurs e page then better (dict_get e found) (candidate e page) else dict_get e found.
Proof.
  destruct page as [url txt]. unfold scan_page, occurs. cbn [snd].
  apply scan_emails_get. apply ExtractSpec.extract_emails_NoDup.
Qed.

(** The entry of [e] after the outer loop: the fold of [better] over the
    occurrences of [e]. *)
Lemma fold_scan_get (e : string) (pages : list (string * string)) (found : found_dict) :
  dict_get e (fold_left scan_page pages found)
  = fold_left better (occ e pages) (dict_get e found).
Proof.
  revert found. induction pages as [|page pages IH]; intros found.
  - reflexivity.
  - cbn [fold_left]. rewrite IH, scan_page_get. unfold occ. cbn [filter].
    destruct (occurs e page); reflexivity.
Qed.

Lemma collect_get (e : string) (pages : list (string * string)) :
  dict_get e (collect pages) = fold_left better (occ e pages) None.
Proof. unfold collect. now rewrite fold_scan_get. Qed.

Lemma dict_set_key_In (k k0 : string) (v : FoundEmail) (d : found_dict) :
  In k0 (map fst (dict_set k v d)) <-> k0 = k \/ In k0 (map fst d).
Proof.
  induction d as [|[k1 v1] d IH]; cbn.
  - intuition.
  - destruct (String.eqb k k1) eqn:E; cbn.
    + apply String.eqb_eq in E. subst. intuition.
    + rewrite IH. intuition.
Qed.

Lemma dict_set_well_keyed (k : string) (v : FoundEmail) (d : found_dict) :
  email v = k -> well_keyed d -> well_keyed (dict_set k v d).
Proof.
  intros Hv [Hnd Hall]. subst k. induction d as [|[k1 v1] d IH]; cbn.
  - split; repeat constructor. intros [].
  - cbn in Hnd. inversion Hnd as [|? ? Hnotin Hnd']; subst.
    inversion Hall as [|? ? Hk1 Hall']; subst. cbn in Hk1.
    destruct (String.eqb (email v) k1) eqn:E; cbn.
    + apply String.eqb_eq in E.
      split; constructor; try assumption; [|reflexivity].
      rewrite E. exact Hnotin.
    + destruct (IH Hnd' Hall') as [IH1 IH2].
      split; constructor; try assumption.
      cbn [fst]. fold (map (@fst string FoundEmail) (dict_set (email v) v d)).
      rewrite dict_set_key_In. intros [Hk | Hin]; [|contradiction].
      rewrite Hk, String.eqb_refl in E. discriminate.
Qed.

Lemma record_email_well_keyed (url txt e : string) (found : found_dict) :
  well_keyed found -> well_keyed (record_email url txt found e).
Proof.
  intros Hwk. unfold record_email.
  destruct (guess_role e url txt) as [role conf].
  destruct (match dict_get e found with
            | Some old => PrimFloat.ltb (confidence old) conf
            | None => true
            end); [|exact Hwk].
  now apply dict_set_well_keyed.
Qed.

Lemma scan_page_well_keyed (page : string * string) (found : found_dict) :
  well_keyed found -> well_keyed (scan_page found page).
Proof.
  destruct page as [url txt]. unfold scan_page.
  generalize (extract_emails txt). intros es. revert found.
  induction es as [|e es IH]; intros found Hwk; cbn [fold_left]; [exact Hwk|].
  apply IH. now apply record_email_well_keyed.
Qed.

Lemma collect_well_keyed (pages : list (string * string)) : well_keyed (collect pages).
Proof.
  unfold collect.
  assert (H : well_keyed []) by (split; constructor).
  revert H. generalize (@nil (string * FoundEmail)).
  induction pages as [|page pages IH]; intros found Hwk; cbn [fold_left]; [exact Hwk|].
  apply IH. now apply scan_page_well_keyed.
Qed.

Lemma dict_get_In (k : string) (v : FoundEmail) (d : found_dict) :
  NoDup (map fst d) -> (In (k, v) d <-> dict_get k d = Some v).
Proof.
  induction d as [|[k1 v1] d IH]; cbn; intros Hnd.
  - split; [intros [] | discriminate].
  - inversion Hnd as [|? ? Hnotin Hnd']; subst.
    destruct (String.eqb k k1) eqn:E.
    + apply String.eqb_eq in E. subst k1. split.
      * intros [[= ->] | Hin]; [reflexivity|].
        exfalso. apply Hnotin. apply in_map_iff. now exists (k, v).
      * intros [= ->]. now left.
    + rewrite <- (IH Hnd'). split.
      * intros [[= -> ->] | Hin]; [|exact Hin]. now rewrite String.eqb_refl in E.
      * intros Hin. now right.
Qed.

Lemma dict_values_In (f : FoundEmail) (d : found_dict) :
  well_keyed d -> (In f (dict_values d) <-> dict_get (email f) d = Some f).
Proof.
  intros [Hnd Hall]. rewrite <- (dict_get_In _ _ _ Hnd). unfold dict_values.
  rewrite in_map_iff. split.
  - intros ([k v] & Heq & Hin). cbn in Heq. subst v.
    rewrite Forall_forall in Hall. specialize (Hall _ Hin). cbn in Hall. now rewrite Hall.
  - intros Hin. now exists (email f, f).
Qed.

(** *** The final sort *)

Lemma insert_desc_perm (x : FoundEmail) (l : list FoundEmail) :
  Permutation (insert_desc x l) (x :: l).
Proof.
  induction l as [|y l IH]; cbn; [reflexivity|].
  destruct (key_lt (sort_key x) (sort_key y)); [|reflexivity].
  rewrite IH. apply perm_swap.
Qed.

Lemma sorted_desc_perm (l : list FoundEmail) : Permutation (sorted_desc l) l.
Proof.
  unfold sorted_desc. induction l as [|x l IH]; cbn; [reflexivity|].
  rewrite insert_desc_perm. now constructor.
Qed.

(** A candidate is returned exactly when it is the entry of its email. *)
Lemma find_contacts_In (f : FoundEmail) (pages : list (string * string)) :
  In f (find_contacts_from_pages pages)
  <-> fold_left better (occ (email f) pages) None = Some f.
Proof.
  unfold find_contacts_from_pages. rewrite <- collect_get.
  rewrite <- (dict_values_In f _ (collect_well_keyed pages)).
  split; apply Permutation_in; [|symmetry]; apply sorted_desc_perm.
Qed.


(** *** Confidence values *)

Ltac score_cases H := cbn [In] in H; repeat (destruct H as [H | H]; [subst|]); [..|contradiction].

Lemma guess_role_is_score (e url txt : string) : is_score (snd (guess_role e url txt)).
Proof.
  unfold guess_role.
  destruct (first_role ROLE_KEYWORDS (lower e) (lower url));
    destruct (any_in GENERIC_INBOX_HINTS (lower e));
    destruct (any_in PAGE_TERMS (lower txt));
    cbn [snd]; unfold is_score; vm_compute; tauto.
Qed.

Lemma ltb_level (c c' : float) :
  is_score c -> is_score c' -> PrimFloat.ltb c c' = Nat.ltb (level c) (level c').
Proof.
  unfold is_score. intros H H'. score_cases H; score_cases H'; reflexivity.
Qed.

Lemma level_inj (c c' : float) :
  is_score c -> is_score c' -> level c = level c' -> c = c'.
Proof.
  unfold is_score. intros H H'.
  score_cases H; score_cases H'; intros Hl; try reflexivity; vm_compute in Hl; discriminate.
Qed.

Lemma candidate_is_score (e : string) (page : string * string) :
  is_score (confidence (candidate e page)).
Proof. apply guess_role_is_score. Qed.

(** *** The best occurrence *)

Lemma occ_scored (e : string) (pages : list (string * string)) : scored (occ e pages).
Proof.
  unfold scored, occ. apply Forall_forall. intros f Hf.
  apply in_map_iff in Hf. destruct Hf as (p & <- & _). apply candidate_is_score.
Qed.

Lemma occ_In (e : string) (pages : list (string * string)) (f : FoundEmail) :
  In f (occ e pages) <-> exists p, In p pages /\ occurs e p = true /\ f = candidate e p.
Proof.
  unfold occ. rewrite in_map_iff. split.
  - intros (p & <- & Hp). apply filter_In in Hp. exists p. intuition.
  - intros (p & Hp & Ho & ->). exists p. split; [reflexivity|]. apply filter_In. intuition.
Qed.

(** Folding [better] from an entry [a] ends on [a] or on an occurrence,
    whose level is the greatest of all. *)
Lemma fold_better_max (l : list FoundEmail) (a f : FoundEmail) :
  scored (a :: l) ->
  fold_left better l (Some a) = Some f ->
  (f = a \/ In f l)
  /\ level (confidence a) <= level (confidence f)
  /\ (forall g, In g l -> level (confidence g) <= level (confidence f)).
Proof.
  revert a. induction l as [|g l IH]; intros a Hsc Hfold.
  - cbn in Hfold. injection Hfold as <-. repeat split; auto. intros g [].
  - inversion Hsc as [|? ? Ha Hgl]; subst. inversion Hgl as [|? ? Hg Hl]; subst.
    cbn [fold_left better] in Hfold. rewrite (ltb_level _ _ Ha Hg) in Hfold.
    destruct (Nat.ltb (level (confidence a)) (level (confidence g))) eqn:E.
    + apply Nat.ltb_lt in E.
      destruct (IH g Hgl Hfold) as (Hin & Hge & Hall).
      split; [destruct Hin; [right; left; congruence | right; right; assumption]|].
      split; [lia|]. intros h [<- | Hh]; [exact Hge | now apply Hall].
    + apply Nat.ltb_ge in E.
      assert (Hsc' : scored (a :: l)) by (constructor; assumption).
      destruct (IH a Hsc' Hfold) as (Hin & Hge & Hall).
      split; [destruct Hin; [left; assumption | right; right; assumption]|].
      split; [exact Hge|]. intros h [<- | Hh]; [lia | now apply Hall].
Qed.

Lemma best_max (l : list FoundEmail) (f : FoundEmail) :
  scored l ->
  fold_left better l None = Some f ->
  In f l /\ (forall g, In g l -> level (confidence g) <= level (confidence f)).
Proof.
  destruct l as [|a l]; intros Hsc Hfold; [discriminate|].
  cbn [fold_left better] in Hfold.
  destruct (fold_better_max l a f Hsc Hfold) as (Hin & Hge & Hall).
  split.
  - destruct Hin; [left; congruence | right; assumption].
  - intros g [<- | Hg]; [exact Hge | now apply Hall].
Qed.




(** *** Page order *)





(** On the pages of the witness the email has no tie, and both orders
    return the occurrence on the CSR page. *)
Example find_contacts_no_tie :
  find_contacts_from_pages [("https://x.org/csr", "a@x.org"); ("https://x.org/about", "a@x.org")]
  = find_contacts_from_pages [("https://x.org/about", "a@x.org"); ("https://x.org/csr", "a@x.org")].
Proof. reflexivity. Qed.

End AggregateSpec.

(** ** The range of the confidence score *)

Module ScoreSpec.

Import PyStr PyFloat Finder Occurrences.

(** The confidence [guess_role] returns lies between 0 and 1. *)
Theorem guess_role_confidence_range (e url txt : string) :
  PrimFloat.leb 0.0%float (snd (guess_role e url txt)) = true
  /\ PrimFloat.leb (snd (guess_role e url txt)) 1.0%float = true.
Proof.
  pose proof (AggregateSpec.guess_role_is_score e url txt) as H. unfold is_score in H.
  cbn [In] in H.
  repeat (destruct H as [H | H]; [rewrite <- H; split; reflexivity|]). contradiction.
Qed.

(** An email that contains a generic-inbox hint gets a confidence of at
    least 0.2, and a role other than unknown. *)
Theorem generic_inbox_confidence (e url txt : string) :
  any_in GENERIC_INBOX_HINTS (lower e) = true ->
  PrimFloat.leb 0.2%float (snd (guess_role e url txt)) = true
  /\ fst (guess_role e url txt) <> "unknown".
Proof.
  intros Hhint. unfold guess_role. rewrite Hhint.
  assert (Hroles : forall r, first_role ROLE_KEYWORDS (lower e) (lower url) = Some r ->
                             r <> "unknown").
  { unfold ROLE_KEYWORDS. cbn [first_role]. intros r.
    repeat match goal with
           | |- context [if ?b then _ else _] => destruct b
           end; intros [= <-]; discriminate. }
  destruct (first_role ROLE_KEYWORDS (lower e) (lower url)) as [r|] eqn:Er;
    destruct (any_in PAGE_TERMS (lower txt)); cbn [fst snd]; split; try reflexivity.
  - specialize (Hroles r eq_refl). destruct (String.eqb r "unknown") eqn:E; [|exact Hroles].
    apply String.eqb_eq in E. contradiction.
  - specialize (Hroles r eq_refl). destruct (String.eqb r "unknown") eqn:E; [|exact Hroles].
    apply String.eqb_eq in E. contradiction.
  - discriminate.
  - discriminate.
Qed.

Lemma generic_inbox_confidence_witness :
  PrimFloat.leb 0.2%float (snd (guess_role "hello@acme.org" "https://acme.org/about" "About us")) = true
  /\ fst (guess_role "hello@acme.org" "https://acme.org/about" "About us") <> "unknown".
Proof. apply generic_inbox_confidence. reflexivity. Defined.

End ScoreSpec.

(** ** Runs of the send worker *)

Module WorkerRunSpec.

Import Config Exn Models Sender Worker Transitions Queue Delivery.

Ltac run_pass := WorkerSpec.step_worker; cbn.
Ltac pass_cases := WorkerSpec.pass_cases.

(** *** The draft that is claimed *)

Lemma oldest_least (rows : list Draft) (best d : Draft) :
  In d (best :: rows) -> (updated_at (oldest best rows) <= updated_at d)%Z.
Proof.
  revert best d. induction rows as [|r rows IH]; intros best d Hin; cbn [oldest].
  - destruct Hin as [<- | []]. lia.
  - destruct (updated_at r <? updated_at best)%Z eqn:E.
    + apply Z.ltb_lt in E. destruct Hin as [Hd | [Hd | Hin]].
      * subst d. pose proof (IH r r (or_introl eq_refl)). lia.
      * subst d. apply IH. now left.
      * apply IH. now right.
    + apply Z.ltb_ge in E. destruct Hin as [Hd | [Hd | Hin]].
      * subst d. apply IH. now left.
      * subst d. pose proof (IH best best (or_introl eq_refl)). lia.
      * apply IH. now right.
Qed.

(** The worker claims an approved draft none of the approved drafts is
    older than; it finds none only when no draft is approved. *)
Theorem first_approved_oldest (store : Store) :
  match first_approved store with
  | Some d =>
      In d (drafts store) /\ status d = DraftStatus.APPROVED
      /\ (forall d', In d' (drafts store) -> status d' = DraftStatus.APPROVED ->
                     (updated_at d <= updated_at d')%Z)
  | None => forall d', In d' (drafts store) -> status d' <> DraftStatus.APPROVED
  end.
Proof.
  destruct (first_approved store) as [d|] eqn:Hd.
  - destruct (WorkerSpec.first_approved_In _ _ Hd) as [Hin Hst].
    split; [exact Hin|]. split; [exact Hst|].
    intros d' Hin' Hst'. unfold first_approved in Hd.
    destruct (filter _ (drafts store)) as [|b rows] eqn:E; [discriminate|].
    injection Hd as <-. apply oldest_least. rewrite <- E. apply filter_In.
    split; [exact Hin'|]. now apply String.eqb_eq.
  - intros d' Hin' Hst'. unfold first_approved in Hd.
    destruct (filter _ (drafts store)) as [|b rows] eqn:E; [|discriminate].
    assert (H : In d' (filter (fun d => String.eqb (status d) DraftStatus.APPROVED)
                         (drafts store))).
    { apply filter_In. split; [exact Hin'|]. now apply String.eqb_eq. }
    rewrite E in H. exact H.
Qed.

(** *** What a pass changes *)

Lemma update_draft_twice (d1 d2 : Draft) (rows : list Draft) :
  draft_pk d1 = draft_pk d2 ->
  update_draft d2 (update_draft d1 rows) = update_draft d2 rows.
Proof.
  intros Hpk. unfold update_draft. rewrite map_map. apply map_ext. intros r.
  destruct (draft_pk r =? draft_pk d1)%Z eqn:E.
  - rewrite Hpk, Z.eqb_refl. now rewrite <- Hpk, E.
  - reflexivity.
Qed.

(** The draft table after a pass: untouched, or the rows of the claimed
    draft rewritten with a status of SENT or FAILED. *)
Lemma iteration_drafts (settings : Settings) (env : Env) (once : bool) (st : State) :
  drafts (db (snd (iteration settings env once st))) = drafts (db st)
  \/ exists d st_new now,
       first_approved (db st) = Some d
       /\ (st_new = DraftStatus.SENT \/ st_new = DraftStatus.FAILED)
       /\ drafts (db (snd (iteration settings env once st)))
          = update_draft (mark d st_new now) (drafts (db st)).
Proof.
  unfold iteration.
  destruct (first_approved (db st)) as [draft|] eqn:Hd.
  2:{ left. destruct once; run_pass; pass_cases; reflexivity. }
  destruct (no_recipient _).
  { right. run_pass. do 3 eexists. split; [reflexivity|]. split; [now right | reflexivity]. }
  run_pass.
  destruct (build_message _ _ _ _ _ _ _) as [msg|e]; cbn; [|now left].
  destruct (send_smtp _ _ _) as [pid|e]; cbn;
    destruct (get_company (db st) (company_id draft)) as [c|]; cbn;
    pass_cases; right; do 3 eexists; (split; [reflexivity|]);
    first
      [ split; [now left | reflexivity]
      | split; [now right | reflexivity]
      | split; [now right|];
        exact (update_draft_twice (mark draft DraftStatus.SENT _)
                 (mark draft DraftStatus.FAILED _) _ eq_refl) ].
Qed.

(** The other tables and the rows already in the attempt table. *)
Lemma iteration_other_tables (settings : Settings) (env : Env) (once : bool) (st : State) :
  campaigns (db (snd (iteration settings env once st))) = campaigns (db st)
  /\ companies (db (snd (iteration settings env once st))) = companies (db st)
  /\ contacts (db (snd (iteration settings env once st))) = contacts (db st)
  /\ exists added,
       attempts (db (snd (iteration settings env once st))) = (attempts (db st) ++ added)%list
       /\ List.length added <= 2.
Proof.
  unfold iteration.
  destruct (first_approved (db st)) as [draft|] eqn:Hd.
  2:{ destruct once; run_pass; pass_cases; do 3 (split; [reflexivity|]); exists [];
        (split; [now rewrite app_nil_r | cbn; lia]). }
  destruct (no_recipient _).
  { run_pass. do 3 (split; [reflexivity|]). eexists. split; [reflexivity | cbn; lia]. }
  run_pass.
  destruct (build_message _ _ _ _ _ _ _) as [msg|e]; cbn.
  2:{ do 3 (split; [reflexivity|]). exists []. split; [now rewrite app_nil_r | cbn; lia]. }
  destruct (send_smtp _ _ _) as [pid|e]; cbn;
    destruct (get_company (db st) (company_id draft)) as [c|]; cbn;
    pass_cases; do 3 (split; [reflexivity|]); eexists; rewrite <- ?app_assoc;
    (split; [reflexivity | cbn; lia]).
Qed.

Lemma NoDup_map_inj {A B : Type} (f : A -> B) (l : list A) (x y : A) :
  NoDup (map f l) -> In x l -> In y l -> f x = f y -> x = y.
Proof.
  induction l as [|a l IH]; cbn; intros Hnd Hx Hy Hf; [contradiction|].
  inversion Hnd as [|? ? Hnotin Hnd']; subst.
  destruct Hx as [-> | Hx]; destruct Hy as [-> | Hy]; try reflexivity.
  - exfalso. apply Hnotin. rewrite Hf. now apply in_map.
  - exfalso. apply Hnotin. rewrite <- Hf. now apply in_map.
  - now apply IH.
Qed.

(** With distinct primary keys, a pass rewrites no row but the one of
    the draft it claims: drafts that are not approved (in particular the
    sent ones) and approved drafts that are not the oldest stay as they
    are, no row is added or removed, and the campaign, company and
    contact tables are not written. *)
Theorem iteration_frame (settings : Settings) (env : Env) (once : bool) (st : State) :
  unique_pks (db st) ->
  (forall i r, nth_error (drafts (db st)) i = Some r ->
               first_approved (db st) <> Some r ->
               nth_error (drafts (db (snd (iteration settings env once st)))) i = Some r)
  /\ List.length (drafts (db (snd (iteration settings env once st))))
     = List.length (drafts (db st))
  /\ campaigns (db (snd (iteration settings env once st))) = campaigns (db st)
  /\ companies (db (snd (iteration settings env once st))) = companies (db st)
  /\ contacts (db (snd (iteration settings env once st))) = contacts (db st).
Proof.
  intros Huniq.
  destruct (iteration_other_tables settings env once st) as (Hc1 & Hc2 & Hc3 & _).
  destruct (iteration_drafts settings env once st) as [Hsame | (d & st_new & now & Hd & _ & Hupd)].
  - rewrite Hsame. repeat split; assumption || reflexivity || (intros; assumption).
  - rewrite Hupd. split; [|split; [apply length_map | repeat split; assumption]].
    intros i r Hi Hne. unfold update_draft. rewrite nth_error_map, Hi. cbn.
    destruct (draft_pk r =? draft_pk d)%Z eqn:E; [|reflexivity].
    exfalso. apply Hne. rewrite Hd. f_equal. apply Z.eqb_eq in E.
    symmetry. apply (NoDup_map_inj draft_pk (drafts (db st))); try assumption.
    + apply nth_error_In in Hi. exact Hi.
    + now apply WorkerSpec.first_approved_In in Hd.
Qed.

Lemma iteration_frame_witness :
  (forall i r,
      nth_error (drafts (db (WorkerExamples.start
                   [WorkerExamples.draft_no_contact; WorkerExamples.draft_with_contact]))) i
      = Some r ->
      first_approved (db (WorkerExamples.start
                   [WorkerExamples.draft_no_contact; WorkerExamples.draft_with_contact]))
      <> Some r ->
      nth_error (drafts (db (snd (iteration WorkerExamples.cfg WorkerExamples.env_ticking false
                   (WorkerExamples.start
                      [WorkerExamples.draft_no_contact; WorkerExamples.draft_with_contact])))))
        i = Some r)
  /\ List.length (drafts (db (snd (iteration WorkerExamples.cfg WorkerExamples.env_ticking false
                   (WorkerExamples.start
                      [WorkerExamples.draft_no_contact; WorkerExamples.draft_with_contact])))))
     = List.length (drafts (db (WorkerExamples.start
                      [WorkerExamples.draft_no_contact; WorkerExamples.draft_with_contact])))
  /\ campaigns (db (snd (iteration WorkerExamples.cfg WorkerExamples.env_ticking false
                   (WorkerExamples.start
                      [WorkerExamples.draft_no_contact; WorkerExamples.draft_with_contact]))))
     = campaigns (db (WorkerExamples.start
                      [WorkerExamples.draft_no_contact; WorkerExamples.draft_with_contact]))
  /\ companies (db (snd (iteration WorkerExamples.cfg WorkerExamples.env_ticking false
                   (WorkerExamples.start
                      [WorkerExamples.draft_no_contact; WorkerExamples.draft_with_contact]))))
     = companies (db (WorkerExamples.start
                      [WorkerExamples.draft_no_contact; WorkerExamples.draft_with_contact]))
  /\ contacts (db (snd (iteration WorkerExamples.cfg WorkerExamples.env_ticking false
                   (WorkerExamples.start
                      [WorkerExamples.draft_no_contact; WorkerExamples.draft_with_contact]))))
     = contacts (db (WorkerExamples.start
                      [WorkerExamples.draft_no_contact; WorkerExamples.draft_with_contact])).
Proof.
  apply iteration_frame. unfold unique_pks. cbn.
  repeat constructor; cbn; intuition discriminate.
Defined.

(** *** Whole runs *)

(** No run of the worker, with or without [--once], changes or removes
    an attempt row already stored, nor writes the campaign, company and
    contact tables, nor adds or removes a draft row. *)
Theorem run_keeps_audit_trail (settings : Settings) (env : Env) (fuel : nat) (once : bool)
    (st : State) :
  (exists added,
     attempts (db (snd (run_loop settings env fuel once st))) = (attempts (db st) ++ added)%list)
  /\ List.length (drafts (db (snd (run_loop settings env fuel once st))))
     = List.length (drafts (db st))
  /\ campaigns (db (snd (run_loop settings env fuel once st))) = campaigns (db st)
  /\ companies (db (snd (run_loop settings env fuel once st))) = companies (db st)
  /\ contacts (db (snd (run_loop settings env fuel once st))) = contacts (db st).
Proof.
  revert st. induction fuel as [|fuel IH]; intros st; cbn [run_loop].
  - cbn. split; [exists []; now rewrite app_nil_r | repeat split].
  - pose proof (iteration_other_tables settings env once st) as (Hc1 & Hc2 & Hc3 & added & Ha & _).
    assert (Hlen : List.length (drafts (db (snd (iteration settings env once st))))
                   = List.length (drafts (db st))).
    { destruct (iteration_drafts settings env once st) as [-> | (d & s1 & now & _ & _ & ->)];
        [reflexivity | apply length_map]. }
    destruct (iteration settings env once st) as [[[|]|e] st'] eqn:Hit; cbn [snd] in *.
    + destruct (IH st') as ((added' & Ha') & Hl' & H1 & H2 & H3).
      split; [exists (added ++ added')%list; now rewrite Ha', Ha, app_assoc|].
      repeat split; congruence.
    + split; [now exists added | repeat split; assumption].
    + split; [now exists added | repeat split; assumption].
Qed.

Lemma iteration_smtp_calls (settings : Settings) (env : Env) (once : bool) (st : State) :
  smtp_calls (snd (iteration settings env once st)) <= S (smtp_calls st)
  /\ (once = true -> fst (iteration settings env once st) = Ok Continue ->
      exists draft,
        first_approved (db st) = Some draft
        /\ snd (iteration settings env once st) = fast_fail_state env st draft)
  /\ (once = false -> fst (iteration settings env once st) <> Ok Return).
Proof.
  unfold iteration.
  destruct (first_approved (db st)) as [draft|] eqn:Hd.
  2:{ destruct once; run_pass; pass_cases; (split; [lia|]); split; intros; discriminate. }
  destruct (no_recipient _).
  { run_pass. split; [lia|]. split; [|intros; discriminate].
    intros _ _. now exists draft. }
  run_pass.
  destruct (build_message _ _ _ _ _ _ _) as [msg|e]; cbn.
  2:{ split; [lia|]. split; intros; discriminate. }
  destruct (send_smtp _ _ _) as [pid|e]; cbn;
    destruct (get_company (db st) (company_id draft)) as [c|]; cbn;
    pass_cases; (split; [lia|]); split; intros H; try subst once; discriminate.
Qed.

(** Started with [--once], the worker hands at most one message to
    [send_smtp] in the whole run, however many drafts it fails fast
    before. *)
Theorem once_sends_at_most_one (settings : Settings) (env : Env) (fuel : nat) (st : State) :
  smtp_calls (snd (run_loop settings env fuel true st)) <= S (smtp_calls st).
Proof.
  revert st. induction fuel as [|fuel IH]; intros st; cbn [run_loop]; [cbn; lia|].
  destruct (iteration_smtp_calls settings env true st) as (Hle & Hcont & _).
  destruct (iteration settings env true st) as [[[|]|e] st'] eqn:Hit; cbn [fst snd] in *;
    try exact Hle.
  destruct (Hcont eq_refl eq_refl) as (draft & _ & ->).
  specialize (IH (fast_fail_state env st draft)). cbn in IH. exact IH.
Qed.

(** Without [--once] the loop does not return: a run ends, if at all,
    by an exception. *)
Theorem loop_never_returns (settings : Settings) (env : Env) (fuel : nat) (st : State) :
  fst (run_loop settings env fuel false st) <> Some (Ok tt).
Proof.
  revert st. induction fuel as [|fuel IH]; intros st; cbn [run_loop]; [discriminate|].
  destruct (iteration_smtp_calls settings env false st) as (_ & _ & Hret).
  destruct (iteration settings env false st) as [[[|]|e] st'] eqn:Hit; cbn [fst snd] in *.
  - apply IH.
  - exfalso. now apply Hret.
  - discriminate.
Qed.

Lemma update_draft_count_le (d' : Draft) (rows : list Draft) :
  is_approved d' = false ->
  List.length (filter is_approved (update_draft d' rows))
  <= List.length (filter is_approved rows).
Proof.
  intros Hd'. unfold update_draft. induction rows as [|r rows IH]; cbn [map filter]; [lia|].
  destruct (draft_pk r =? draft_pk d')%Z.
  - rewrite Hd'. destruct (is_approved r); cbn [List.length]; lia.
  - destruct (is_approved r); cbn [List.length]; lia.
Qed.

Lemma update_draft_count_lt (d d' : Draft) (rows : list Draft) :
  In d rows -> is_approved d = true -> draft_pk d' = draft_pk d -> is_approved d' = false ->
  List.length (filter is_approved (update_draft d' rows))
  < List.length (filter is_approved rows).
Proof.
  intros Hin Hd Hpk Hd'. unfold update_draft.
  induction rows as [|r rows IH]; cbn [map filter]; [contradiction|].
  destruct Hin as [-> | Hin].
  - rewrite Hpk, Z.eqb_refl, Hd', Hd. cbn [List.length].
    pose proof (update_draft_count_le d' rows Hd') as Hle. unfold update_draft in Hle.
    rewrite Hpk in Hle. lia.
  - specialize (IH Hin).
    destruct (draft_pk r =? draft_pk d')%Z.
    + rewrite Hd'. destruct (is_approved r); cbn [List.length]; lia.
    + destruct (is_approved r); cbn [List.length]; lia.
Qed.

(** Started with [--once], the worker stops after at most one pass more
    than there are approved drafts: every pass that goes on to the next
    has failed one of them. *)
Theorem once_terminates (settings : Settings) (env : Env) (fuel : nat) (st : State) :
  approved_count (db st) < fuel ->
  fst (run_loop settings env fuel true st) <> None.
Proof.
  revert st. induction fuel as [|fuel IH]; intros st Hlt; [lia|]. cbn [run_loop].
  destruct (iteration_smtp_calls settings env true st) as (_ & Hcont & _).
  destruct (iteration settings env true st) as [[[|]|e] st'] eqn:Hit; cbn [fst snd] in *;
    try discriminate.
  destruct (Hcont eq_refl eq_refl) as (draft & Hd & ->).
  apply IH. unfold approved_count in *. cbn.
  destruct (WorkerSpec.first_approved_In _ _ Hd) as [Hin Hst].
  assert (Hlt' : List.length (filter is_approved
                    (update_draft (mark draft DraftStatus.FAILED (clock env (clock_reads st)))
                       (drafts (db st))))
                 < List.length (filter is_approved (drafts (db st)))).
  { apply (update_draft_count_lt draft); try reflexivity; try assumption.
    unfold is_approved. rewrite Hst. reflexivity. }
  lia.
Qed.

Lemma once_terminates_witness :
  fst (run_loop WorkerExamples.cfg WorkerExamples.env_ticking 3 true
         (WorkerExamples.start
            [WorkerExamples.draft_no_contact; WorkerExamples.draft_blank_contact]))
  <> None.
Proof. apply once_terminates. cbn. lia. Defined.

(** *** The delivery branches *)

(** When the message is built, [send_smtp] returns, and the [[SENT]]
    line and the sleep of the rate limit raise nothing, the pass sets
    the status of the draft's row to SENT (and [updated_at] to the clock
    reading, nothing else), commits one sent attempt carrying the
    message id, prints the [[SENT]] line, sleeps for the rate limit, and
    the transport was called once. *)
Theorem delivery_success (settings : Settings) (env : Env) (once : bool) (st : State)
    (draft : Draft) (c : Contact) (co : Company) (msg : EmailMessage) (pid : string) :
  first_approved (db st) = Some draft ->
  contact_of (db st) draft = Some c ->
  contact_email c <> "" ->
  get_company (db st) (company_id draft) = Some co ->
  message_for settings env (db st) draft (contact_email c) = Ok msg ->
  send_smtp settings (smtp env (smtp_calls st)) msg = Ok pid ->
  stdout env ("[SENT] " ++ company_name co ++ " -> " ++ contact_email c
                ++ " | subject=" ++ subject draft) = None ->
  sleeper env (RATE_LIMIT_SECONDS settings) = None ->
  exists (st' : State) (sent : Draft) (a : SendAttempt),
    iteration settings env once st = (Ok (if once then Return else Continue), st')
    /\ status sent = DraftStatus.SENT
    /\ restamped draft sent DraftStatus.SENT (clock env (clock_reads st))
    /\ In sent (drafts (db st'))
    /\ (forall r, In r (drafts (db st')) -> draft_pk r = draft_pk draft -> r = sent)
    /\ attempts (db st') = (attempts (db st) ++ [a])%list
    /\ draft_id a = draft_pk draft /\ attempt_status a = "sent"
    /\ provider a = "smtp" /\ provider_message_id a = pid /\ error a = ""
    /\ trace st'
       = (trace st ++
          [Commit [sent]
             [mkSendAttempt None (draft_pk draft) "sent" "smtp" pid ""
                (clock env (S (clock_reads st)))];
           Stdout ("[SENT] " ++ company_name co ++ " -> " ++ contact_email c
                     ++ " | subject=" ++ subject draft);
           Sleep (RATE_LIMIT_SECONDS settings)])%list
    /\ smtp_calls st' = S (smtp_calls st).
Proof.
  intros Hd Hc Hemail Hco Hmsg Hsend Hprint Hsleep.
  unfold message_for in Hmsg. unfold iteration.
  rewrite Hd, Hc. cbn [option_map no_recipient].
  replace (String.eqb (contact_email c) "") with false
    by (symmetry; now apply String.eqb_neq).
  run_pass. rewrite Hmsg. cbn. rewrite Hsend, Hco. cbn. cbn in Hprint. rewrite Hprint. cbn.
  rewrite Hsleep. cbn.
  eexists. exists (mark draft DraftStatus.SENT (clock env (clock_reads st))). eexists.
  split; [reflexivity|]. cbn.
  apply WorkerSpec.first_approved_In in Hd. destruct Hd as [Hin _].
  split; [reflexivity|]. split; [apply WorkerSpec.mark_restamped|].
  split; [apply (WorkerSpec.update_draft_In draft); [exact Hin | reflexivity]|].
  split; [intros r Hr Hpk;
          apply (WorkerSpec.update_draft_pk _ r (drafts (db st))); assumption|].
  split; [reflexivity|].
  repeat split. now rewrite <- !app_assoc.
Qed.

Lemma delivery_success_witness :
  exists (st' : State) (sent : Draft) (a : SendAttempt),
    iteration WorkerExamples.cfg WorkerExamples.env_ticking true
      (WorkerExamples.start [WorkerExamples.draft_with_contact]) = (Ok Return, st')
    /\ status sent = DraftStatus.SENT
    /\ restamped WorkerExamples.draft_with_contact sent DraftStatus.SENT 1000%Z
    /\ In sent (drafts (db st'))
    /\ (forall r, In r (drafts (db st')) -> draft_pk r = 2%Z -> r = sent)
    /\ attempts (db st') = ([] ++ [a])%list
    /\ draft_id a = 2%Z /\ attempt_status a = "sent"
    /\ provider a = "smtp" /\ provider_message_id a = "" /\ error a = ""
    /\ trace st'
       = ([] ++
          [Commit [sent] [mkSendAttempt None 2%Z "sent" "smtp" "" "" 1001%Z];
           Stdout ("[SENT] " ++ "Acme" ++ " -> " ++ "info@acme.org"
                     ++ " | subject=" ++ "Hello again");
           Sleep 60])%list
    /\ smtp_calls st' = 1.
Proof.
  apply (delivery_success WorkerExamples.cfg WorkerExamples.env_ticking true
           (WorkerExamples.start [WorkerExamples.draft_with_contact])
           WorkerExamples.draft_with_contact WorkerExamples.acme_info WorkerExamples.acme
           (mkEmailMessage "Hello again" "info@acme.org" "noreply@example.org" "Body 2"
              [("proposal.pdf", "%PDF")]) "");
    try reflexivity; try discriminate.
Defined.

(** When the message is built, [send_smtp] raises, and the [[FAILED]]
    line and the sleep that follows raise nothing, the pass sets the
    status of the draft's row to FAILED, commits one failed attempt
    whose error is the text of the exception cut to 500 characters,
    prints the [[FAILED]] line and sleeps for the smaller of 30 and the
    rate limit. *)
Theorem delivery_failure (settings : Settings) (env : Env) (once : bool) (st : State)
    (draft : Draft) (c : Contact) (co : Company) (msg : EmailMessage) (e : exn) :
  first_approved (db st) = Some draft ->
  contact_of (db st) draft = Some c ->
  contact_email c <> "" ->
  get_company (db st) (company_id draft) = Some co ->
  message_for settings env (db st) draft (contact_email c) = Ok msg ->
  send_smtp settings (smtp env (smtp_calls st)) msg = Raise e ->
  stdout env ("[FAILED] " ++ company_name co ++ " -> " ++ contact_email c ++ ": "
                ++ str_of_exn e) = None ->
  sleeper env (Z.min 30 (RATE_LIMIT_SECONDS settings)) = None ->
  exists (st' : State) (failed : Draft) (a : SendAttempt),
    iteration settings env once st = (Ok (if once then Return else Continue), st')
    /\ status failed = DraftStatus.FAILED
    /\ restamped draft failed DraftStatus.FAILED (clock env (clock_reads st))
    /\ In failed (drafts (db st'))
    /\ (forall r, In r (drafts (db st')) -> draft_pk r = draft_pk draft -> r = failed)
    /\ attempts (db st') = (attempts (db st) ++ [a])%list
    /\ draft_id a = draft_pk draft /\ attempt_status a = "failed"
    /\ error a = Utf8.cp_take 500 (str_of_exn e)
    /\ Utf8.cp_length (error a) <= 500
    /\ trace st'
       = (trace st ++
          [Commit [failed]
             [mkSendAttempt None (draft_pk draft) "failed" "smtp" ""
                (Utf8.cp_take 500 (str_of_exn e)) (clock env (S (clock_reads st)))];
           Stdout ("[FAILED] " ++ company_name co ++ " -> " ++ contact_email c ++ ": "
                     ++ str_of_exn e);
           Sleep (Z.min 30 (RATE_LIMIT_SECONDS settings))])%list
    /\ smtp_calls st' = S (smtp_calls st).
Proof.
  intros Hd Hc Hemail Hco Hmsg Hsend Hprint Hsleep.
  unfold message_for in Hmsg. unfold iteration.
  rewrite Hd, Hc. cbn [option_map no_recipient].
  replace (String.eqb (contact_email c) "") with false
    by (symmetry; now apply String.eqb_neq).
  run_pass. rewrite Hmsg. cbn. rewrite Hsend, Hco. cbn. cbn in Hprint. rewrite Hprint. cbn.
  rewrite Hsleep. cbn.
  eexists. exists (mark draft DraftStatus.FAILED (clock env (clock_reads st))). eexists.
  split; [reflexivity|]. cbn.
  apply WorkerSpec.first_approved_In in Hd. destruct Hd as [Hin _].
  split; [reflexivity|]. split; [apply WorkerSpec.mark_restamped|].
  split; [apply (WorkerSpec.update_draft_In draft); [exact Hin | reflexivity]|].
  split; [intros r Hr Hpk;
          apply (WorkerSpec.update_draft_pk _ r (drafts (db st))); assumption|].
  split; [reflexivity|].
  repeat split; [apply Utf8Spec.cp_take_length_le|now rewrite <- !app_assoc].
Qed.

Lemma delivery_failure_witness :
  exists (st' : State) (failed : Draft) (a : SendAttempt),
    iteration (with_smtp "" "" "" 60) WorkerExamples.env_ticking false
      (WorkerExamples.start [WorkerExamples.draft_with_contact]) = (Ok Continue, st')
    /\ status failed = DraftStatus.FAILED
    /\ restamped WorkerExamples.draft_with_contact failed DraftStatus.FAILED 1000%Z
    /\ In failed (drafts (db st'))
    /\ (forall r, In r (drafts (db st')) -> draft_pk r = 2%Z -> r = failed)
    /\ attempts (db st') = ([] ++ [a])%list
    /\ draft_id a = 2%Z /\ attempt_status a = "failed"
    /\ error a
       = Utf8.cp_take 500
           (str_of_exn (SMTPConfigError
              "Missing SMTP settings. Please configure SMTP_HOST/SMTP_USER/SMTP_PASS in .env"))
    /\ Utf8.cp_length (error a) <= 500
    /\ trace st'
       = ([] ++
          [Commit [failed]
             [mkSendAttempt None 2%Z "failed" "smtp" ""
                (Utf8.cp_take 500
                   (str_of_exn (SMTPConfigError
                      "Missing SMTP settings. Please configure SMTP_HOST/SMTP_USER/SMTP_PASS in .env")))
                1001%Z];
           Stdout ("[FAILED] " ++ "Acme" ++ " -> " ++ "info@acme.org" ++ ": "
                     ++ str_of_exn (SMTPConfigError
              "Missing SMTP settings. Please configure SMTP_HOST/SMTP_USER/SMTP_PASS in .env"));
           Sleep (Z.min 30 60)])%list
    /\ smtp_calls st' = 1.
Proof.
  apply (delivery_failure (with_smtp "" "" "" 60) WorkerExamples.env_ticking false
           (WorkerExamples.start [WorkerExamples.draft_with_contact])
           WorkerExamples.draft_with_contact WorkerExamples.acme_info WorkerExamples.acme
           (mkEmailMessage "Hello again" "info@acme.org" "" "Body 2"
              [("proposal.pdf", "%PDF")])
           (SMTPConfigError
              "Missing SMTP settings. Please configure SMTP_HOST/SMTP_USER/SMTP_PASS in .env"));
    try reflexivity; try discriminate.
Defined.

End WorkerRunSpec.

(** ** summarize_company_pages and the offline pipeline *)

Module CompanyProfileSpec.

Import PyStr PyVal Config Exn Llm Utf8 Brief Models CompanyProfile Pipeline.

(** The page text put in the prompt never exceeds 12000 characters. *)
Lemma joined_bounded (pages : list (string * string)) : cp_length (joined pages) <= 12000.
Proof. apply Utf8Spec.cp_take_length_le. Qed.

(** When the text-generation call raises [LLMError],
    [summarize_company_pages] returns the fallback profile: its six keys
    are those the caller reads, and [sources] lists the URLs of the
    first five pages, in page order. *)
Theorem summary_falls_back_on_llm_error (settings : Settings)
    (post : string -> string -> list message -> float -> Z -> result response)
    (json_loads : string -> option pyval)
    (company_name : string) (pages : list (string * string)) (language msg : string) :
  json_from_llm settings post json_loads
    [mkMessage "user" (summary_prompt company_name pages language)] "company_profile"
    0.2%float 1200 = Raise (LLMError msg) ->
  summarize_company_pages settings post json_loads company_name pages language
  = Ok (PDict (fallback_profile company_name pages))
  /\ keys (fallback_profile company_name pages)
     = ["summary"; "mission_values"; "csr_focus"; "recent_initiatives"; "alignment_angles";
        "sources"]
  /\ exists sources,
       assoc "sources" (fallback_profile company_name pages) = Some (PList sources)
       /\ List.length sources = Nat.min 5 (List.length pages)
       /\ map (fun src => match src with PDict items => assoc "url" items | _ => None end) sources
          = map (fun p => Some (PStr (fst p))) (firstn 5 pages).
Proof.
  intros Hraise. unfold summarize_company_pages. rewrite Hraise.
  split; [reflexivity|]. split; [reflexivity|].
  eexists. split; [reflexivity|]. split.
  - rewrite length_map. apply length_firstn.
  - rewrite map_map. reflexivity.
Qed.

Lemma summary_falls_back_on_llm_error_witness :
  summarize_company_pages defaults (fun _ _ _ _ _ => Raise (RequestException "unreachable"))
    (fun _ => None) "Acme" [("https://acme.org", "About Acme")] "en"
  = Ok (PDict (fallback_profile "Acme" [("https://acme.org", "About Acme")]))
  /\ keys (fallback_profile "Acme" [("https://acme.org", "About Acme")])
     = ["summary"; "mission_values"; "csr_focus"; "recent_initiatives"; "alignment_angles";
        "sources"]
  /\ exists sources,
       assoc "sources" (fallback_profile "Acme" [("https://acme.org", "About Acme")])
       = Some (PList sources)
       /\ List.length sources = Nat.min 5 (List.length [("https://acme.org", "About Acme")])
       /\ map (fun src => match src with PDict items => assoc "url" items | _ => None end) sources
          = map (fun p => Some (PStr (fst p))) (firstn 5 [("https://acme.org", "About Acme")]).
Proof.
  apply (summary_falls_back_on_llm_error _ _ _ _ _ "en" "LLM_PROVIDER=none (offline mode).").
  apply BriefSpec.json_from_llm_offline. reflexivity.
Defined.

(** In offline mode ([LLM_PROVIDER=none]) the research step never
    raises and never calls the endpoint: whatever the pages, it ends in
    the fallback brief, and the company angle of that brief is the fixed
    default text, since neither fallback profile has a CSR focus or
    mission values. *)
Theorem offline_brief (settings : Settings)
    (post : string -> string -> list message -> float -> Z -> result response)
    (json_loads : string -> option pyval)
    (org_dict : list (string * pyval)) (comp : Company) (pages : list (string * string))
    (language : string) :
  LLM_PROVIDER settings = "none" ->
  exists brief,
    brief_of settings post json_loads org_dict comp pages language = Ok (PDict brief)
    /\ keys brief = ["company_angle"; "why_match"; "best_cta"; "benefits"; "subject_ideas"]
    /\ assoc "company_angle" brief = Some (PStr "phát triển bền vững / cộng đồng").
Proof.
  intros Hoff. unfold brief_of, company_profile_of.
  assert (Hb : forall items,
             build_personalization_brief settings post json_loads org_dict
               (comp_dict comp items) language
             = Ok (PDict (fallback_brief org_dict (comp_dict comp items)))).
  { intros items. unfold build_personalization_brief.
    now rewrite (BriefSpec.json_from_llm_offline settings post json_loads _ _ _ _ Hoff). }
  destruct pages as [|p pages].
  - cbn [bind]. rewrite Hb. eexists. split; [reflexivity|]. split; reflexivity.
  - unfold summarize_company_pages.
    rewrite (BriefSpec.json_from_llm_offline settings post json_loads _ _ _ _ Hoff).
    cbn [bind]. rewrite Hb. eexists. split; [reflexivity|]. split; reflexivity.
Qed.

Lemma offline_brief_witness :
  exists brief,
    brief_of defaults (fun _ _ _ _ _ => Raise (RequestException "unreachable")) (fun _ => None)
      [("org_name", PStr "Youth Fund")] WorkerExamples.acme
      [("https://acme.org", "About Acme")] "vi" = Ok (PDict brief)
    /\ keys brief = ["company_angle"; "why_match"; "best_cta"; "benefits"; "subject_ideas"]
    /\ assoc "company_angle" brief = Some (PStr "phát triển bền vững / cộng đồng").
Proof. apply offline_brief. reflexivity. Defined.

End CompanyProfileSpec.

(** ** The composer: template and reply of the model *)

Module EmailWriterSpec.

Import PyStr PyVal Config Llm Utf8 Brief Models CompanyProfile Pipeline PyErr EmailWriter.
Import ComposerExamples.

Lemma append_assoc (a b c : string) : (a ++ b) ++ c = a ++ (b ++ c).
Proof. induction a as [|x a IH]; cbn; [reflexivity|now rewrite IH]. Qed.

Lemma chat_completion_offline (settings : Settings)
    (post : string -> string -> list message -> float -> Z -> Exn.result response)
    (messages : list message) (temperature : float) (max_tokens : Z) :
  LLM_PROVIDER settings = "none" ->
  chat_completion settings post messages temperature max_tokens
  = Exn.Raise (Exn.LLMError "LLM_PROVIDER=none (offline mode).").
Proof. intros H. unfold chat_completion. now rewrite H. Qed.

Lemma cp_take_In (c : ascii) (n : nat) (s : string) :
  In c (list_ascii_of_string (cp_take n s)) -> In c (list_ascii_of_string s).
Proof.
  revert n. induction s as [|x s IH]; intros n; cbn; [tauto|].
  destruct (is_cont x).
  - cbn. intros [H|H]; [now left|right; eapply IH; eassumption].
  - destruct n as [|n]; cbn; [tauto|].
    intros [H|H]; [now left|right; eapply IH; eassumption].
Qed.

Lemma before_first_not_In (sep : ascii) (s : string) :
  ~ In sep (list_ascii_of_string (before_first sep s)).
Proof.
  induction s as [|x s IH]; cbn; [tauto|].
  destruct (Ascii.eqb x sep) eqn:E; cbn; [tauto|].
  intros [H|H]; [|now apply IH].
  subst x. now rewrite Ascii.eqb_refl in E.
Qed.

Lemma substring_all (s : string) : substring 0 (String.length s) s = s.
Proof. induction s as [|c s IH]; cbn; [reflexivity|now rewrite IH]. Qed.

(** [split_once] cuts at the first blank line. *)
Lemma split_once_first (a b : string) :
  contains (nl ++ nl) (a ++ nl) = false ->
  split_once (nl ++ nl) (a ++ nl ++ nl ++ b) = Some (a, b).
Proof.
  induction a as [|c a IH]; intros H.
  - cbn. replace (prefix EmptyString b) with true by (destruct b; reflexivity).
    now rewrite Nat.sub_0_r, substring_all.
  - cbn [append] in H. cbn [contains] in H. apply orb_false_iff in H as [Hp Hc].
    specialize (IH Hc).
    change ((String c a) ++ nl ++ nl ++ b) with (String c (a ++ nl ++ nl ++ b)).
    cbn [split_once].
    replace (prefix (nl ++ nl) (String c (a ++ nl ++ nl ++ b))) with false.
    + now rewrite IH.
    + symmetry. unfold nl in Hp |- *. cbn [append prefix] in Hp |- *.
      destruct (Ascii.ascii_dec "010"%char c) as [Hn|Hn]; [|reflexivity].
      destruct a as [|c' a]; cbn [append prefix] in Hp |- *.
      * exact Hp.
      * destruct (Ascii.ascii_dec "010"%char c'); [|reflexivity].
        destruct (a ++ String "010"%char EmptyString); discriminate.
Qed.

Lemma split_once_none (sep s : string) :
  contains sep s = false -> split_once sep s = None.
Proof.
  induction s as [|c s IH]; cbn [contains split_once]; intros H;
    apply orb_false_iff in H as [Hp Hc]; rewrite Hp; [reflexivity|].
  now rewrite (IH Hc).
Qed.

(** The template writer pads the benefits of the brief to three: the
    bullet lines of the body are the first three benefits of the brief,
    and a missing one is replaced by its default text. The subject is
    the first subject idea of the brief, or the default subject when the
    brief has none. *)
Theorem template_benefits (org company brief : list (string * pyval)) (language : string)
    (bs : list string) (ideas : list pyval) (a : string) :
  dict_get brief "benefits" = PList (map PStr bs) ->
  dict_get brief "subject_ideas" = PList ideas ->
  ask_short org = Done a ->
  exists f,
    write_email_template org company brief language
    = Done (hd (PStr "Sponsorship partnership") ideas,
            (if String.eqb language "vi" then VI_HEAD f else EN_HEAD f)
              ++ "- " ++ nth 0 bs "Brand exposure to a relevant audience" ++ nl
              ++ "- " ++ nth 1 bs "Meaningful community impact" ++ nl
              ++ "- " ++ nth 2 bs "Post-event impact reporting" ++ nl
              ++ (if String.eqb language "vi" then VI_TAIL f else EN_TAIL f),
            "Template-generated (offline fallback).").
Proof.
  intros Hb Hs Ha. unfold write_email_template, pick. rewrite Hb, Ha, Hs.
  assert (Hsub : py_index (py_or (PList ideas) (PList [PStr "Sponsorship partnership"])) 0
                 = Done (hd (PStr "Sponsorship partnership") ideas))
    by (destruct ideas; reflexivity).
  rewrite Hsub. cbn [and_then].
  destruct bs as [|b1 [|b2 [|b3 bs]]]; cbn [map py_or truthy py_len and_then List.length
    Nat.ltb Nat.leb py_index nth_error nth py_str];
    (destruct (String.eqb language "vi"); eexists;
      unfold format_vi, format_en, benefit_lines;
      cbn [f_benefit_1 f_benefit_2 f_benefit_3]; rewrite ?append_assoc; reflexivity).
Qed.

Lemma template_benefits_witness :
  exists f,
    write_email_template [("org_name", PStr "Youth Fund")] [("name", PStr "Acme")]
      [("benefits", PList (map PStr ["Logo on the banner"])); ("subject_ideas", PList [])] "en"
    = Done (hd (PStr "Sponsorship partnership") [],
            (if String.eqb "en" "vi" then VI_HEAD f else EN_HEAD f)
              ++ "- " ++ nth 0 ["Logo on the banner"] "Brand exposure to a relevant audience" ++ nl
              ++ "- " ++ nth 1 ["Logo on the banner"] "Meaningful community impact" ++ nl
              ++ "- " ++ nth 2 ["Logo on the banner"] "Post-event impact reporting" ++ nl
              ++ (if String.eqb "en" "vi" then VI_TAIL f else EN_TAIL f),
            "Template-generated (offline fallback).").
Proof.
  apply (template_benefits _ _ _ _ _ _ "support our program"); reflexivity.
Defined.

(** The greeting of the template: in Vietnamese the contact of the
    company is greeted by name, or as "anh/chị" when the name is missing;
    in every other language the greeting is "Hi there," whatever the
    contact's name. *)
Theorem template_greeting (org company brief : list (string * pyval)) (language : string)
    (subject : pyval) (body notes : string) :
  write_email_template org company brief language = Done (subject, body, notes) ->
  (language = "vi" ->
   exists rest,
     body = "Xin chào " ++ py_str (py_or (dict_get company "contact_name") (PStr "anh/chị"))
              ++ "," ++ rest)
  /\ (language <> "vi" -> exists rest, body = "Hi there," ++ rest).
Proof.
  unfold write_email_template, and_then. intros H.
  destruct (py_index _ 0); [|discriminate].
  destruct (ask_short org); [|discriminate].
  destruct (pick brief 0 _); [|discriminate].
  destruct (pick brief 1 _); [|discriminate].
  destruct (pick brief 2 _); [|discriminate].
  injection H as _ <- _. split.
  - intros ->. cbn [String.eqb Ascii.eqb Bool.eqb]. unfold greeting_name.
    cbn [String.eqb Ascii.eqb Bool.eqb]. unfold format_vi, VI_HEAD. cbn [f_contact_or_team].
    rewrite !append_assoc. eexists. reflexivity.
  - intros Hl. apply String.eqb_neq in Hl. unfold greeting_name. rewrite Hl.
    unfold format_en, EN_HEAD. cbn [f_contact_or_team py_str].
    rewrite !append_assoc. eexists. reflexivity.
Qed.

Lemma template_greeting_witness :
  ("en" = "vi" ->
   exists rest,
     format_en
       (mkFields "there" "Team" "Youth Fund" "" "Acme" "cộng đồng" "program"
          "support our program" "Brand exposure to a relevant audience"
          "Meaningful community impact" "Post-event impact reporting" "a 15-minute call")
     = "Xin chào "
         ++ py_str (py_or (dict_get [("name", PStr "Acme"); ("contact_name", PStr "Lan")]
                             "contact_name") (PStr "anh/chị"))
         ++ "," ++ rest)
  /\ ("en" <> "vi" ->
      exists rest,
        format_en
          (mkFields "there" "Team" "Youth Fund" "" "Acme" "cộng đồng" "program"
             "support our program" "Brand exposure to a relevant audience"
             "Meaningful community impact" "Post-event impact reporting" "a 15-minute call")
        = "Hi there," ++ rest).
Proof.
  apply (template_greeting [("org_name", PStr "Youth Fund")]
           [("name", PStr "Acme"); ("contact_name", PStr "Lan")] [] "en"
           (PStr "Sponsorship partnership") _ "Template-generated (offline fallback).").
  reflexivity.
Defined.

(** The sponsorship ask quoted in the template is the first line of the
    organisation's ask, cut to 140 characters: it holds no line break. *)
Theorem ask_short_one_line (org : list (string * pyval)) (a : string) :
  ask_short org = Done a ->
  cp_length a <= 140 /\ ~ In "010"%char (list_ascii_of_string a).
Proof.
  unfold ask_short. destruct (py_or _ _); try discriminate.
  intros H. injection H as <-. split.
  - apply Utf8Spec.cp_take_length_le.
  - intros Hin. apply cp_take_In in Hin. now apply before_first_not_In in Hin.
Qed.

Lemma ask_short_one_line_witness :
  cp_length "venue and meals" <= 140
  /\ ~ In "010"%char (list_ascii_of_string "venue and meals").
Proof.
  apply (ask_short_one_line
           [("sponsorship_ask", PStr ("venue and meals" ++ nl ++ "and a second line"))]).
  reflexivity.
Defined.

(** A reply of the model with a blank line is cut at the first one: the
    subject is what precedes it, the body all that follows, each
    stripped of surrounding white space. *)
Theorem llm_reply_split (settings : Settings)
    (post : string -> string -> list message -> float -> Z -> Exn.result response)
    (org company brief : list (string * pyval)) (language out a b : string) :
  chat_completion settings post [mkMessage "user" (email_prompt org company brief language)]
    0.4%float 700 = Exn.Ok (PStr out) ->
  strip_ws out = a ++ nl ++ nl ++ b ->
  contains (nl ++ nl) (a ++ nl) = false ->
  write_email_with_llm settings post org company brief language
  = Done (PStr (strip_ws a), strip_ws b, "LLM-generated with brief.").
Proof.
  intros Hc Hs Hn. unfold write_email_with_llm. rewrite Hc, Hs.
  now rewrite (split_once_first a b Hn).
Qed.

Lemma llm_reply_split_witness :
  write_email_with_llm llm_cfg (post_reply reply_two_blocks) [] [] [] "en"
  = Done (PStr (strip_ws "Subject: Partnership with Acme "),
          strip_ws ("Dear Acme team," ++ nl ++ nl ++ "We would like to meet."),
          "LLM-generated with brief.").
Proof.
  apply (llm_reply_split _ _ _ _ _ _ reply_two_blocks); reflexivity.
Defined.

(** A reply of the model without a blank line is the body as a whole,
    and the subject is then the first subject idea of the brief: the
    default subject when the brief has no such key, and an [IndexError],
    which nothing catches, when its list of ideas is empty. *)
Theorem llm_reply_one_block (settings : Settings)
    (post : string -> string -> list message -> float -> Z -> Exn.result response)
    (org company brief : list (string * pyval)) (language out : string) :
  chat_completion settings post [mkMessage "user" (email_prompt org company brief language)]
    0.4%float 700 = Exn.Ok (PStr out) ->
  contains (nl ++ nl) (strip_ws out) = false ->
  (assoc "subject_ideas" brief = None ->
   write_email_with_llm settings post org company brief language
   = Done (PStr "Hợp tác tài trợ", strip_ws out, "LLM-generated with brief."))
  /\ (forall x ideas,
        assoc "subject_ideas" brief = Some (PList (x :: ideas)) ->
        write_email_with_llm settings post org company brief language
        = Done (x, strip_ws out, "LLM-generated with brief."))
  /\ (assoc "subject_ideas" brief = Some (PList []) ->
      write_email_with_llm settings post org company brief language
      = Failed (IndexError "list index out of range")).
Proof.
  intros Hc Hn. unfold write_email_with_llm. rewrite Hc, (split_once_none _ _ Hn).
  unfold dict_get_default. repeat split.
  - intros ->. reflexivity.
  - intros x ideas ->. reflexivity.
  - intros ->. reflexivity.
Qed.

Lemma llm_reply_one_block_witness :
  (assoc "subject_ideas" [("subject_ideas", PList [])] = None ->
   write_email_with_llm llm_cfg (post_reply "We would like to meet.") [] []
     [("subject_ideas", PList [])] "en"
   = Done (PStr "Hợp tác tài trợ", strip_ws "We would like to meet.",
           "LLM-generated with brief."))
  /\ (forall x ideas,
        assoc "subject_ideas" [("subject_ideas", PList [])] = Some (PList (x :: ideas)) ->
        write_email_with_llm llm_cfg (post_reply "We would like to meet.") [] []
          [("subject_ideas", PList [])] "en"
        = Done (x, strip_ws "We would like to meet.", "LLM-generated with brief."))
  /\ (assoc "subject_ideas" [("subject_ideas", PList [])] = Some (PList []) ->
      write_email_with_llm llm_cfg (post_reply "We would like to meet.") [] []
        [("subject_ideas", PList [])] "en"
      = Failed (IndexError "list index out of range")).
Proof.
  apply llm_reply_one_block; reflexivity.
Defined.

(** In offline mode ([LLM_PROVIDER=none]) a draft is always generated,
    and from the template: the profile, the brief and the email are the
    fallbacks of the three steps, no step raises, and the subject is the
    first subject idea of the fallback brief. The sponsorship ask of the
    organisation has to be empty or a string. *)
Theorem offline_draft (settings : Settings)
    (post : string -> string -> list message -> float -> Z -> Exn.result response)
    (json_loads : string -> option pyval)
    (org_dict : list (string * pyval)) (comp : Company) (pages : list (string * string))
    (language : string) :
  LLM_PROVIDER settings = "none" ->
  truthy (dict_get org_dict "sponsorship_ask") = false
  \/ (exists s, dict_get org_dict "sponsorship_ask" = PStr s) ->
  exists prof brief body,
    company_profile_of settings post json_loads comp pages language = Exn.Ok (PDict prof)
    /\ build_personalization_brief settings post json_loads org_dict (comp_dict comp prof)
         language = Exn.Ok (PDict brief)
    /\ write_email_with_llm settings post org_dict (comp_dict comp prof) brief language
       = Done (PStr ("Đề xuất đồng hành tài trợ cùng "
                       ++ py_str (dict_get_default org_dict "org_name" (PStr "chương trình"))),
               body, "Template-generated (offline fallback).").
Proof.
  intros Hoff Hask.
  assert (Ha : exists a, ask_short org_dict = Done a).
  { unfold ask_short, py_or. destruct Hask as [Hf|[s Hs]].
    - rewrite Hf. eexists. reflexivity.
    - rewrite Hs. destruct (truthy (PStr s)); eexists; reflexivity. }
  destruct Ha as [a Ha].
  assert (Hp : exists prof,
             company_profile_of settings post json_loads comp pages language
             = Exn.Ok (PDict prof)).
  { unfold company_profile_of. destruct pages as [|p pages]; [eexists; reflexivity|].
    unfold summarize_company_pages.
    rewrite (BriefSpec.json_from_llm_offline settings post json_loads _ _ _ _ Hoff).
    eexists. reflexivity. }
  destruct Hp as [prof Hp]. exists prof, (fallback_brief org_dict (comp_dict comp prof)).
  eexists. split; [exact Hp|]. split.
  - unfold build_personalization_brief.
    now rewrite (BriefSpec.json_from_llm_offline settings post json_loads _ _ _ _ Hoff).
  - unfold write_email_with_llm. rewrite (chat_completion_offline _ _ _ _ _ Hoff).
    unfold write_email_template, pick. rewrite Ha. reflexivity.
Qed.

Lemma offline_draft_witness :
  exists prof brief body,
    company_profile_of defaults (fun _ _ _ _ _ => Exn.Raise (Exn.RequestException "unreachable"))
      (fun _ => None) WorkerExamples.acme [("https://acme.org", "About Acme")] "vi"
    = Exn.Ok (PDict prof)
    /\ build_personalization_brief defaults
         (fun _ _ _ _ _ => Exn.Raise (Exn.RequestException "unreachable")) (fun _ => None)
         [("org_name", PStr "Youth Fund")] (comp_dict WorkerExamples.acme prof) "vi"
       = Exn.Ok (PDict brief)
    /\ write_email_with_llm defaults
         (fun _ _ _ _ _ => Exn.Raise (Exn.RequestException "unreachable"))
         [("org_name", PStr "Youth Fund")] (comp_dict WorkerExamples.acme prof) brief "vi"
       = Done (PStr ("Đề xuất đồng hành tài trợ cùng "
                       ++ py_str (dict_get_default [("org_name", PStr "Youth Fund")] "org_name"
                                    (PStr "chương trình"))),
               body, "Template-generated (offline fallback).").
Proof.
  apply offline_draft; [reflexivity|left; reflexivity].
Defined.

End EmailWriterSpec.

(** ** sender/mime_builder.py: the attachments of a message *)

Module MimeSpec.

Import Config Exn Sender Attachments.

Lemma attach_spec (header : string -> string -> result string) (files : string -> file_state)
    (paths : list string) (added : list (string * string)) :
  (forall p err, In p paths -> files p <> Unreadable err) ->
  (forall p content, In p paths -> files p = Readable content ->
     exists stored, header "Content-Disposition" (basename p) = Ok stored) ->
  attach header files paths added = Ok (added ++ flat_map (attachment_of files) paths)%list.
Proof.
  revert added. induction paths as [|p paths IH]; intros added H Hn; cbn [attach flat_map].
  - now rewrite app_nil_r.
  - assert (H' : forall q err, In q paths -> files q <> Unreadable err)
      by (intros q err Hq; apply H; now right).
    assert (Hn' : forall q content, In q paths -> files q = Readable content ->
                    exists stored, header "Content-Disposition" (basename q) = Ok stored)
      by (intros q content Hq; apply Hn; now right).
    unfold attachment_of at 1. destruct (files p) as [|content|err] eqn:E.
    + now rewrite IH.
    + destruct (Hn p content (or_introl eq_refl) E) as (stored & ->). cbn [bind].
      rewrite IH by assumption. now rewrite <- app_assoc.
    + exfalso. apply (H p err); [now left|assumption].
Qed.

Lemma attach_raises (header : string -> string -> result string) (files : string -> file_state)
    (paths : list string) (added : list (string * string)) (p err : string)
    (before after : list string) :
  paths = (before ++ p :: after)%list ->
  files p = Unreadable err ->
  (forall q e, In q before -> files q <> Unreadable e) ->
  (forall q content, In q before -> files q = Readable content ->
     exists stored, header "Content-Disposition" (basename q) = Ok stored) ->
  attach header files paths added = Raise (OSError err).
Proof.
  intros -> Hp. revert added. induction before as [|q before IH]; intros added H Hn;
    cbn [app attach].
  - now rewrite Hp.
  - assert (H' : forall r e, In r before -> files r <> Unreadable e)
      by (intros r e Hr; apply H; now right).
    assert (Hn' : forall r content, In r before -> files r = Readable content ->
                    exists stored, header "Content-Disposition" (basename r) = Ok stored)
      by (intros r content Hr; apply Hn; now right).
    destruct (files q) as [|content|e] eqn:E.
    + now apply IH.
    + destruct (Hn q content (or_introl eq_refl) E) as (stored & ->). cbn [bind]. now apply IH.
    + exfalso. apply (H q e); [now left|assumption].
Qed.

(** When [EmailMessage] accepts the three headers, [build_message]
    attaches the files that exist, in the order of the paths and under
    their base names, and skips the paths that do not exist, provided
    every file can be read and its name is accepted; when a file cannot
    be read, the exception of the first such file escapes and no
    message is built. *)
Theorem build_message_attachments (header : string -> string -> result string)
    (files : string -> file_state)
    (subject body_text to_email from_email : string) (attachments : list string)
    (stored_subject stored_to stored_from : string) :
  header "Subject" subject = Ok stored_subject ->
  header "To" to_email = Ok stored_to ->
  header "From" from_email = Ok stored_from ->
  ((forall p err, In p attachments -> files p <> Unreadable err) ->
   (forall p content, In p attachments -> files p = Readable content ->
      exists stored, header "Content-Disposition" (basename p) = Ok stored) ->
   build_message header files subject body_text to_email from_email attachments
   = Ok (mkEmailMessage stored_subject stored_to stored_from body_text
           (flat_map (attachment_of files) attachments)))
  /\ (forall before p after err,
        attachments = (before ++ p :: after)%list ->
        files p = Unreadable err ->
        (forall q e, In q before -> files q <> Unreadable e) ->
        (forall q content, In q before -> files q = Readable content ->
           exists stored, header "Content-Disposition" (basename q) = Ok stored) ->
        build_message header files subject body_text to_email from_email attachments
        = Raise (OSError err)).
Proof.
  intros Hs Ht Hf. unfold build_message. rewrite Hs, Ht, Hf. cbn [bind]. split.
  - intros H Hn. now rewrite (attach_spec header files attachments [] H Hn).
  - intros before p after err Ha Hp Hb Hn.
    now rewrite (attach_raises header files attachments [] p err before after Ha Hp Hb Hn).
Qed.

Lemma build_message_attachments_witness :
  ((forall p err, In p ["docs/proposal.pdf"; "missing.pdf"] ->
      example_files p <> Unreadable err) ->
   (forall p content, In p ["docs/proposal.pdf"; "missing.pdf"] ->
      example_files p = Readable content ->
      exists stored, (fun _ value => Ok value) "Content-Disposition" (basename p) = Ok stored) ->
   build_message (fun _ value => Ok value) example_files "Hello" "Body" "info@acme.org"
     "noreply@example.org" ["docs/proposal.pdf"; "missing.pdf"]
   = Ok (mkEmailMessage "Hello" "info@acme.org" "noreply@example.org" "Body"
           (flat_map (attachment_of example_files) ["docs/proposal.pdf"; "missing.pdf"])))
  /\ (forall before p after err,
        ["docs/proposal.pdf"; "missing.pdf"] = (before ++ p :: after)%list ->
        example_files p = Unreadable err ->
        (forall q e, In q before -> example_files q <> Unreadable e) ->
        (forall q content, In q before -> example_files q = Readable content ->
           exists stored, (fun _ value => Ok value) "Content-Disposition" (basename q)
                          = Ok stored) ->
        build_message (fun _ value => Ok value) example_files "Hello" "Body" "info@acme.org"
          "noreply@example.org" ["docs/proposal.pdf"; "missing.pdf"]
        = Raise (OSError err)).
Proof.
  apply (build_message_attachments (fun _ value => Ok value) example_files
           "Hello" "Body" "info@acme.org" "noreply@example.org"); reflexivity.
Defined.

End MimeSpec.

(** ** White space *)

Module WhitespaceSpec.

Import PyStr.

Lemma length_append (a b : string) :
  String.length (a ++ b) = String.length a + String.length b.
Proof. induction a as [|c a IH]; cbn; [reflexivity|now rewrite IH]. Qed.

(** One step of [lstrip_ws]: nothing to drop, or a white-space
    character [w] at the start. *)
Lemma lstrip_ws_step (s : string) :
  (lstrip_ws s = s /\ forall c, first_char s = Some c -> is_space c = false)
  \/ exists w r,
       s = w ++ r /\ w <> "" /\ forall x, lstrip_ws (w ++ x) = lstrip_ws x.
Proof.
  destruct s as [|c1 r1]; [left; split; [reflexivity|discriminate]|].
  destruct (is_space c1) eqn:E1.
  { right. exists (String c1 ""), r1. split; [reflexivity|]. split; [discriminate|].
    intros x. cbn. now rewrite E1. }
  destruct r1 as [|c2 r2].
  { left. cbn. rewrite E1. split; [reflexivity|]. now intros c [= <-]. }
  destruct (is_space2 c1 c2) eqn:E2.
  { right. exists (String c1 (String c2 "")), r2. split; [reflexivity|].
    split; [discriminate|]. intros x. cbn. now rewrite E1, E2. }
  destruct r2 as [|c3 r3].
  { left. cbn. rewrite E1, E2. split; [reflexivity|]. now intros c [= <-]. }
  destruct (is_space3 c1 c2 c3) eqn:E3.
  { right. exists (String c1 (String c2 (String c3 ""))), r3. split; [reflexivity|].
    split; [discriminate|]. intros x. cbn. now rewrite E1, E2, E3. }
  left. cbn. rewrite E1, E2, E3. split; [reflexivity|]. now intros c [= <-].
Qed.

Lemma nonempty_length (w : string) : w <> "" -> 0 < String.length w.
Proof. destruct w; [congruence|cbn; lia]. Qed.

(** What [lstrip_ws] proves of a string, by induction on its length. *)
Lemma lstrip_ws_spec (s : string) :
  (exists p, s = p ++ lstrip_ws s)
  /\ String.length (lstrip_ws s) <= String.length s
  /\ (forall c, first_char (lstrip_ws s) = Some c -> is_space c = false)
  /\ lstrip_ws (lstrip_ws s) = lstrip_ws s.
Proof.
  remember (String.length s) as n eqn:Hn.
  revert s Hn. induction n as [n IH] using lt_wf_ind. intros s Hn.
  destruct (lstrip_ws_step s) as [[Hfix Hfirst]|(w & r & Hs & Hw & Hdrop)].
  - rewrite Hfix. split; [now exists ""|]. split; [lia|]. split; [exact Hfirst|exact Hfix].
  - subst s. rewrite Hdrop. rewrite length_append in Hn.
    pose proof (nonempty_length w Hw) as Hlen.
    destruct (IH (String.length r) ltac:(lia) r eq_refl) as ((p & Hp) & Hle & Hf & Hidem).
    split.
    + exists (w ++ p). rewrite Hp at 1. clear.
      induction w as [|c w IHw]; cbn; [reflexivity|now rewrite IHw].
    + split; [lia|]. split; [exact Hf|exact Hidem].
Qed.

Lemma lstrip_ws_idem (s : string) : lstrip_ws (lstrip_ws s) = lstrip_ws s.
Proof. apply lstrip_ws_spec. Qed.


(** White space before a text is dropped with the white space the text
    starts with. *)
Lemma all_space_append (a x : string) :
  all_space a = true -> lstrip_ws (a ++ x) = lstrip_ws x.
Proof.
  unfold all_space. remember (String.length a) as n eqn:Hn.
  revert a Hn. induction n as [n IH] using lt_wf_ind. intros a Hn Ha.
  apply String.eqb_eq in Ha.
  destruct (lstrip_ws_step a) as [[Hfix _]|(w & r & Hs & Hw & Hdrop)].
  - rewrite Hfix in Ha. now subst a.
  - subst a. rewrite Hdrop in Ha. rewrite length_append in Hn.
    pose proof (nonempty_length w Hw) as Hlen.
    replace ((w ++ r) ++ x) with (w ++ (r ++ x))
      by (clear; induction w as [|c w IHw]; cbn; [reflexivity|now rewrite IHw]).
    rewrite Hdrop. apply (IH (String.length r)); [lia|reflexivity|].
    rewrite Ha. reflexivity.
Qed.

Lemma rstrip_ws_cons (c : ascii) (s : string) :
  rstrip_ws (String c s) = EmptyString
  \/ (all_space (String c s) = false /\ rstrip_ws (String c s) = String c (rstrip_ws s)).
Proof. cbn [rstrip_ws]. destruct (all_space (String c s)); auto. Qed.


(** What [rstrip_ws] drops is white space. *)
Lemma rstrip_ws_split (s : string) : exists w, s = rstrip_ws s ++ w /\ all_space w = true.
Proof.
  induction s as [|c s (w & Hs & Hw)]; [now exists ""|].
  cbn [rstrip_ws]. destruct (all_space (String c s)) eqn:E.
  - now exists (String c s).
  - exists w. split; [cbn; now rewrite <- Hs|exact Hw].
Qed.

Lemma rstrip_ws_idem (s : string) : rstrip_ws (rstrip_ws s) = rstrip_ws s.
Proof.
  induction s as [|c s IH]; [reflexivity|].
  destruct (rstrip_ws_cons c s) as [->|[Hns ->]]; [reflexivity|].
  cbn [rstrip_ws]. rewrite IH.
  destruct (all_space (String c (rstrip_ws s))) eqn:E; [|reflexivity].
  exfalso. destruct (rstrip_ws_split s) as (w & Hs & Hw).
  assert (Hall : all_space (String c s) = true).
  { unfold all_space. rewrite Hs at 1.
    change (String c (rstrip_ws s ++ w)) with (String c (rstrip_ws s) ++ w).
    rewrite (all_space_append _ _ E). exact Hw. }
  congruence.
Qed.



(** A text that starts with no white space still does once its end is
    stripped. *)
Lemma lstrip_ws_rstrip_ws (t : string) :
  lstrip_ws t = t -> lstrip_ws (rstrip_ws t) = rstrip_ws t.
Proof.
  intros Ht. destruct (rstrip_ws_split t) as (w & Hs & _).
  destruct (lstrip_ws_step (rstrip_ws t)) as [[Hfix _]|(w' & r & Hu & Hw' & Hdrop)];
    [exact Hfix|].
  exfalso. rewrite Hu in Hs.
  assert (Hs' : t = w' ++ (r ++ w)).
  { rewrite Hs. clear. induction w' as [|c w' IHw]; cbn; [reflexivity|now rewrite IHw]. }
  pose proof (nonempty_length w' Hw') as Hlen.
  destruct (lstrip_ws_spec (r ++ w)) as (_ & Hle & _).
  rewrite Hs', Hdrop in Ht. rewrite Ht, !length_append in Hle. lia.
Qed.

(** [strip] is idempotent, and what it returns neither starts nor ends
    with an ASCII white-space character. *)
Lemma strip_ws_idem (s : string) : strip_ws (strip_ws s) = strip_ws s.
Proof.
  unfold strip_ws.
  rewrite (lstrip_ws_rstrip_ws (lstrip_ws s) (lstrip_ws_idem s)).
  apply rstrip_ws_idem.
Qed.


Lemma strip_ws_empty : strip_ws "" = "".
Proof. reflexivity. Qed.

End WhitespaceSpec.

(** ** The scraper: text normalisation and candidate pages *)

Module ScraperSpec.

Import PyStr Exn Finder Scraper.

(** *** Runs *)

Lemma run_le_max_run (p : ascii -> bool) (s : string) : run p s <= max_run p s.
Proof. destruct s as [|c s]; cbn [max_run]; [cbn|]; lia. Qed.

Lemma max_run_tail (p : ascii -> bool) (c : ascii) (s : string) :
  max_run p s <= max_run p (String c s).
Proof. cbn [max_run]. lia. Qed.

Lemma max_run_lstrip (p q : ascii -> bool) (s : string) :
  max_run p (lstrip_by q s) <= max_run p s.
Proof.
  induction s as [|c s IH]; [cbn; lia|]. cbn [lstrip_by].
  destruct (q c); [|lia]. pose proof (max_run_tail p c s). lia.
Qed.


Lemma rstrip_by_cons (q : ascii -> bool) (c : ascii) (s : string) :
  rstrip_by q (String c s) = EmptyString
  \/ rstrip_by q (String c s) = String c (rstrip_by q s).
Proof.
  cbn [rstrip_by]. destruct (rstrip_by q s); [destruct (q c)|]; auto.
Qed.

Lemma run_rstrip (p q : ascii -> bool) (s : string) : run p (rstrip_by q s) <= run p s.
Proof.
  induction s as [|c s IH]; [cbn; lia|].
  destruct (rstrip_by_cons q c s) as [->| ->]; [cbn; lia|].
  cbn [run]. destruct (p c); lia.
Qed.

Lemma max_run_rstrip (p q : ascii -> bool) (s : string) :
  max_run p (rstrip_by q s) <= max_run p s.
Proof.
  induction s as [|c s IH]; [cbn; lia|].
  pose proof (run_rstrip p q (String c s)) as Hr.
  destruct (rstrip_by_cons q c s) as [E|E]; rewrite E in *; [cbn; lia|].
  cbn [max_run] in *. lia.
Qed.

Lemma max_run_strip (p q : ascii -> bool) (s : string) :
  max_run p (strip_by q s) <= max_run p s.
Proof.
  unfold strip_by. pose proof (max_run_rstrip p q (lstrip_by q s)).
  pose proof (max_run_lstrip p q s). lia.
Qed.





(** *** The substitution *)







(** *** Candidate pages *)

Lemma existsb_eqb_false (u : string) (seen : list string) :
  existsb (String.eqb u) seen = false -> ~ In u seen.
Proof.
  intros H Hin. assert (existsb (String.eqb u) seen = true); [|congruence].
  apply existsb_exists. exists u. split; [exact Hin|apply String.eqb_refl].
Qed.

Lemma dedup_loop_spec (out seen dedup : list string) :
  exists k,
    dedup_loop out seen dedup = (dedup ++ k)%list
    /\ incl k out
    /\ (NoDup dedup -> incl dedup seen -> NoDup (dedup ++ k)%list).
Proof.
  revert seen dedup. induction out as [|u out IH]; intros seen dedup; cbn [dedup_loop].
  - exists []. rewrite app_nil_r. split; [reflexivity|]. split; [apply incl_refl|auto].
  - destruct (existsb (String.eqb u) seen) eqn:E.
    + destruct (IH seen dedup) as (k & Hk & Hi & Hn).
      exists k. split; [exact Hk|]. split; [now apply incl_tl|exact Hn].
    + destruct (IH (u :: seen) (dedup ++ [u])%list) as (k & Hk & Hi & Hn).
      exists (u :: k). rewrite Hk, <- app_assoc. split; [reflexivity|]. split.
      * intros x [<-|Hx]; [now left|right; now apply Hi].
      * intros Hnd Hincl. change (u :: k) with ([u] ++ k)%list. rewrite app_assoc.
        apply Hn.
        -- apply NoDup_app; [exact Hnd|repeat constructor; auto|].
           intros x Hx [<-|[]]. apply existsb_eqb_false in E. apply E. now apply Hincl.
        -- intros x Hx. apply in_app_or in Hx as [Hx|[<-|[]]]; [right; now apply Hincl|now left].
Qed.

Lemma same_host_spec (netloc : string -> result string) (host : string) (us out r : list string) :
  same_host netloc host us out = Ok r ->
  exists kept, r = (out ++ kept)%list /\ incl kept us.
Proof.
  revert out. induction us as [|u us IH]; intros out; cbn [same_host].
  - intros [= <-]. exists []. now rewrite app_nil_r.
  - destruct (netloc u) as [h|e]; cbn [bind]; [|discriminate].
    intros H. apply IH in H as (kept & -> & Hi).
    destruct (String.eqb h host).
    + exists (u :: kept). rewrite <- app_assoc. split; [reflexivity|].
      intros x [<-|Hx]; [now left|right; now apply Hi].
    + exists kept. split; [reflexivity|now apply incl_tl].
Qed.

Lemma same_host_head (netloc : string -> result string) (host u : string)
    (rest r : list string) :
  netloc u = Ok host ->
  same_host netloc host (u :: rest) [] = Ok r ->
  hd_error r = Some u.
Proof.
  intros Hn. cbn [same_host]. rewrite Hn. cbn [bind]. rewrite String.eqb_refl.
  intros H. apply same_host_spec in H as (kept & -> & _). reflexivity.
Qed.

Lemma rstrip_by_keeps (q : ascii -> bool) (c : ascii) (s : string) :
  q c = false -> rstrip_by q (String c s) = String c (rstrip_by q s).
Proof. intros H. cbn [rstrip_by]. destruct (rstrip_by q s); [now rewrite H|reflexivity]. Qed.

Lemma rstrip_slash_http (s : string) :
  prefix "http" s = true -> prefix "http" (rstrip_by (fun c => mem_char c "/") s) = true.
Proof.
  intros H.
  destruct s as [|c1 [|c2 [|c3 [|c4 s]]]]; cbn in H; try discriminate;
    repeat match type of H with
           | (if ?d then _ else _) = true => destruct d as [<-|]; [|discriminate]
           end; try discriminate.
  rewrite !rstrip_by_keeps by reflexivity.
  cbn. destruct (rstrip_by _ s); reflexivity.
Qed.

(** The candidate pages of a website: none for a blank website;
    otherwise the list starts with the base URL, which starts with
    "http" and does not end with a slash, holds no URL twice, and every
    URL of it is the base or the base followed by one of the thirteen
    fixed paths. *)
Theorem guess_key_pages_spec (netloc : string -> result string) (website : string)
    (pages : list string) :
  guess_key_pages netloc website = Ok pages ->
  (strip_ws website = "" -> pages = [])
  /\ (strip_ws website <> "" ->
      exists base,
        prefix "http" base = true
        /\ last_char base <> Some "/"%char
        /\ hd_error pages = Some base
        /\ NoDup pages
        /\ incl pages (candidates base)).
Proof.
  unfold guess_key_pages. intros H. split.
  - intros E. rewrite E in H. cbn in H. congruence.
  - intros E. apply String.eqb_neq in E. rewrite E in H.
    set (w := if prefix "http" (strip_ws website) then strip_ws website
              else "https://" ++ strip_ws website) in H.
    set (base := rstrip_by (fun c => mem_char c "/") w) in H.
    exists base.
    destruct (netloc base) as [host|e] eqn:En; cbn [bind] in H; [|discriminate].
    destruct (same_host netloc host (candidates base) []) as [out|e] eqn:Es;
      cbn [bind] in H; [|discriminate].
    injection H as <-.
    destruct (dedup_loop_spec out [] []) as (k & Hk & Hi & Hn). cbn [app] in Hk, Hn.
    split; [|split; [|split; [|split]]].
    + apply rstrip_slash_http. subst w.
      destruct (prefix "http" (strip_ws website)) eqn:Ep; [exact Ep|reflexivity].
    + intros Hl. apply ExtractSpec.rstrip_by_last in Hl. discriminate.
    + pose proof (same_host_head netloc host base _ out En Es) as Hh.
      rewrite Hk. destruct out as [|u out]; [discriminate|].
      injection Hh as ->. cbn [dedup_loop existsb] in Hk.
      destruct (dedup_loop_spec out [base] ([] ++ [base])%list) as (k' & Hk' & _).
      rewrite Hk' in Hk. now rewrite <- Hk.
    + rewrite Hk. apply Hn; [constructor|apply incl_nil_l].
    + rewrite Hk. apply same_host_spec in Es as (kept & -> & Hkept).
      intros x Hx. apply Hkept. apply Hi in Hx. exact Hx.
Qed.

Lemma guess_key_pages_spec_witness :
  (strip_ws " acme.org/ " = "" -> candidates "https://acme.org" = [])
  /\ (strip_ws " acme.org/ " <> "" ->
      exists base,
        prefix "http" base = true
        /\ last_char base <> Some "/"%char
        /\ hd_error (candidates "https://acme.org") = Some base
        /\ NoDup (candidates "https://acme.org")
        /\ incl (candidates "https://acme.org") (candidates base)).
Proof.
  apply (guess_key_pages_spec (fun _ => Ok "acme.org") " acme.org/ ").
  reflexivity.
Defined.

End ScraperSpec.

(** ** The order and the choice of the candidates *)

Module ContactOrderSpec.

Import PyStr Finder Occurrences BestFirst.

Lemma eqb_level (c c' : float) :
  is_score c -> is_score c' -> PrimFloat.eqb c c' = Nat.eqb (level c) (level c').
Proof.
  unfold is_score. intros H H'. AggregateSpec.score_cases H; AggregateSpec.score_cases H';
    reflexivity.
Qed.

Lemma leb_level (c c' : float) :
  is_score c -> is_score c' -> PrimFloat.leb c c' = Nat.leb (level c) (level c').
Proof.
  unfold is_score. intros H H'. AggregateSpec.score_cases H; AggregateSpec.score_cases H';
    reflexivity.
Qed.

(** On candidates with a confidence of the six values, the comparison
    of the sort keys is the lexicographic order of level and weight. *)
Lemma key_lt_level (a b : FoundEmail) :
  is_score (confidence a) -> is_score (confidence b) ->
  key_lt (sort_key a) (sort_key b)
  = if Nat.eqb (level (confidence a)) (level (confidence b))
    then (role_weight (role_guess a) <? role_weight (role_guess b))%Z
    else Nat.ltb (level (confidence a)) (level (confidence b)).
Proof.
  intros Ha Hb. unfold key_lt, sort_key. cbn [fst snd].
  now rewrite (eqb_level _ _ Ha Hb), (AggregateSpec.ltb_level _ _ Ha Hb).
Qed.

Lemma not_less_trans (a b c : FoundEmail) : not_less a b -> not_less b c -> not_less a c.
Proof.
  intros (Ha & Hb & Hab) (_ & Hc & Hbc). split; [exact Ha|]. split; [exact Hc|].
  rewrite key_lt_level in * by assumption.
  destruct (Nat.eqb_spec (level (confidence a)) (level (confidence b))) as [E1|E1];
    destruct (Nat.eqb_spec (level (confidence b)) (level (confidence c))) as [E2|E2];
    destruct (Nat.eqb_spec (level (confidence a)) (level (confidence c))) as [E3|E3];
    rewrite ?Z.ltb_ge, ?Z.ltb_lt, ?Nat.ltb_ge, ?Nat.ltb_lt in *; lia.
Qed.

Lemma not_less_of_lt (x y : FoundEmail) :
  is_score (confidence x) -> is_score (confidence y) ->
  key_lt (sort_key x) (sort_key y) = true -> not_less y x.
Proof.
  intros Hx Hy H. split; [exact Hy|]. split; [exact Hx|].
  rewrite key_lt_level in * by assumption.
  rewrite (Nat.eqb_sym (level (confidence y))).
  destruct (Nat.eqb_spec (level (confidence x)) (level (confidence y)));
    rewrite ?Z.ltb_ge, ?Z.ltb_lt, ?Nat.ltb_ge, ?Nat.ltb_lt in *; lia.
Qed.

Lemma insert_desc_sorted (x : FoundEmail) (l : list FoundEmail) :
  is_score (confidence x) -> scored l ->
  StronglySorted not_less l -> StronglySorted not_less (insert_desc x l).
Proof.
  intros Hx. induction l as [|y l IH]; intros Hsc Hs; cbn [insert_desc].
  - repeat constructor.
  - inversion Hsc as [|? ? Hy Hl]; subst. inversion Hs as [|? ? Hs' Hall]; subst.
    destruct (key_lt (sort_key x) (sort_key y)) eqn:E.
    + constructor; [now apply IH|].
      eapply Permutation_Forall; [symmetry; apply AggregateSpec.insert_desc_perm|].
      constructor; [now apply not_less_of_lt|exact Hall].
    + assert (Hxy : not_less x y) by (repeat split; assumption).
      constructor; [exact Hs|]. constructor; [exact Hxy|].
      eapply Forall_impl; [|exact Hall]. intros z Hz. now apply (not_less_trans x y z).
Qed.

Lemma sorted_desc_sorted (l : list FoundEmail) :
  scored l -> StronglySorted not_less (sorted_desc l).
Proof.
  unfold sorted_desc. induction l as [|x l IH]; intros Hsc; cbn [fold_right].
  - constructor.
  - inversion Hsc as [|? ? Hx Hl]; subst. apply insert_desc_sorted; [exact Hx| |now apply IH].
    eapply Permutation_Forall; [symmetry; apply AggregateSpec.sorted_desc_perm|exact Hl].
Qed.

Lemma strongly_sorted_impl {A : Type} (R R' : A -> A -> Prop) (l : list A) :
  (forall a b, R a b -> R' a b) -> StronglySorted R l -> StronglySorted R' l.
Proof.
  intros H. induction 1 as [|a l Hs IH Hall]; constructor; [exact IH|].
  eapply Forall_impl; [|exact Hall]. intros b. apply H.
Qed.

Lemma found_scored (pages : list (string * string)) (f : FoundEmail) :
  In f (find_contacts_from_pages pages) ->
  In f (occ (email f) pages) /\ is_score (confidence f)
  /\ (forall g, In g (occ (email f) pages) -> level (confidence g) <= level (confidence f)).
Proof.
  intros Hf. apply AggregateSpec.find_contacts_In in Hf.
  apply AggregateSpec.best_max in Hf; [|apply AggregateSpec.occ_scored].
  destruct Hf as [Hin Hmax]. split; [exact Hin|]. split; [|exact Hmax].
  pose proof (AggregateSpec.occ_scored (email f) pages) as Hsc.
  unfold scored in Hsc. rewrite Forall_forall in Hsc. now apply Hsc.
Qed.

(** The candidates are returned best first: of two candidates, the one
    that comes first has the greater confidence, or the same confidence
    and a role of at least the same weight. *)
Theorem find_contacts_best_first (pages : list (string * string)) :
  StronglySorted
    (fun a b =>
       PrimFloat.ltb (confidence b) (confidence a) = true
       \/ (confidence a = confidence b
           /\ (role_weight (role_guess b) <= role_weight (role_guess a))%Z))
    (find_contacts_from_pages pages).
Proof.
  apply (strongly_sorted_impl not_less).
  - intros a b (Ha & Hb & H). rewrite key_lt_level in H by assumption.
    rewrite (AggregateSpec.ltb_level _ _ Hb Ha).
    destruct (Nat.eqb_spec (level (confidence a)) (level (confidence b))) as [E|E].
    + right. split; [now apply AggregateSpec.level_inj|]. now apply Z.ltb_ge.
    + left. apply Nat.ltb_ge in H. apply Nat.ltb_lt. lia.
  - unfold find_contacts_from_pages. apply sorted_desc_sorted.
    apply Forall_forall. intros f Hf.
    apply (found_scored pages).
    unfold find_contacts_from_pages.
    apply (Permutation_in (l := dict_values (collect pages)));
      [symmetry; apply AggregateSpec.sorted_desc_perm|exact Hf].
Qed.

(** A candidate returned for an email is the one built on a page where
    the email occurs, and no page where it occurs gives the email a
    greater confidence. *)
Theorem find_contacts_best_occurrence (pages : list (string * string)) (f : FoundEmail) :
  In f (find_contacts_from_pages pages) ->
  (exists url txt,
     In (url, txt) pages
     /\ In (email f) (extract_emails txt)
     /\ found_on f = url
     /\ (role_guess f, confidence f) = guess_role (email f) url txt)
  /\ (forall url txt,
        In (url, txt) pages -> In (email f) (extract_emails txt) ->
        PrimFloat.leb (snd (guess_role (email f) url txt)) (confidence f) = true).
Proof.
  intros Hf. destruct (found_scored pages f Hf) as (Hin & Hsc & Hmax). split.
  - apply AggregateSpec.occ_In in Hin. destruct Hin as ([url txt] & Hp & Ho & E).
    exists url, txt. split; [exact Hp|]. split.
    + unfold occurs, mem in Ho. cbn [snd] in Ho. apply existsb_exists in Ho.
      destruct Ho as (e & He & Heq). apply String.eqb_eq in Heq. now subst e.
    + pose proof (f_equal found_on E) as Hfo. pose proof (f_equal role_guess E) as Hr.
      pose proof (f_equal confidence E) as Hc.
      cbn [candidate found_on role_guess confidence fst snd] in Hfo, Hr, Hc.
      split; [exact Hfo|]. rewrite Hr, Hc. now destruct (guess_role (email f) url txt).
  - intros url txt Hp He.
    assert (Hg : In (candidate (email f) (url, txt)) (occ (email f) pages)).
    { apply AggregateSpec.occ_In. exists (url, txt). split; [exact Hp|]. split; [|reflexivity].
      unfold occurs, mem. cbn [snd]. apply existsb_exists. exists (email f).
      split; [exact He|apply String.eqb_refl]. }
    apply Hmax in Hg. cbn [candidate confidence fst snd] in Hg.
    rewrite leb_level; [now apply Nat.leb_le|apply AggregateSpec.guess_role_is_score|exact Hsc].
Qed.

Lemma find_contacts_best_occurrence_witness :
  (exists url txt,
     In (url, txt) [("https://acme.org/contact", "Write to info@acme.org for details")]
     /\ In (email (candidate "info@acme.org"
                     ("https://acme.org/contact", "Write to info@acme.org for details")))
          (extract_emails txt)
     /\ found_on (candidate "info@acme.org"
                    ("https://acme.org/contact", "Write to info@acme.org for details")) = url
     /\ (role_guess (candidate "info@acme.org"
                       ("https://acme.org/contact", "Write to info@acme.org for details")),
         confidence (candidate "info@acme.org"
                       ("https://acme.org/contact", "Write to info@acme.org for details")))
        = guess_role
            (email (candidate "info@acme.org"
                      ("https://acme.org/contact", "Write to info@acme.org for details")))
            url txt)
  /\ (forall url txt,
        In (url, txt) [("https://acme.org/contact", "Write to info@acme.org for details")] ->
        In (email (candidate "info@acme.org"
                     ("https://acme.org/contact", "Write to info@acme.org for details")))
           (extract_emails txt) ->
        PrimFloat.leb
          (snd (guess_role
                  (email (candidate "info@acme.org"
                            ("https://acme.org/contact", "Write to info@acme.org for details")))
                  url txt))
          (confidence (candidate "info@acme.org"
                         ("https://acme.org/contact", "Write to info@acme.org for details")))
        = true).
Proof.
  apply (find_contacts_best_occurrence
           [("https://acme.org/contact", "Write to info@acme.org for details")]).
  vm_compute. left. reflexivity.
Defined.

End ContactOrderSpec.

(** ** The organisation profile and the proposal text *)

Module OrgProfileSpec.

Import PyStr PyVal Llm Utf8 PyErr EmailWriter OrgProfile ProposalPdf CompanyProfile.
Import OrgProfileExamples.

(** *** [strip] is idempotent *)

Lemma lstrip_by_fixed (p : ascii -> bool) (s : string) :
  (forall c, first_char s = Some c -> p c = false) -> lstrip_by p s = s.
Proof.
  destruct s as [|c s]; [reflexivity|]. intros H. cbn [lstrip_by].
  now rewrite (H c eq_refl).
Qed.

Lemma rstrip_by_idem (p : ascii -> bool) (s : string) :
  rstrip_by p (rstrip_by p s) = rstrip_by p s.
Proof.
  induction s as [|c s IH]; [reflexivity|]. cbn [rstrip_by].
  destruct (rstrip_by p s) as [|a r] eqn:E.
  - destruct (p c) eqn:Ec; [reflexivity|]. cbn [rstrip_by]. now rewrite Ec.
  - cbn [rstrip_by]. cbn [rstrip_by] in IH. now rewrite IH.
Qed.

Lemma strip_by_idem (p : ascii -> bool) (s : string) :
  strip_by p (strip_by p s) = strip_by p s.
Proof.
  unfold strip_by. rewrite (lstrip_by_fixed p (rstrip_by p (lstrip_by p s))).
  - apply rstrip_by_idem.
  - intros c H. apply ExtractSpec.rstrip_by_first in H.
    now apply ExtractSpec.lstrip_by_first in H.
Qed.

Lemma assoc_In (k : string) (v : pyval) (d : list (string * pyval)) :
  assoc k d = Some v -> In (k, v) d.
Proof.
  induction d as [|[k' v'] d IH]; cbn [assoc]; [discriminate|].
  destruct (String.eqb_spec k k') as [->|]; [intros [= ->]; now left|].
  intros H. right. now apply IH.
Qed.

(** [_clean_payload] keeps exactly the twelve fields, in the order of
    [FIELDS], whatever keys the payload has: a field is the stripped
    text of the payload's value, and the empty string when the payload
    lacks the key or holds [None] for it. Every value is stripped. *)
Theorem clean_payload_fields (items : list (string * pyval)) :
  exists out,
    _clean_payload (PDict items) = Done out
    /\ keys out = FIELDS
    /\ (forall k, In k FIELDS ->
          assoc k out
          = Some (PStr (match assoc k items with
                        | None | Some PNone => ""
                        | Some v => strip_ws (py_str v)
                        end)))
    /\ Forall (fun kv => exists s, snd kv = PStr s /\ strip_ws s = s) out.
Proof.
  eexists. split; [reflexivity|]. split; [reflexivity|]. split.
  - intros k Hin. unfold FIELDS in Hin. cbn [In] in Hin.
    repeat (destruct Hin as [<-|Hin];
            [unfold dict_get_default; cbn [fold_left FIELDS clean_field set_item assoc
               String.eqb Ascii.eqb Bool.eqb];
             unfold dict_get_default;
             match goal with |- context [assoc ?k items] => destruct (assoc k items) as [[]|] end;
             reflexivity|]).
    destruct Hin.
  - cbn [fold_left FIELDS clean_field set_item String.eqb Ascii.eqb Bool.eqb].
    repeat (apply Forall_cons;
            [cbn [snd]; eexists; split; [reflexivity|apply WhitespaceSpec.strip_ws_idem]|]).
    apply Forall_nil.
Qed.

Lemma clean_payload_done (d : pyval) (out : list (string * pyval)) :
  _clean_payload d = Done out ->
  keys out = FIELDS
  /\ (forall k v, assoc k out = Some v -> exists s, v = PStr s /\ strip_ws s = s).
Proof.
  destruct d as [| | | | |items]; try discriminate.
  destruct (clean_payload_fields items) as (out' & E & Hk & _ & Hall).
  rewrite E. intros [= <-]. split; [exact Hk|].
  intros k v H. apply assoc_In in H. rewrite Forall_forall in Hall.
  apply (Hall (k, v) H).
Qed.

(** With [LLM_PROVIDER] unset or set to "none", in any letter case,
    [extract_org_profile_with_llm] sends no request and returns the
    profile whose twelve fields are empty. *)
Theorem org_profile_offline (getenv : string -> option string)
    (post : string -> string -> string -> list message -> float -> Z -> Exn.result response)
    (json_loads : string -> option pyval) (raw_pdf_text : string) :
  lower (getenv_default getenv "LLM_PROVIDER" "none") = "none" ->
  extract_org_profile_with_llm getenv post json_loads raw_pdf_text
  = Done (map (fun k => (k, PStr "")) FIELDS).
Proof.
  intros H. unfold extract_org_profile_with_llm. rewrite H. reflexivity.
Qed.

Lemma org_profile_offline_witness :
  extract_org_profile_with_llm
    (fun k => if String.eqb k "LLM_PROVIDER" then Some "None" else None)
    post_profile loads_profile "Proposal of the Youth Fund"
  = Done (map (fun k => (k, PStr "")) FIELDS).
Proof. apply org_profile_offline. reflexivity. Defined.

(** Whenever [extract_org_profile_with_llm] returns, the profile has
    exactly the twelve fields of [FIELDS], in that order, and every
    value is a stripped string. *)
Theorem org_profile_fields (getenv : string -> option string)
    (post : string -> string -> string -> list message -> float -> Z -> Exn.result response)
    (json_loads : string -> option pyval) (raw_pdf_text : string)
    (out : list (string * pyval)) :
  extract_org_profile_with_llm getenv post json_loads raw_pdf_text = Done out ->
  keys out = FIELDS
  /\ (forall k v, assoc k out = Some v -> exists s, v = PStr s /\ strip_ws s = s).
Proof.
  unfold extract_org_profile_with_llm.
  destruct (String.eqb (lower _) "none").
  - intros [= <-]. split; [reflexivity|].
    intros k v H. apply assoc_In in H. cbn in H.
    repeat (destruct H as [[= <- <-]|H]; [exists ""; split; reflexivity|]). destruct H.
  - destruct (String.eqb (strip_ws _) ""); [discriminate|].
    destruct (post _ _ _ _ _ _) as [r|e]; cbn [of_result and_then]; [|discriminate].
    destruct (_ && _); [discriminate|].
    destruct (json r) as [body|]; [|discriminate].
    destruct (py_item body "choices") as [choices|]; cbn [and_then]; [|discriminate].
    destruct (py_index choices 0) as [choice|]; cbn [and_then]; [|discriminate].
    destruct (py_item choice "message") as [m|]; cbn [and_then]; [|discriminate].
    destruct (py_item m "content") as [content|]; cbn [and_then]; [|discriminate].
    destruct content as [| | |c| |]; try discriminate.
    destruct (json_loads c) as [data|]; [apply clean_payload_done|].
    destruct (salvage json_loads c) as [data|]; cbn [and_then]; [|discriminate].
    apply clean_payload_done.
Qed.

Lemma org_profile_fields_witness :
  keys (map (fun kv => (fst kv, PStr (snd kv)))
          [("org_name", "Youth Fund"); ("org_website", ""); ("contact_name", "");
           ("contact_email", ""); ("contact_phone", ""); ("mission", ""); ("programs", "");
           ("event_summary", ""); ("sponsorship_ask", ""); ("sponsorship_tiers", "");
           ("audience", ""); ("impact_metrics", "")]) = FIELDS
  /\ (forall k v,
        assoc k (map (fun kv => (fst kv, PStr (snd kv)))
                   [("org_name", "Youth Fund"); ("org_website", ""); ("contact_name", "");
                    ("contact_email", ""); ("contact_phone", ""); ("mission", "");
                    ("programs", ""); ("event_summary", ""); ("sponsorship_ask", "");
                    ("sponsorship_tiers", ""); ("audience", ""); ("impact_metrics", "")])
        = Some v ->
        exists s, v = PStr s /\ strip_ws s = s).
Proof.
  apply (org_profile_fields env_openai post_profile loads_profile "Proposal of the Youth Fund").
  reflexivity.
Defined.

(** *** The text of the proposal *)

Lemma read_pages_spec (doc : list (option string)) (i max_pages : Z) (texts : list string) :
  read_pages i doc max_pages texts
  = (texts ++ readable (firstn (Z.to_nat (max_pages - i)) doc))%list.
Proof.
  revert i texts. induction doc as [|page doc IH]; intros i texts; cbn [read_pages].
  - rewrite firstn_nil. cbn. now rewrite app_nil_r.
  - destruct (Z.geb_spec i max_pages) as [Hge|Hlt].
    + replace (Z.to_nat (max_pages - i)) with 0 by lia. cbn. now rewrite app_nil_r.
    + replace (Z.to_nat (max_pages - i)) with (S (Z.to_nat (max_pages - (i + 1)))) by lia.
      cbn [firstn readable flat_map]. fold (readable (firstn (Z.to_nat (max_pages - (i + 1))) doc)).
      destruct page as [t|]; rewrite IH; [now rewrite <- app_assoc|reflexivity].
Qed.

(** Of a document that opens, [extract_text_from_pdf] reads the first
    [max_pages] pages only: the text is that of the pages among them
    that can be read, joined by blank lines and stripped; a page that
    cannot be read is left out, and still counts as one of the
    [max_pages]. *)
Theorem pdf_first_pages (open_ : string -> option (list (option string)))
    (pdf_path : string) (max_pages : Z) (doc : list (option string)) :
  open_ pdf_path = Some doc ->
  extract_text_from_pdf (Some open_) pdf_path max_pages
  = strip_ws (String.concat (nl ++ nl) (readable (firstn (Z.to_nat max_pages) doc))).
Proof.
  intros H. unfold extract_text_from_pdf. rewrite H, read_pages_spec.
  now rewrite Z.sub_0_r.
Qed.

Lemma pdf_first_pages_witness :
  extract_text_from_pdf (Some (fun _ => Some [Some "Cover"; None; Some "Budget "; Some "Annex"]))
    "proposal.pdf" 3
  = strip_ws (String.concat (nl ++ nl)
                (readable (firstn (Z.to_nat 3) [Some "Cover"; None; Some "Budget "; Some "Annex"]))).
Proof. apply (pdf_first_pages _ "proposal.pdf"). reflexivity. Defined.

End OrgProfileSpec.
